(** * no-loss-of-precision: a shallow embedding of the ESLint rule

    Source: [src/tester/eslint/lib/rules/no-loss-of-precision.js].

    The rule's helper functions are closures of [create(context)]; they are
    embedded here, under their own names, as pure functions over ASCII
    strings.  The two methods of the runtime's numeric type the rule calls
    ([toString(radix)] and [toPrecision(p)]) are gathered in a [Runtime]
    record the rule is parametric in, and [ecma] is the instance that follows
    ECMA-262.  Exceptions are explicit: a computation that may throw returns
    a [result]. *)

From Stdlib Require Import ZArith List Bool Ascii String Lia.
Import ListNotations.

Open Scope string_scope.
Open Scope Z_scope.

(** ** Completions: a value, or a thrown exception *)

Inductive exception : Set := RangeError | TypeError.

Inductive result (A : Type) : Type :=
| Ok (a : A)
| Throw (e : exception).
Arguments Ok {A} a.
Arguments Throw {A} e.

Definition bind {A B : Type} (m : result A) (k : A -> result B) : result B :=
  match m with
  | Ok a => k a
  | Throw e => Throw e
  end.

Notation "x <- m ;; k" := (bind m (fun x => k))
  (at level 61, m at next level, right associativity).

Definition returns {A : Type} (m : result A) : Prop := exists a, m = Ok a.

(** ** String.prototype methods, on ASCII text

    Numeric literal text is ASCII, so a string is a [string] of the Standard
    Library; indices and lengths are [nat], and a search pattern that the
    rule only ever gives as a one-character string is an [ascii]. *)

Module Str.

Definition chr (c : ascii) : string := String c "".

(** [s[0]]: [None] stands for [undefined]. *)
Definition first (s : string) : option ascii :=
  match s with
  | "" => None
  | String c _ => Some c
  end.

Fixpoint drop (n : nat) (s : string) : string :=
  match n, s with
  | O, _ => s
  | S n', String _ s' => drop n' s'
  | S _, "" => ""
  end.

Fixpoint take (n : nat) (s : string) : string :=
  match n, s with
  | S n', String c s' => String c (take n' s')
  | _, _ => ""
  end.

(** [s.slice(i)] and [s.slice(a, b)] for non-negative indices. *)
Definition sliceFrom (s : string) (i : nat) : string := drop i s.
Definition slice (s : string) (a b : nat) : string := take (b - a) (drop a s).

Fixpoint startsWith (s p : string) : bool :=
  match p, s with
  | "", _ => true
  | String b p', String a s' => Ascii.eqb a b && startsWith s' p'
  | String _ _, "" => false
  end.

(** [s.endsWith(p)]: the last [length p] characters of [s] are [p]. *)
Definition endsWith (s p : string) : bool :=
  (length p <=? length s)%nat && String.eqb (drop (length s - length p) s) p.

(** [s.includes(c)] *)
Fixpoint includes (s : string) (c : ascii) : bool :=
  match s with
  | "" => false
  | String a s' => Ascii.eqb a c || includes s' c
  end.

Fixpoint indexOfFrom (s : string) (c : ascii) (i : Z) : Z :=
  match s with
  | "" => -1
  | String a s' => if Ascii.eqb a c then i else indexOfFrom s' c (i + 1)
  end.

(** [s.indexOf(c)]: -1 when [c] does not occur. *)
Definition indexOf (s : string) (c : ascii) : Z := indexOfFrom s c 0.

(** [s.replace(c, r)] with a string pattern: the first occurrence only. *)
Fixpoint replace (s : string) (c : ascii) (r : string) : string :=
  match s with
  | "" => ""
  | String a s' => if Ascii.eqb a c then r ++ s' else String a (replace s' c r)
  end.

(** [s.replace(/c/gu, "")]: every occurrence removed. *)
Fixpoint removeAll (s : string) (c : ascii) : string :=
  match s with
  | "" => ""
  | String a s' => if Ascii.eqb a c then removeAll s' c else String a (removeAll s' c)
  end.

(** [s.split(c)]: never empty, [[""]] for the empty string. *)
Fixpoint split (s : string) (c : ascii) : list string :=
  match s with
  | "" => [""]
  | String a s' =>
      if Ascii.eqb a c then "" :: split s' c
      else match split s' c with
           | h :: t => String a h :: t
           | [] => [chr a]
           end
  end.

Definition upper (c : ascii) : ascii :=
  let n := nat_of_ascii c in
  if ((97 <=? n) && (n <=? 122))%nat then ascii_of_nat (n - 32) else c.

Fixpoint toUpperCase (s : string) : string :=
  match s with
  | "" => ""
  | String a s' => String (upper a) (toUpperCase s')
  end.

Fixpoint all (f : ascii -> bool) (s : string) : bool :=
  match s with
  | "" => true
  | String a s' => f a && all f s'
  end.

Fixpoint repeat (c : ascii) (n : nat) : string :=
  match n with
  | O => ""
  | S n' => String c (repeat c n')
  end.

End Str.

(** ** Numbers

    A Number is NaN, an infinity, or a finite value [(-1)^neg * m * 2^e];
    every IEEE-754 double is of that form, so what holds of all [number]s
    holds of all doubles.  Zero is any [Finite _ 0 _]. *)

Inductive number : Set :=
| NaN
| Infinity (neg : bool)
| Finite (neg : bool) (m : N) (e : Z).

Definition integer (n : N) : number := Finite false n 0.

Definition isZero (x : number) : bool :=
  match x with
  | Finite _ m _ => (m =? 0)%N
  | _ => false
  end.

(** The value is a non-negative integer. *)
Definition isNatural (x : number) : bool :=
  match x with
  | Finite neg m e =>
      (m =? 0)%N || (negb neg && ((0 <=? e) || (Z.of_N m mod 2 ^ (- e) =? 0)))
  | _ => false
  end.

Definition isFinite (x : number) : bool :=
  match x with
  | Finite _ _ _ => true
  | _ => false
  end.

Definition isNegative (x : number) : bool :=
  match x with
  | NaN => false
  | Infinity neg => neg
  | Finite neg m _ => neg && negb (m =? 0)%N
  end.

(** The values a [Literal] node can carry. *)
Inductive Value : Set :=
| VNumber (x : number)
| VString (s : string)
| VBoolean (b : bool)
| VNull
| VBigInt (z : Z)
| VRegExp (pattern flags : string).

(** ToBoolean *)
Definition truthy (v : Value) : bool :=
  match v with
  | VNumber NaN => false
  | VNumber x => negb (isZero x)
  | VString s => negb (String.eqb s "")
  | VBoolean b => b
  | VNull => false
  | VBigInt z => negb (z =? 0)
  | VRegExp _ _ => true
  end.

(** ** Digits *)

Module Digits.

Definition isDigit (c : ascii) : bool :=
  let n := nat_of_ascii c in ((48 <=? n) && (n <=? 57))%nat.

Definition isOctalDigit (c : ascii) : bool :=
  let n := nat_of_ascii c in ((48 <=? n) && (n <=? 55))%nat.

Definition digitValue (c : ascii) : Z := Z.of_nat (nat_of_ascii c) - 48.

(** The digit [d] of a radix up to 36, lower case as the runtime prints it. *)
Definition digitChar (d : Z) : ascii :=
  if d <? 10 then ascii_of_nat (Z.to_nat (48 + d)) else ascii_of_nat (Z.to_nat (87 + d)).

(** The [w] low-order digits of [n] in radix [r], most significant first. *)
Fixpoint digits (r : Z) (w : nat) (n : Z) : string :=
  match w with
  | O => ""
  | S w' => digits r w' (n / r) ++ Str.chr (digitChar (n mod r))
  end.

Fixpoint countFuel (fuel : nat) (r n : Z) : nat :=
  match fuel with
  | O => 1
  | S f => if n <? r then 1%nat else S (countFuel f r (n / r))
  end.

(** How many digits [n >= 0] has in radix [r >= 2] (one for zero). *)
Definition count (r n : Z) : nat := countFuel (Z.to_nat (Z.log2 n)) r n.

(** [n >= 0] in radix [r], without leading zeros. *)
Definition render (r n : Z) : string := digits r (count r n) n.

(** The value of a string of decimal digits. *)
Fixpoint valueFrom (acc : Z) (s : string) : Z :=
  match s with
  | "" => acc
  | String c s' => valueFrom (10 * acc + digitValue c) s'
  end.

Fixpoint takeDigits (s : string) : string :=
  match s with
  | "" => ""
  | String c s' => if isDigit c then String c (takeDigits s') else ""
  end.

End Digits.

(** ** Number.prototype.toString(radix) and toPrecision(p), after ECMA-262 *)

Module Number.

(** [x] is [a / b] for a finite positive [x = m * 2^e]. *)
Definition numerator (m : N) (e : Z) : Z := if 0 <=? e then Z.of_N m * 2 ^ e else Z.of_N m.
Definition denominator (e : Z) : Z := if 0 <=? e then 1 else 2 ^ (- e).

(** The digits of [f / 2^k < 1] in a radix that is a power of two; the
    expansion ends.  (ECMA-262 leaves the digits of a fraction in a radix
    other than ten to the implementation; a binary, octal or hex literal
    denotes an integer, and no statement below is about this branch.) *)
Fixpoint fractionDigits (radix k f : Z) (fuel : nat) : string :=
  match fuel with
  | O => ""
  | S fuel' =>
      if f =? 0 then ""
      else String (Digits.digitChar (f * radix / 2 ^ k))
                  (fractionDigits radix k (f * radix mod 2 ^ k) fuel')
  end.

(** Number::toString(x, radix) for a radix other than ten: an integer is
    printed exactly, digit by digit.  (ECMA-262 asks for digits that
    approximate the value; what the rule is shown to do with the rendering
    holds for whatever digits a runtime prints, see [prefixed_verdict] and
    [legacy_verdict].) *)
Definition toString (x : number) (radix : Z) : string :=
  match x with
  | NaN => "NaN"
  | Infinity neg => (if neg then "-" else "") ++ "Infinity"
  | Finite neg m e =>
      let a := numerator m e in
      let b := denominator e in
      (if isNegative x then "-" else "")
        ++ Digits.render radix (a / b)
        ++ (if a mod b =? 0 then ""
            else "." ++ fractionDigits radix (- e) (a mod b) (Z.to_nat (- e)))
  end.

(** [b * 10^k <= a] *)
Definition scaledLe (b k a : Z) : bool :=
  if 0 <=? k then b * 10 ^ k <=? a else b <=? a * 10 ^ (- k).

(** The [e] with [10^e <= a / b < 10^(e+1)], for positive [a] and [b]
    ([floorLog10_spec]). *)
Definition floorLog10 (a b : Z) : Z :=
  let k := Z.of_nat (Digits.count 10 a) - Z.of_nat (Digits.count 10 b) in
  if scaledLe b k a then k else k - 1.

(** [a / b / 10^s] rounded to the nearest integer, a tie upwards. *)
Definition roundScaled (a b s : Z) : Z :=
  let A := if 0 <=? s then a else a * 10 ^ (- s) in
  let B := if 0 <=? s then b * 10 ^ s else b in
  (2 * A + B) / (2 * B).

(** toPrecision, step 10.a: integers [e] and [n] with
    [10^(p-1) <= n < 10^p] and [n * 10^(e-p+1)] as close to [a / b] as
    possible, the larger [n] of two ([significand_spec]). *)
Definition significand (a b p : Z) : Z * Z :=
  let e := floorLog10 a b in
  let n := roundScaled a b (e - p + 1) in
  if 10 ^ p <=? n then (e + 1, n / 10) else (e, n).

(** The steps of toPrecision for a finite value and [1 <= p <= 100]. *)
Definition toPrecisionFinite (neg : bool) (m : N) (ex : Z) (p : Z) : string :=
  let s := if neg && negb (m =? 0)%N then "-" else "" in
  let '(e, n) :=
    if (m =? 0)%N then (0, 0) else significand (numerator m ex) (denominator ex) p in
  let m := Digits.digits 10 (Z.to_nat p) n in
  if (e <? -6) || (p <=? e) then
    let m := if p =? 1 then m else Str.take 1 m ++ "." ++ Str.drop 1 m in
    let c := if 0 <? e then "+" else "-" in
    let d := Digits.render 10 (Z.abs e) in
    s ++ m ++ "e" ++ c ++ d
  else if e =? p - 1 then s ++ m
  else if 0 <=? e then
    s ++ Str.take (Z.to_nat (e + 1)) m ++ "." ++ Str.drop (Z.to_nat (e + 1)) m
  else
    s ++ "0." ++ Str.repeat "0" (Z.to_nat (- (e + 1))) ++ m.

(** Number.prototype.toPrecision(p): a value that is not finite is printed
    before the range of [p] is looked at. *)
Definition toPrecision (x : number) (p : Z) : result string :=
  match x with
  | NaN => Ok "NaN"
  | Infinity neg => Ok ((if neg then "-" else "") ++ "Infinity")
  | Finite neg m e =>
      if (p <? 1) || (100 <? p) then Throw RangeError
      else Ok (toPrecisionFinite neg m e p)
  end.

Definition isWhiteSpace (c : ascii) : bool :=
  let n := nat_of_ascii c in ((n =? 32) || ((9 <=? n) && (n <=? 13)))%nat.

Fixpoint trimStart (s : string) : string :=
  match s with
  | "" => ""
  | String c s' => if isWhiteSpace c then trimStart s' else s
  end.

(** [parseInt(s, 10)]: [None] is NaN.  The integer is exact here; the
    runtime's is too up to [Number.MAX_SAFE_INTEGER] and rounded beyond, so
    a statement about a magnitude as such is made of integers in that range
    ([Spec.safe]). *)
Definition parseInt (s : string) : option Z :=
  let s := trimStart s in
  let negative := Str.startsWith s "-" in
  let s := if Str.startsWith s "+" || Str.startsWith s "-" then Str.drop 1 s else s in
  let z := Digits.takeDigits s in
  if String.eqb z "" then None
  else Some (if negative then - Digits.valueFrom 0 z else Digits.valueFrom 0 z).

(** The Number value of a non-negative integer, as a parser decodes an
    integer literal: the nearest value with a 53-bit significand, a tie to
    the even one, and infinity from [2^1024] on. *)
Definition ofInteger (n : N) : number :=
  let k := Z.log2 (Z.of_N n) - 52 in
  if k <=? 0 then Finite false n 0
  else
    let q := Z.of_N n / 2 ^ k in
    let r := Z.of_N n mod 2 ^ k in
    let half := 2 ^ (k - 1) in
    let q := if (half <? r) || ((r =? half) && Z.odd q) then q + 1 else q in
    if 2 ^ 1024 <=? q * 2 ^ k then Infinity false else Finite false (Z.to_N q) k.

(** An integer-valued Number (or NaN) in a template literal: all of its
    digits (as the runtime prints an integer below [10^21]). *)
Definition show (n : option Z) : string :=
  match n with
  | None => "NaN"
  | Some z => (if z <? 0 then "-" else "") ++ Digits.render 10 (Z.abs z)
  end.

End Number.

(** What the rule asks of the runtime: the two methods it calls on
    [node.value]. *)
Record Runtime : Type := {
  toString : Value -> Z -> result string;
  toPrecision : Value -> Z -> result string
}.

(** Method lookup on each kind of value, after ECMA-262. *)
Definition ecma : Runtime := {|
  toString v radix :=
    match v with
    | VNumber x => Ok (Number.toString x radix)
    | VString s => Ok s
    | VBoolean b => Ok (if b then "true" else "false")
    | VNull => Throw TypeError
    | VBigInt z => Ok ((if z <? 0 then "-" else "") ++ Digits.render radix (Z.abs z))
    | VRegExp pattern flags => Ok ("/" ++ pattern ++ "/" ++ flags)
    end;
  toPrecision v p :=
    match v with
    | VNumber x => Number.toPrecision x p
    | _ => Throw TypeError
    end
|}.

(** ** The rule *)

Record Node : Set := { raw : string; value : Value }.

Record NormalizedNumber : Set := { magnitude : Z; coefficient : string }.

Record Descriptor : Set := { messageId : string; node : Node }.

Section create.

Variable rt : Runtime.

Definition isNumber (node : Node) : bool :=
  match value node with
  | VNumber _ => true
  | _ => false
  end.

Definition getRaw (node : Node) : string := Str.removeAll (raw node) "_".

Definition prefixes : list string := ["0x"; "0X"; "0b"; "0B"; "0o"; "0O"].

(** [/^0[0-7]+$/u.test(s)] *)
Definition legacyOctal (s : string) : bool :=
  match s with
  | String "0" rest => negb (String.eqb rest "") && Str.all Digits.isOctalDigit rest
  | _ => false
  end.

Definition isBaseTen (node : Node) : bool :=
  forallb (fun prefix => negb (Str.startsWith (raw node) prefix)) prefixes
  && negb (legacyOctal (raw node)).

Definition notBaseTenLosesPrecision (node : Node) : result bool :=
  let rawString := Str.toUpperCase (getRaw node) in
  let base :=
    if Str.startsWith rawString "0B" then 2
    else if Str.startsWith rawString "0X" then 16
    else 8 in
  rendered <- toString rt (value node) base ;;
  Ok (negb (Str.endsWith rawString (Str.toUpperCase rendered))).

(** [`${stringNumber[0]}.${stringNumber.slice(1)}`]; [undefined] is
    interpolated as its name. *)
Definition addDecimalPointToNumber (stringNumber : string) : string :=
  match Str.first stringNumber with
  | Some c => Str.chr c
  | None => "undefined"
  end ++ "." ++ Str.sliceFrom stringNumber 1.

(** [s[i] !== "0"] *)
Definition notZeroAt (s : string) (i : nat) : bool :=
  match String.get i s with
  | Some c => negb (Ascii.eqb c "0")
  | None => true
  end.

(** The loop of removeLeadingZeros from index [i], with [fuel] iterations
    left. *)
Fixpoint removeLeadingZerosFrom (numberAsString : string) (i fuel : nat) : string :=
  match fuel with
  | O => numberAsString
  | S fuel' =>
      if notZeroAt numberAsString i then Str.sliceFrom numberAsString i
      else removeLeadingZerosFrom numberAsString (S i) fuel'
  end.

Definition removeLeadingZeros (numberAsString : string) : string :=
  removeLeadingZerosFrom numberAsString 0 (length numberAsString).

(** The loop of removeTrailingZeros, [i] running down from [n - 1]. *)
Fixpoint removeTrailingZerosFrom (numberAsString : string) (n : nat) : string :=
  match n with
  | O => numberAsString
  | S i =>
      if notZeroAt numberAsString i then Str.slice numberAsString 0 (i + 1)
      else removeTrailingZerosFrom numberAsString i
  end.

Definition removeTrailingZeros (numberAsString : string) : string :=
  removeTrailingZerosFrom numberAsString (length numberAsString).

Definition normalizeInteger (stringInteger : string) : NormalizedNumber :=
  let significantDigits := removeTrailingZeros (removeLeadingZeros stringInteger) in
  {| magnitude :=
       if Str.startsWith stringInteger "0"
       then Z.of_nat (length stringInteger) - 2
       else Z.of_nat (length stringInteger) - 1;
     coefficient := addDecimalPointToNumber significantDigits |}.

Definition normalizeFloat (stringFloat : string) : NormalizedNumber :=
  let trimmedFloat := removeLeadingZeros stringFloat in
  if Str.startsWith trimmedFloat "." then
    let decimalDigits := Str.sliceFrom trimmedFloat 1 in
    let significantDigits := removeLeadingZeros decimalDigits in
    {| magnitude :=
         Z.of_nat (length significantDigits) - Z.of_nat (length decimalDigits) - 1;
       coefficient := addDecimalPointToNumber significantDigits |}
  else
    {| magnitude := Str.indexOf trimmedFloat "." - 1;
       coefficient := addDecimalPointToNumber (Str.replace trimmedFloat "." "") |}.

(** The [normalizedNumber] of convertNumberToScientificNotation. *)
Definition normalizedNumber (stringNumber : string) : NormalizedNumber :=
  let splitNumber := Str.split (Str.replace stringNumber "E" "e") "e" in
  let originalCoefficient := hd "" splitNumber in
  if Str.includes stringNumber "."
  then normalizeFloat originalCoefficient
  else normalizeInteger originalCoefficient.

(** The [magnitude] of convertNumberToScientificNotation: [None] is NaN. *)
Definition finalMagnitude (stringNumber : string) : option Z :=
  let splitNumber := Str.split (Str.replace stringNumber "E" "e") "e" in
  match splitNumber with
  | _ :: exponent :: _ =>
      option_map (fun x => x + magnitude (normalizedNumber stringNumber))
                 (Number.parseInt exponent)
  | _ => Some (magnitude (normalizedNumber stringNumber))
  end.

Definition convertNumberToScientificNotation (stringNumber : string) : string :=
  let normalizedCoefficient := coefficient (normalizedNumber stringNumber) in
  let magnitude := finalMagnitude stringNumber in
  normalizedCoefficient ++ "e" ++ Number.show magnitude.

Definition requestedPrecision (normalizedRawNumber : string) : Z :=
  Z.of_nat (length (Str.replace (hd "" (Str.split normalizedRawNumber "e")) "." "")).

Definition baseTenLosesPrecision (node : Node) : result bool :=
  let normalizedRawNumber := convertNumberToScientificNotation (getRaw node) in
  let requestedPrecision := requestedPrecision normalizedRawNumber in
  if 100 <? requestedPrecision then Ok true
  else
    storedNumber <- toPrecision rt (value node) requestedPrecision ;;
    let normalizedStoredNumber := convertNumberToScientificNotation storedNumber in
    Ok (negb (String.eqb normalizedRawNumber normalizedStoredNumber)).

Definition losesPrecision (node : Node) : result bool :=
  if isBaseTen node
  then baseTenLosesPrecision node
  else notBaseTenLosesPrecision node.

(** The visitor: [context.report] appends to the diagnostics reported so
    far. *)
Definition Literal (node : Node) (reported : list Descriptor) : result (list Descriptor) :=
  if truthy (value node) && isNumber node then
    lost <- losesPrecision node ;;
    if lost
    then Ok (reported ++ [{| messageId := "noLossOfPrecision"; node := node |}])%list
    else Ok reported
  else Ok reported.

End create.


(** ** The vocabulary of the specification

    The definitions below are not part of the rule: they say, in the words of
    the specification, what the statements about the rule talk of. *)

Module Spec.

(** A decimal literal, numeric separators removed, by its parts: the digits
    before the point, the digits after it when there is a point, and the
    exponent marker with the signed digits after it when there is one.
    Leading zeros of the whole part are not restricted, so that the legacy
    forms ([089]) are decimal literals too. *)
Record Decimal : Set := {
  whole : string;
  fraction : option string;
  exponent : option (ascii * string)
}.

Definition mantissa (d : Decimal) : string :=
  whole d ++ match fraction d with
             | Some f => "." ++ f
             | None => ""
             end.

Definition text (d : Decimal) : string :=
  mantissa d ++ match exponent d with
                | Some (mark, digits) => String mark digits
                | None => ""
                end.

Definition unsigned (digits : string) : string :=
  if Str.startsWith digits "+" || Str.startsWith digits "-"
  then Str.drop 1 digits else digits.

Definition wfExponent (e : option (ascii * string)) : bool :=
  match e with
  | None => true
  | Some (mark, digits) =>
      (Ascii.eqb mark "e" || Ascii.eqb mark "E")
      && negb (String.eqb (unsigned digits) "")
      && Str.all Digits.isDigit (unsigned digits)
  end.

Definition wf (d : Decimal) : bool :=
  Str.all Digits.isDigit (whole d)
  && match fraction d with
     | Some f => Str.all Digits.isDigit f
                 && negb (String.eqb (whole d) "" && String.eqb f "")
     | None => negb (String.eqb (whole d) "")
     end
  && wfExponent (exponent d).

Definition isZeroChar (c : ascii) : bool := Ascii.eqb c "0".

(** Zeros, then a point, then nothing: [0.], [0.e5]. *)
Definition bareZeroPoint (d : Decimal) : bool :=
  Str.all isZeroChar (whole d)
  && match fraction d with
     | Some f => String.eqb f ""
     | None => false
     end.

Definition exponentValue (d : Decimal) : Z :=
  match exponent d with
  | Some (_, digits) =>
      match Number.parseInt digits with
      | Some x => x
      | None => 0
      end
  | None => 0
  end.

(** An integer the runtime's arithmetic, [parseInt] and printing are exact
    on: at most [Number.MAX_SAFE_INTEGER] in absolute value. *)
Definition safe (z : Z) : bool := Z.abs z <=? 9007199254740991.

(** The value a literal denotes is [digitsValue * 10 ^ scale]. *)
Definition digitsValue (d : Decimal) : Z :=
  Digits.valueFrom 0 (whole d ++ match fraction d with
                                 | Some f => f
                                 | None => ""
                                 end).

Definition scale (d : Decimal) : Z :=
  exponentValue d - match fraction d with
                    | Some f => Z.of_nat (length f)
                    | None => 0
                    end.

Definition sameValue (d1 d2 : Decimal) : Prop :=
  let low := Z.min (scale d1) (scale d2) in
  digitsValue d1 * 10 ^ (scale d1 - low) = digitsValue d2 * 10 ^ (scale d2 - low).

(** The digits [digits] written with [k] of them before the point, no point
    when all of them are, and the given exponent part. *)
Definition surface (digits : string) (k : nat) (e : option (ascii * string)) : Decimal :=
  {| whole := Str.take k digits;
     fraction := if (k <? length digits)%nat then Some (Str.drop k digits) else None;
     exponent := e |}.

(** "A single digit, then '.', then zero or more digits, with the first
    digit non-zero unless the entire represented value is zero." *)
Definition coefficientPattern (c : string) : bool :=
  match c with
  | String d (String "." rest) =>
      Digits.isDigit d && Str.all Digits.isDigit rest
      && (negb (isZeroChar d) || Str.all isZeroChar rest)
  | _ => false
  end.

(** The canonical coefficient/magnitude form. *)
Definition canonical (d : ascii) (rest : string) (z : Z) : string :=
  String d ("." ++ rest) ++ "e" ++ Number.show (Some z).

(** The magnitude of an integer-form mantissa as the specification words
    it: the length after stripping leading zeros, less one, moved by
    [adjust] when the first character of the original is a zero. *)
Definition statedMagnitude (adjust : Z) (mantissa : string) : Z :=
  Z.of_nat (length (removeLeadingZeros mantissa)) - 1
  + (if Str.startsWith mantissa "0" then adjust else 0).

(** The characters of a coefficient other than the decimal point. *)
Definition coefficientDigits (c : string) : Z :=
  Z.of_nat (length (Str.removeAll c ".")).

(** The radix and the raw digits of a binary, octal or hex literal: the
    prefix is stripped when there is one, and a legacy octal literal has
    none. *)
Definition nonDecimal (text : string) : option (Z * string) :=
  if Str.startsWith text "0b" || Str.startsWith text "0B" then Some (2, Str.drop 2 text)
  else if Str.startsWith text "0o" || Str.startsWith text "0O" then Some (8, Str.drop 2 text)
  else if Str.startsWith text "0x" || Str.startsWith text "0X" then Some (16, Str.drop 2 text)
  else if legacyOctal text then Some (8, text)
  else None.

(** A digit of the radix, in either case. *)
Definition radixDigit (radix : Z) (c : ascii) : bool :=
  let n := nat_of_ascii c in
  if ((48 <=? n) && (n <=? 57))%nat then Z.of_nat n - 48 <? radix
  else if ((97 <=? n) && (n <=? 102))%nat then Z.of_nat n - 87 <? radix
  else if ((65 <=? n) && (n <=? 70))%nat then Z.of_nat n - 55 <? radix
  else false.

(** Separators stripped, upper case. *)
Definition rawDigits (digits : string) : string :=
  Str.toUpperCase (Str.removeAll digits "_").

(** The integer a non-negative integral Number is. *)
Definition naturalValue (x : number) : Z :=
  match x with
  | Finite _ m e => Number.numerator m e / Number.denominator e
  | _ => 0
  end.

(** baseTenLosesPrecision once more, returning beside its verdict the
    NormalizedNumbers it builds, in order: the one of the raw text and, when
    the value is rendered, the one of the rendering
    ([traced_verdict]: the verdict is the rule's). *)
Definition traced (rt : Runtime) (node : Node) : result (bool * list NormalizedNumber) :=
  let normalizedRawNumber := convertNumberToScientificNotation (getRaw node) in
  let fromRaw := normalizedNumber (getRaw node) in
  if 100 <? requestedPrecision normalizedRawNumber then Ok (true, [fromRaw])
  else
    storedNumber <- toPrecision rt (value node) (requestedPrecision normalizedRawNumber) ;;
    let normalizedStoredNumber := convertNumberToScientificNotation storedNumber in
    Ok (negb (String.eqb normalizedRawNumber normalizedStoredNumber),
        [fromRaw; normalizedNumber storedNumber]).

Definition normalizedNumbersBuilt (rt : Runtime) (node : Node) : result (list NormalizedNumber) :=
  r <- traced rt node ;; Ok (snd r).

(** [n - 1/2 <= a / b / 10^s < n + 1/2]: [n] is [a / b / 10^s] rounded to
    the nearest integer, a tie upwards. *)
Definition nearest (a b n s : Z) : Prop :=
  let T := if 0 <=? s then a else a * 10 ^ (- s) in
  let U := if 0 <=? s then b * 10 ^ s else b in
  - U <= 2 * T - 2 * n * U < U.

(** What the rule relies on: a Number prints in any radix, and to any
    precision from 1 to 100. *)
Definition conforms (rt : Runtime) : Prop :=
  (forall x p, 1 <= p <= 100 -> returns (toPrecision rt (VNumber x) p))
  /\ (forall x radix, returns (toString rt (VNumber x) radix)).

(** The characters of a string, last first. *)
Fixpoint reverse (s : string) : string :=
  match s with
  | "" => ""
  | String c s' => reverse s' ++ String c ""
  end.

(** "Strip leading zeros": the string from its first character that is not
    a zero. *)
Fixpoint withoutLeadingZeros (s : string) : string :=
  match s with
  | "" => ""
  | String c s' => if isZeroChar c then withoutLeadingZeros s' else s
  end.

(** "Strip trailing zeros": the string up to its last character that is not
    a zero. *)
Definition withoutTrailingZeros (s : string) : string :=
  reverse (withoutLeadingZeros (reverse s)).

(** The significant digits of an integer-form mantissa: "strip leading
    zeros, then strip trailing zeros from what remains"; the digits of a
    zero are kept, so that its coefficient is a zero and not empty. *)
Definition significantDigits (mantissa : string) : string :=
  if Str.all isZeroChar mantissa then mantissa
  else withoutTrailingZeros (withoutLeadingZeros mantissa).

(** The Number [x = a / b] is, with no rounding, the number the literal
    denotes: [a / b = digitsValue * 10 ^ scale]. *)
Definition denotes (d : Decimal) (x : number) : bool :=
  match x with
  | Finite false m e =>
      Number.numerator m e * 10 ^ Z.max 0 (- scale d)
      =? digitsValue d * 10 ^ Z.max 0 (scale d) * Number.denominator e
  | _ => false
  end.

End Spec.

Definition lit (text : string) (x : number) : Node := {| raw := text; value := VNumber x |}.

Definition zero : number := Finite false 0 0.

(** ** Tactics *)

(** Case analysis on a digit value [d] known to lie in [0, 16). *)
Ltac each_digit d H :=
  let E := fresh in
  assert (E : d = 0 \/ d = 1 \/ d = 2 \/ d = 3 \/ d = 4 \/ d = 5 \/ d = 6 \/ d = 7
              \/ d = 8 \/ d = 9 \/ d = 10 \/ d = 11 \/ d = 12 \/ d = 13 \/ d = 14
              \/ d = 15) by lia;
  repeat (destruct E as [E | E]; [subst d|]); try subst d.

(** * Properties *)

(** ** Strings *)

Lemma append_empty (s : string) : s ++ "" = s.
Proof. induction s as [|c s IH]; simpl; [reflexivity | now rewrite IH]. Qed.

Lemma append_assoc (s t u : string) : (s ++ t) ++ u = s ++ t ++ u.
Proof. induction s as [|c s IH]; simpl; [reflexivity | now rewrite IH]. Qed.

Lemma length_append (s t : string) : length (s ++ t) = (length s + length t)%nat.
Proof. induction s as [|c s IH]; simpl; [reflexivity | now rewrite IH]. Qed.

Lemma all_append f (s t : string) : Str.all f (s ++ t) = Str.all f s && Str.all f t.
Proof.
  induction s as [|c s IH]; simpl; [reflexivity|].
  now rewrite IH, andb_assoc.
Qed.

Lemma includes_append (s t : string) c :
  Str.includes (s ++ t) c = Str.includes s c || Str.includes t c.
Proof.
  induction s as [|a s IH]; simpl; [reflexivity|].
  now rewrite IH, orb_assoc.
Qed.

(** A string whose characters all satisfy [f] has no character that does
    not. *)
Lemma all_excludes f (s : string) c :
  Str.all f s = true -> f c = false -> Str.includes s c = false.
Proof.
  induction s as [|a s IH]; simpl; intros Hall Hc; [reflexivity|].
  apply andb_prop in Hall as [Ha Hs].
  rewrite (IH Hs Hc), orb_false_r.
  destruct (Ascii.eqb_spec a c) as [->|]; [congruence | reflexivity].
Qed.

Lemma take_append (s t : string) : Str.take (length s) (s ++ t) = s.
Proof. induction s as [|c s IH]; simpl; [now destruct t | now rewrite IH]. Qed.

Lemma drop_append (s t : string) : Str.drop (length s) (s ++ t) = t.
Proof. induction s as [|c s IH]; simpl; [reflexivity | exact IH]. Qed.

Lemma take_drop (n : nat) (s : string) : Str.take n s ++ Str.drop n s = s.
Proof.
  revert s; induction n as [|n IH]; intros [|c s]; simpl; try reflexivity.
  now rewrite IH.
Qed.

Lemma take_all (s : string) : Str.take (length s) s = s.
Proof. induction s as [|c s IH]; simpl; [reflexivity | now rewrite IH]. Qed.

Lemma length_take (n : nat) (s : string) : (n <= length s)%nat -> length (Str.take n s) = n.
Proof.
  revert s; induction n as [|n IH]; intros [|c s]; simpl; intros H; try reflexivity; try lia.
  rewrite IH; [reflexivity | lia].
Qed.

Lemma length_drop (n : nat) (s : string) : length (Str.drop n s) = (length s - n)%nat.
Proof.
  revert s; induction n as [|n IH]; intros [|c s]; simpl; try reflexivity.
  apply IH.
Qed.

Lemma all_take f (n : nat) (s : string) : Str.all f s = true -> Str.all f (Str.take n s) = true.
Proof.
  revert s; induction n as [|n IH]; intros [|c s]; simpl; intros H; try reflexivity.
  apply andb_prop in H as [Hc Hs]. now rewrite Hc, (IH _ Hs).
Qed.

Lemma all_drop f (n : nat) (s : string) : Str.all f s = true -> Str.all f (Str.drop n s) = true.
Proof.
  revert s; induction n as [|n IH]; intros [|c s]; simpl; intros H; try reflexivity; try exact H.
  apply andb_prop in H as [Hc Hs]. now apply IH.
Qed.

Lemma get_append (s t : string) c : String.get (length s) (s ++ String c t) = Some c.
Proof. induction s as [|a s IH]; simpl; [reflexivity | exact IH]. Qed.

Lemma startsWith_empty (s : string) : Str.startsWith s "" = true.
Proof. now destruct s. Qed.

Lemma startsWith_inv (s p : string) :
  Str.startsWith s p = true -> s = p ++ Str.drop (length p) s.
Proof.
  revert s; induction p as [|b p IH]; intros s H; [reflexivity|].
  destruct s as [|a s]; simpl in H; [discriminate|].
  apply andb_prop in H as [Hab Hs].
  apply Ascii.eqb_eq in Hab; subst b; simpl.
  now rewrite <- (IH _ Hs).
Qed.

Lemma endsWith_iff (s p : string) :
  Str.endsWith s p = true <-> exists before, s = before ++ p.
Proof.
  unfold Str.endsWith; split.
  - intros H; apply andb_prop in H as [Hlen Heq].
    apply String.eqb_eq in Heq.
    exists (Str.take (length s - length p) s).
    rewrite <- Heq at 2. symmetry; apply take_drop.
  - intros [before ->].
    rewrite length_append.
    replace (length before + length p - length p)%nat with (length before) by lia.
    rewrite drop_append, String.eqb_refl, andb_true_r.
    apply Nat.leb_le; lia.
Qed.

Lemma replace_absent (s : string) c r : Str.includes s c = false -> Str.replace s c r = s.
Proof.
  induction s as [|a s IH]; simpl; intros H; [reflexivity|].
  apply orb_false_elim in H as [Ha Hs]. now rewrite Ha, IH.
Qed.

Lemma replace_append (s t : string) c r :
  Str.includes s c = false -> Str.replace (s ++ t) c r = s ++ Str.replace t c r.
Proof.
  induction s as [|a s IH]; simpl; intros H; [reflexivity|].
  apply orb_false_elim in H as [Ha Hs]. now rewrite Ha, IH.
Qed.

Lemma split_absent (s : string) c : Str.includes s c = false -> Str.split s c = [s].
Proof.
  induction s as [|a s IH]; simpl; intros H; [reflexivity|].
  apply orb_false_elim in H as [Ha Hs]. now rewrite Ha, IH.
Qed.

Lemma split_append (s t : string) c :
  Str.includes s c = false -> Str.split (s ++ String c t) c = s :: Str.split t c.
Proof.
  induction s as [|a s IH]; simpl; intros H.
  - now rewrite Ascii.eqb_refl.
  - apply orb_false_elim in H as [Ha Hs]. now rewrite Ha, IH.
Qed.

(** The first piece of a split holds no separator. *)
Lemma split_head_clean (s : string) c : Str.includes (hd "" (Str.split s c)) c = false.
Proof.
  induction s as [|a s IH]; simpl; [reflexivity|].
  destruct (Ascii.eqb a c) eqn:Ha; simpl; [reflexivity|].
  destruct (Str.split s c) as [|h t] eqn:Hsplit; simpl in *.
  - now rewrite Ha.
  - now rewrite Ha, IH.
Qed.

Lemma length_removeAll (s : string) c : (length (Str.removeAll s c) <= length s)%nat.
Proof.
  induction s as [|a s IH]; simpl; [lia|].
  destruct (Ascii.eqb a c); simpl; lia.
Qed.

Lemma includes_take (n : nat) (s : string) c :
  Str.includes s c = false -> Str.includes (Str.take n s) c = false.
Proof.
  revert s; induction n as [|n IH]; intros [|a s]; simpl; intros H; try reflexivity.
  apply orb_false_elim in H as [Ha Hs]. now rewrite Ha, IH.
Qed.

Lemma includes_drop (n : nat) (s : string) c :
  Str.includes s c = false -> Str.includes (Str.drop n s) c = false.
Proof.
  revert s; induction n as [|n IH]; intros [|a s]; simpl; intros H; try reflexivity; try exact H.
  apply orb_false_elim in H as [Ha Hs]. now apply IH.
Qed.

Lemma includes_replace (s : string) c x :
  Str.includes s c = false -> Str.includes (Str.replace s x "") c = false.
Proof.
  induction s as [|a s IH]; simpl; intros H; [reflexivity|].
  apply orb_false_elim in H as [Ha Hs].
  destruct (Ascii.eqb a x); simpl; [exact Hs | now rewrite Ha, IH].
Qed.

Lemma repeat_snoc c (n : nat) : Str.repeat c (S n) = Str.repeat c n ++ Str.chr c.
Proof. induction n as [|n IH]; [reflexivity|]. simpl in *. now rewrite <- IH. Qed.

Lemma length_repeat c (n : nat) : length (Str.repeat c n) = n.
Proof. induction n as [|n IH]; simpl; [reflexivity | now rewrite IH]. Qed.

Lemma all_repeat f c (n : nat) : f c = true -> Str.all f (Str.repeat c n) = true.
Proof. intros H; induction n as [|n IH]; simpl; [reflexivity | now rewrite H, IH]. Qed.

(** ** The two zero-stripping loops *)

Lemma notZeroAt_here (s t : string) c :
  notZeroAt (s ++ String c t) (length s) = negb (Ascii.eqb c "0").
Proof. unfold notZeroAt. now rewrite get_append. Qed.

Lemma snoc_shift (s t : string) c : s ++ String c t = (s ++ Str.chr c) ++ t.
Proof. now rewrite append_assoc. Qed.

Lemma length_snoc (s : string) c : length (s ++ Str.chr c) = S (length s).
Proof. rewrite length_append; simpl; lia. Qed.

(** The leading loop stops at the first character that is not a zero. *)
Lemma removeLeadingZerosFrom_stops (j : nat) :
  forall (before : string) c rest (fuel : nat),
    c <> "0"%char -> (j < fuel)%nat ->
    removeLeadingZerosFrom (before ++ Str.repeat "0" j ++ String c rest) (length before) fuel
    = String c rest.
Proof.
  induction j as [|j IH]; intros before c rest fuel Hc Hfuel;
    (destruct fuel as [|fuel]; [lia|]); simpl.
  - rewrite notZeroAt_here.
    apply Ascii.eqb_neq in Hc; rewrite Hc; simpl.
    apply drop_append.
  - rewrite notZeroAt_here; simpl.
    rewrite snoc_shift, <- length_snoc with (c := "0"%char).
    apply IH; [assumption | lia].
Qed.

(** Over zeros only, it runs out and gives the string back. *)
Lemma removeLeadingZerosFrom_zeros (j : nat) :
  forall before : string,
    removeLeadingZerosFrom (before ++ Str.repeat "0" j) (length before) j
    = before ++ Str.repeat "0" j.
Proof.
  induction j as [|j IH]; intros before; simpl; [reflexivity|].
  rewrite notZeroAt_here; simpl.
  rewrite snoc_shift, <- length_snoc with (c := "0"%char).
  apply IH.
Qed.

Lemma removeLeadingZeros_stops (j : nat) c (rest : string) :
  c <> "0"%char -> removeLeadingZeros (Str.repeat "0" j ++ String c rest) = String c rest.
Proof.
  intros Hc. unfold removeLeadingZeros.
  apply (removeLeadingZerosFrom_stops j "" c rest); [assumption|].
  rewrite length_append, length_repeat; simpl; lia.
Qed.

Lemma removeLeadingZeros_zeros (j : nat) :
  removeLeadingZeros (Str.repeat "0" j) = Str.repeat "0" j.
Proof.
  unfold removeLeadingZeros. rewrite length_repeat.
  apply (removeLeadingZerosFrom_zeros j "").
Qed.

Lemma removeLeadingZeros_nonzero c (rest : string) :
  c <> "0"%char -> removeLeadingZeros (String c rest) = String c rest.
Proof. apply (removeLeadingZeros_stops 0). Qed.

(** Whatever the string, the leading loop returns one of its suffixes. *)
Lemma removeLeadingZerosFrom_suffix (s : string) (fuel i : nat) :
  exists j, removeLeadingZerosFrom s i fuel = Str.drop j s.
Proof.
  revert i; induction fuel as [|fuel IH]; intros i; simpl.
  - now exists 0%nat.
  - destruct (notZeroAt s i); [now exists i | apply IH].
Qed.

Lemma removeLeadingZeros_suffix (s : string) : exists j, removeLeadingZeros s = Str.drop j s.
Proof. apply removeLeadingZerosFrom_suffix. Qed.

(** The trailing loop stops at the last character that is not a zero. *)
Lemma removeTrailingZerosFrom_stops (j : nat) :
  forall (s : string) c (after : string),
    c <> "0"%char ->
    removeTrailingZerosFrom (s ++ String c (Str.repeat "0" j ++ after)) (length s + 1 + j)
    = s ++ Str.chr c.
Proof.
  induction j as [|j IH]; intros s c after Hc.
  - replace (length s + 1 + 0)%nat with (S (length s)) by lia. simpl.
    rewrite notZeroAt_here.
    apply Ascii.eqb_neq in Hc; rewrite Hc; simpl.
    unfold Str.slice; simpl.
    replace (length s + 1 - 0)%nat with (length (s ++ Str.chr c)) by (rewrite length_snoc; lia).
    rewrite snoc_shift. apply take_append.
  - replace (length s + 1 + S j)%nat with (S (length s + 1 + j)) by lia.
    cbn [removeTrailingZerosFrom].
    rewrite repeat_snoc, append_assoc. cbn [Str.chr append].
    assert (Hzero : notZeroAt (s ++ String c (Str.repeat "0" j ++ String "0" after))
                              (length s + 1 + j) = false).
    { rewrite snoc_shift, <- append_assoc.
      replace (length s + 1 + j)%nat
        with (length ((s ++ Str.chr c) ++ Str.repeat "0" j))
        by (rewrite length_append, length_snoc, length_repeat; lia).
      now rewrite notZeroAt_here. }
    rewrite Hzero. now apply IH.
Qed.

Lemma removeTrailingZerosFrom_zeros (j : nat) :
  forall after : string,
    removeTrailingZerosFrom (Str.repeat "0" j ++ after) j = Str.repeat "0" j ++ after.
Proof.
  induction j as [|j IH]; intros after; [reflexivity|].
  cbn [removeTrailingZerosFrom].
  rewrite repeat_snoc, append_assoc. cbn [Str.chr append].
  replace j with (length (Str.repeat "0" j)) at 2 by apply length_repeat.
  rewrite notZeroAt_here; simpl.
  apply IH.
Qed.

Lemma removeTrailingZeros_stops (s : string) c (j : nat) :
  c <> "0"%char ->
  removeTrailingZeros (s ++ String c (Str.repeat "0" j)) = s ++ Str.chr c.
Proof.
  intros Hc. unfold removeTrailingZeros.
  rewrite length_append; simpl. rewrite length_repeat.
  replace (length s + S j)%nat with (length s + 1 + j)%nat by lia.
  rewrite <- (append_empty (Str.repeat "0" j)).
  now apply removeTrailingZerosFrom_stops.
Qed.

Lemma removeTrailingZeros_zeros (j : nat) :
  removeTrailingZeros (Str.repeat "0" j) = Str.repeat "0" j.
Proof.
  unfold removeTrailingZeros. rewrite length_repeat.
  pose proof (removeTrailingZerosFrom_zeros j "") as H.
  now rewrite append_empty in H.
Qed.

(** Whatever the string, the trailing loop returns one of its prefixes. *)
Lemma removeTrailingZerosFrom_prefix (s : string) (n : nat) :
  exists m, removeTrailingZerosFrom s n = Str.take m s.
Proof.
  induction n as [|n IH]; simpl.
  - exists (length s). symmetry; apply take_all.
  - destruct (notZeroAt s n); [|exact IH].
    exists (n + 1 - 0)%nat. reflexivity.
Qed.

Lemma removeTrailingZeros_prefix (s : string) : exists m, removeTrailingZeros s = Str.take m s.
Proof. apply removeTrailingZerosFrom_prefix. Qed.

(** Every string is zeros followed by nothing or by a character that is not
    a zero ... *)
Lemma leading_zeros (s : string) :
  exists (j : nat) (rest : string),
    s = Str.repeat "0" j ++ rest
    /\ (rest = "" \/ exists c r, rest = String c r /\ c <> "0"%char).
Proof.
  induction s as [|a s (j & rest & Hs & Hrest)].
  - exists 0%nat, "". now split; [|left].
  - destruct (Ascii.eqb_spec a "0") as [->|Ha].
    + exists (S j), rest. split; [simpl; now rewrite <- Hs | assumption].
    + exists 0%nat, (String a s). split; [reflexivity|]. right. now exists a, s.
Qed.

(** ... and is all zeros, or ends in a character that is not a zero
    followed by zeros. *)
Lemma trailing_zeros (s : string) :
  s = Str.repeat "0" (length s)
  \/ exists (before : string) c (j : nat),
       s = before ++ String c (Str.repeat "0" j) /\ c <> "0"%char.
Proof.
  induction s as [|a s [Hs | (before & c & j & Hs & Hc)]].
  - now left.
  - destruct (Ascii.eqb_spec a "0") as [->|Ha].
    + left. simpl. now rewrite <- Hs.
    + right. exists "", a, (length s). split; [simpl; now rewrite <- Hs | assumption].
  - right. exists (String a before), c, j. split; [simpl; now rewrite <- Hs | assumption].
Qed.

(** What the trailing loop returns is never empty unless its argument is. *)
Lemma removeTrailingZeros_keeps_first c (s : string) :
  exists m, removeTrailingZeros (String c s) = String c (Str.take m s).
Proof.
  destruct (trailing_zeros (String c s)) as [Hz | (before & c' & j & Hs & Hc')].
  - exists (length s). rewrite Hz, removeTrailingZeros_zeros, <- Hz. now rewrite take_all.
  - rewrite Hs, removeTrailingZeros_stops by assumption.
    destruct before as [|b before]; simpl in *.
    + injection Hs as -> _. now exists 0%nat.
    + injection Hs as -> Hs. exists (length (before ++ Str.chr c')).
      f_equal. rewrite Hs, snoc_shift. symmetry; apply take_append.
Qed.

Lemma endsWith_zero (s : string) (j : nat) : Str.endsWith (s ++ Str.repeat "0" (S j)) "0" = true.
Proof.
  apply endsWith_iff. exists (s ++ Str.repeat "0" j).
  now rewrite repeat_snoc, append_assoc.
Qed.

(** Nothing is stripped from a string that does not end in a zero. *)
Lemma removeTrailingZeros_unchanged (s : string) :
  Str.endsWith s "0" = false -> removeTrailingZeros s = s.
Proof.
  intros Hend.
  destruct (trailing_zeros s) as [Hz | (before & c & j & Hs & Hc)].
  - rewrite Hz. apply removeTrailingZeros_zeros.
  - rewrite Hs, removeTrailingZeros_stops by assumption.
    destruct j as [|j]; [reflexivity|].
    rewrite Hs, snoc_shift, endsWith_zero in Hend. discriminate.
Qed.

(** ** Mantissa and exponent of a decimal literal *)

Lemma digit_not_space c : Digits.isDigit c = true -> Number.isWhiteSpace c = false.
Proof. destruct c as [[] [] [] [] [] [] [] []]; intros H; try reflexivity; discriminate H. Qed.

Lemma digits_exclude (s : string) c :
  Str.all Digits.isDigit s = true -> Digits.isDigit c = false -> Str.includes s c = false.
Proof. apply all_excludes. Qed.

Lemma takeDigits_digits (s : string) :
  Str.all Digits.isDigit s = true -> Digits.takeDigits s = s.
Proof.
  induction s as [|c s IH]; simpl; intros H; [reflexivity|].
  apply andb_prop in H as [Hc Hs]. now rewrite Hc, IH.
Qed.

(** The digits of an exponent are the text itself, or the text after a
    sign. *)
Lemma unsigned_cases (digits : string) :
  (Spec.unsigned digits = digits
   /\ Str.startsWith digits "+" = false /\ Str.startsWith digits "-" = false)
  \/ exists sign,
       digits = String sign (Spec.unsigned digits)
       /\ (sign = "+"%char \/ sign = "-"%char).
Proof.
  unfold Spec.unsigned. destruct digits as [|a digits]; simpl; [now left|].
  rewrite startsWith_empty, !andb_true_r.
  destruct (Ascii.eqb_spec a "+") as [->|Hplus]; simpl.
  - right. exists "+"%char. now split; [|left].
  - destruct (Ascii.eqb_spec a "-") as [->|Hminus]; simpl.
    + right. exists "-"%char. now split; [|right].
    + now left.
Qed.

Lemma exponent_excludes (digits : string) c :
  Str.all Digits.isDigit (Spec.unsigned digits) = true ->
  Digits.isDigit c = false -> c <> "+"%char -> c <> "-"%char ->
  Str.includes digits c = false.
Proof.
  intros Hall Hc Hplus Hminus.
  destruct (unsigned_cases digits) as [(Heq & _) | (sign & Heq & Hsign)].
  - rewrite Heq in Hall. now apply digits_exclude.
  - rewrite Heq; simpl. rewrite (digits_exclude _ _ Hall Hc), orb_false_r.
    apply Ascii.eqb_neq. destruct Hsign; congruence.
Qed.

Lemma parseInt_exponent (digits : string) :
  Spec.unsigned digits <> "" ->
  Str.all Digits.isDigit (Spec.unsigned digits) = true ->
  exists x, Number.parseInt digits = Some x.
Proof.
  intros Hne Hall. unfold Number.parseInt.
  assert (Htrim : Number.trimStart digits = digits).
  { destruct (unsigned_cases digits) as [(Heq & _) | (sign & Heq & Hsign)].
    - rewrite Heq in Hall, Hne. destruct digits as [|a digits]; [reflexivity|].
      simpl in *. apply andb_prop in Hall as [Ha _]. now rewrite (digit_not_space _ Ha).
    - rewrite Heq. destruct Hsign as [-> | ->]; reflexivity. }
  cbv zeta. rewrite Htrim. fold (Spec.unsigned digits).
  rewrite (takeDigits_digits _ Hall).
  destruct (String.eqb_spec (Spec.unsigned digits) ""); [contradiction|].
  eexists; reflexivity.
Qed.

Section Literal.

Variable d : Spec.Decimal.
Hypothesis well_formed : Spec.wf d = true.

Lemma wf_whole : Str.all Digits.isDigit (Spec.whole d) = true.
Proof.
  unfold Spec.wf in well_formed.
  apply andb_prop in well_formed as [H _]. now apply andb_prop in H as [H _].
Qed.

Lemma wf_fraction f : Spec.fraction d = Some f -> Str.all Digits.isDigit f = true.
Proof.
  intros Hf. unfold Spec.wf in well_formed. rewrite Hf in well_formed.
  apply andb_prop in well_formed as [H _]. apply andb_prop in H as [_ H].
  now apply andb_prop in H as [H _].
Qed.

Lemma wf_integer : Spec.fraction d = None -> Spec.whole d <> "".
Proof.
  intros Hf. unfold Spec.wf in well_formed. rewrite Hf in well_formed.
  apply andb_prop in well_formed as [H _]. apply andb_prop in H as [_ H].
  intros Heq. rewrite Heq in H. discriminate.
Qed.

Lemma wf_exponent mark digits :
  Spec.exponent d = Some (mark, digits) ->
  (mark = "e"%char \/ mark = "E"%char)
  /\ Spec.unsigned digits <> ""
  /\ Str.all Digits.isDigit (Spec.unsigned digits) = true.
Proof.
  intros He. unfold Spec.wf in well_formed. rewrite He in well_formed.
  apply andb_prop in well_formed as [_ H]. simpl in H.
  apply andb_prop in H as [H Hall]. apply andb_prop in H as [Hmark Hne].
  repeat split; [| | assumption].
  - apply orb_prop in Hmark as [H | H]; apply Ascii.eqb_eq in H; auto.
  - intros Heq. rewrite Heq in Hne. discriminate.
Qed.

Lemma mantissa_excludes c :
  Digits.isDigit c = false -> c <> "."%char -> Str.includes (Spec.mantissa d) c = false.
Proof.
  intros Hc Hpoint. unfold Spec.mantissa.
  rewrite includes_append, (digits_exclude _ _ wf_whole Hc), orb_false_l.
  destruct (Spec.fraction d) as [f|] eqn:Hf; [|reflexivity].
  change ("." ++ f) with (String "." f). cbn [Str.includes].
  rewrite (digits_exclude _ _ (wf_fraction f Hf) Hc), orb_false_r.
  apply Ascii.eqb_neq. congruence.
Qed.

(** Splitting the text at the exponent marker gives the mantissa and, when
    there is an exponent, its signed digits. *)
Lemma split_text :
  Str.split (Str.replace (Spec.text d) "E" "e") "e"
  = Spec.mantissa d :: match Spec.exponent d with
                       | Some (_, digits) => [digits]
                       | None => []
                       end.
Proof.
  assert (Hlow : Str.includes (Spec.mantissa d) "e" = false)
    by (apply mantissa_excludes; [reflexivity | discriminate]).
  assert (Hup : Str.includes (Spec.mantissa d) "E" = false)
    by (apply mantissa_excludes; [reflexivity | discriminate]).
  unfold Spec.text.
  destruct (Spec.exponent d) as [[mark digits]|] eqn:He.
  - destruct (wf_exponent _ _ He) as (Hmark & _ & Hall).
    assert (Hdl : Str.includes digits "e" = false)
      by (apply exponent_excludes; [assumption | reflexivity | discriminate | discriminate]).
    assert (Hdu : Str.includes digits "E" = false)
      by (apply exponent_excludes; [assumption | reflexivity | discriminate | discriminate]).
    rewrite (replace_append _ _ _ _ Hup).
    destruct Hmark as [-> | ->]; simpl.
    + rewrite (replace_absent _ _ _ Hdu), (split_append _ _ _ Hlow).
      now rewrite (split_absent _ _ Hdl).
    + rewrite (split_append _ _ _ Hlow). now rewrite (split_absent _ _ Hdl).
  - rewrite append_empty, (replace_absent _ _ _ Hup). now apply split_absent.
Qed.

Lemma includes_point :
  Str.includes (Spec.text d) "." = match Spec.fraction d with
                                   | Some _ => true
                                   | None => false
                                   end.
Proof.
  unfold Spec.text, Spec.mantissa. rewrite !includes_append.
  assert (Hexp : Str.includes match Spec.exponent d with
                              | Some (mark, digits) => String mark digits
                              | None => ""
                              end "." = false).
  { destruct (Spec.exponent d) as [[mark digits]|] eqn:He; [|reflexivity].
    destruct (wf_exponent _ _ He) as (Hmark & _ & Hall). simpl.
    rewrite (exponent_excludes digits "." Hall); try discriminate; try reflexivity.
    destruct Hmark as [-> | ->]; reflexivity. }
  rewrite Hexp, orb_false_r, (digits_exclude _ _ wf_whole); [|reflexivity].
  destruct (Spec.fraction d); reflexivity.
Qed.

Lemma normalizedNumber_text :
  normalizedNumber (Spec.text d)
  = match Spec.fraction d with
    | Some _ => normalizeFloat (Spec.mantissa d)
    | None => normalizeInteger (Spec.whole d)
    end.
Proof.
  unfold normalizedNumber. rewrite split_text, includes_point. simpl.
  destruct (Spec.fraction d) eqn:Hf; [reflexivity|].
  unfold Spec.mantissa. now rewrite Hf, append_empty.
Qed.

Lemma finalMagnitude_text :
  finalMagnitude (Spec.text d)
  = Some (Spec.exponentValue d + magnitude (normalizedNumber (Spec.text d))).
Proof.
  unfold finalMagnitude, Spec.exponentValue. rewrite split_text.
  destruct (Spec.exponent d) as [[mark digits]|] eqn:He; [|reflexivity].
  destruct (wf_exponent _ _ He) as (_ & Hne & Hall).
  destruct (parseInt_exponent digits Hne Hall) as [x Hx].
  now rewrite Hx.
Qed.

Lemma convert_text :
  convertNumberToScientificNotation (Spec.text d)
  = coefficient (normalizedNumber (Spec.text d)) ++ "e"
    ++ Number.show (Some (Spec.exponentValue d + magnitude (normalizedNumber (Spec.text d)))).
Proof. unfold convertNumberToScientificNotation. now rewrite finalMagnitude_text. Qed.

End Literal.

(** ** The normalizers on digit strings *)

Lemma addDecimalPointToNumber_cons c (rest : string) :
  addDecimalPointToNumber (String c rest) = String c ("." ++ rest).
Proof. reflexivity. Qed.

Lemma indexOfFrom_append (s t : string) c (i : Z) :
  Str.includes s c = false ->
  Str.indexOfFrom (s ++ String c t) c i = i + Z.of_nat (length s).
Proof.
  revert i; induction s as [|a s IH]; intros i H; simpl.
  - rewrite Ascii.eqb_refl. lia.
  - apply orb_false_elim in H as [Ha Hs]. rewrite Ha, IH by assumption. lia.
Qed.

Lemma digit_not_point c : Digits.isDigit c = true -> c <> "."%char.
Proof. intros H ->. discriminate H. Qed.

Lemma startsWith_head c (rest : string) a :
  c <> a -> Str.startsWith (String c rest) (Str.chr a) = false.
Proof. intros H. simpl. apply Ascii.eqb_neq in H. now rewrite H. Qed.

(** A mantissa with a point whose first digit is not a zero: the point moves
    behind the first digit, and the magnitude counts the digits it passes. *)
Lemma normalizeFloat_leading c (r f : string) :
  Digits.isDigit c = true -> c <> "0"%char -> Str.all Digits.isDigit r = true ->
  normalizeFloat (String c r ++ "." ++ f)
  = {| magnitude := Z.of_nat (length r); coefficient := String c ("." ++ r ++ f) |}.
Proof.
  intros Hc Hnz Hr.
  assert (Hpoint : Str.includes r "." = false) by (now apply digits_exclude).
  unfold normalizeFloat.
  change (String c r ++ "." ++ f) with (String c (r ++ String "." f)).
  rewrite (removeLeadingZeros_nonzero _ _ Hnz).
  change "." with (Str.chr ".") at 1.
  rewrite (startsWith_head _ _ _ (digit_not_point _ Hc)).
  f_equal.
  - unfold Str.indexOf. cbn [Str.indexOfFrom].
    pose proof (digit_not_point _ Hc) as Hcp. apply Ascii.eqb_neq in Hcp. rewrite Hcp.
    rewrite (indexOfFrom_append _ _ _ _ Hpoint). lia.
  - cbn [Str.replace].
    pose proof (digit_not_point _ Hc) as Hcp. apply Ascii.eqb_neq in Hcp. rewrite Hcp.
    rewrite (replace_append _ _ _ _ Hpoint). cbn [Str.replace].
    now rewrite Ascii.eqb_refl.
Qed.

(** An integer mantissa with no zero at either end. *)
Lemma normalizeInteger_leading c (r : string) :
  c <> "0"%char -> Str.endsWith (String c r) "0" = false ->
  normalizeInteger (String c r)
  = {| magnitude := Z.of_nat (length r); coefficient := String c ("." ++ r) |}.
Proof.
  intros Hnz Hend. unfold normalizeInteger.
  rewrite (removeLeadingZeros_nonzero _ _ Hnz), (removeTrailingZeros_unchanged _ Hend).
  change "0" with (Str.chr "0") at 1. rewrite (startsWith_head _ _ _ Hnz).
  f_equal. cbn [length]. lia.
Qed.

Lemma normalizeFloat_skips_zeros (j : nat) c (rest : string) :
  c <> "0"%char ->
  normalizeFloat (Str.repeat "0" j ++ String c rest) = normalizeFloat (String c rest).
Proof.
  intros Hc. unfold normalizeFloat.
  now rewrite (removeLeadingZeros_stops _ _ _ Hc), (removeLeadingZeros_nonzero _ _ Hc).
Qed.

Lemma pattern_digits c (rest : string) :
  Digits.isDigit c = true -> Str.all Digits.isDigit rest = true ->
  c <> "0"%char \/ Str.all Spec.isZeroChar rest = true ->
  Spec.coefficientPattern (String c ("." ++ rest)) = true.
Proof.
  intros Hc Hrest Hzero. simpl. rewrite Hc, Hrest. simpl.
  destruct Hzero as [Hnz | Hall].
  - unfold Spec.isZeroChar at 1. apply Ascii.eqb_neq in Hnz. now rewrite Hnz.
  - rewrite Hall. apply orb_true_r.
Qed.

Lemma pattern_zeros (j : nat) :
  Spec.coefficientPattern (addDecimalPointToNumber (Str.repeat "0" (S j))) = true.
Proof.
  simpl Str.repeat. rewrite addDecimalPointToNumber_cons.
  apply pattern_digits; [reflexivity | now apply all_repeat | right; now apply all_repeat].
Qed.

(** The significant digits after the leading zeros went: an all-zero
    string is kept whole. *)
Lemma pattern_stripped (s : string) :
  s <> "" -> Str.all Digits.isDigit s = true ->
  Spec.coefficientPattern (addDecimalPointToNumber (removeLeadingZeros s)) = true.
Proof.
  intros Hne Hs.
  destruct (leading_zeros s) as (j & rest & -> & [-> | (c & r & -> & Hc)]).
  - rewrite append_empty in *. rewrite removeLeadingZeros_zeros.
    destruct j as [|j]; [contradiction | apply pattern_zeros].
  - rewrite (removeLeadingZeros_stops _ _ _ Hc), addDecimalPointToNumber_cons.
    rewrite all_append in Hs. apply andb_prop in Hs as [_ Hs]. simpl in Hs.
    apply andb_prop in Hs as [Hd Hr].
    apply pattern_digits; auto.
Qed.

Lemma pattern_integer (w : string) :
  w <> "" -> Str.all Digits.isDigit w = true ->
  Spec.coefficientPattern (coefficient (normalizeInteger w)) = true.
Proof.
  intros Hne Hw. unfold normalizeInteger; cbn [coefficient].
  destruct (leading_zeros w) as (j & rest & -> & [-> | (c & r & -> & Hc)]).
  - rewrite append_empty in *.
    rewrite removeLeadingZeros_zeros, removeTrailingZeros_zeros.
    destruct j as [|j]; [contradiction | apply pattern_zeros].
  - rewrite (removeLeadingZeros_stops _ _ _ Hc).
    destruct (removeTrailingZeros_keeps_first c r) as [m ->].
    rewrite addDecimalPointToNumber_cons.
    rewrite all_append in Hw. apply andb_prop in Hw as [_ Hw]. simpl in Hw.
    apply andb_prop in Hw as [Hd Hr].
    apply pattern_digits; [assumption | now apply all_take | now left].
Qed.

Lemma pattern_float (w f : string) :
  Str.all Digits.isDigit w = true -> Str.all Digits.isDigit f = true ->
  Str.all Spec.isZeroChar w && String.eqb f "" = false ->
  Spec.coefficientPattern (coefficient (normalizeFloat (w ++ "." ++ f))) = true.
Proof.
  intros Hw Hf Hbare.
  destruct (leading_zeros w) as (j & rest & -> & [-> | (c & r & -> & Hc)]).
  - rewrite append_empty in *.
    rewrite (all_repeat Spec.isZeroChar "0" j eq_refl) in Hbare. simpl in Hbare.
    change ("." ++ f) with (String "." f).
    rewrite normalizeFloat_skips_zeros by discriminate.
    unfold normalizeFloat.
    rewrite removeLeadingZeros_nonzero by discriminate.
    cbn [Str.startsWith Ascii.eqb Bool.eqb andb].
    rewrite startsWith_empty. cbn [coefficient Str.sliceFrom Str.drop].
    apply pattern_stripped; [|assumption].
    intros ->. discriminate Hbare.
  - rewrite all_append in Hw. apply andb_prop in Hw as [_ Hw]. simpl in Hw.
    apply andb_prop in Hw as [Hd Hr].
    rewrite append_assoc. cbn [append].
    rewrite normalizeFloat_skips_zeros by assumption.
    change (Spec.coefficientPattern
              (coefficient (normalizeFloat (String c r ++ "." ++ f))) = true).
    rewrite normalizeFloat_leading by assumption. cbn [coefficient].
    apply pattern_digits; [assumption | | now left].
    now rewrite all_append, Hr, Hf.
Qed.

(** The coefficient of a decimal literal keeps the pattern, unless the
    literal is zeros, a point and no fraction digit. *)
Lemma pattern_text (d : Spec.Decimal) :
  Spec.wf d = true -> Spec.bareZeroPoint d = false ->
  Spec.coefficientPattern (coefficient (normalizedNumber (Spec.text d))) = true.
Proof.
  intros Hwf Hbare. rewrite (normalizedNumber_text d Hwf).
  unfold Spec.bareZeroPoint in Hbare. unfold Spec.mantissa.
  destruct (Spec.fraction d) as [f|] eqn:Hf.
  - apply pattern_float; [now apply wf_whole | now apply (wf_fraction d) | assumption].
  - apply pattern_integer; [now apply wf_integer | now apply wf_whole].
Qed.

(** ** The requested precision *)

(** Whatever the text, the coefficient is addDecimalPointToNumber of a
    string with no exponent marker in it. *)
Lemma coefficient_source (s : string) :
  exists significantDigits,
    coefficient (normalizedNumber s) = addDecimalPointToNumber significantDigits
    /\ Str.includes significantDigits "e" = false.
Proof.
  unfold normalizedNumber.
  pose proof (split_head_clean (Str.replace s "E" "e") "e") as Hclean.
  set (m := hd "" (Str.split (Str.replace s "E" "e") "e")) in *.
  destruct (Str.includes s ".").
  - unfold normalizeFloat.
    destruct (removeLeadingZeros_suffix m) as [j Hj].
    destruct (Str.startsWith (removeLeadingZeros m) "."); cbn [coefficient];
      eexists; (split; [reflexivity|]).
    + destruct (removeLeadingZeros_suffix (Str.sliceFrom (removeLeadingZeros m) 1)) as [k ->].
      rewrite Hj. unfold Str.sliceFrom. now repeat apply includes_drop.
    + rewrite Hj. now apply includes_replace, includes_drop.
  - unfold normalizeInteger; cbn [coefficient].
    eexists; split; [reflexivity|].
    destruct (removeTrailingZeros_prefix (removeLeadingZeros m)) as [k ->].
    destruct (removeLeadingZeros_suffix m) as [j ->].
    now apply includes_take, includes_drop.
Qed.

(** The precision is three for the coefficient of an empty digit string
    (the "und" of "undefined."), and the count of the characters around the
    point otherwise. *)
Lemma requestedPrecision_convert (s : string) :
  (coefficient (normalizedNumber s) = "undefined."
   /\ requestedPrecision (convertNumberToScientificNotation s) = 3)
  \/ exists c rest,
       coefficient (normalizedNumber s) = String c ("." ++ rest)
       /\ requestedPrecision (convertNumberToScientificNotation s) = Z.of_nat (S (length rest)).
Proof.
  unfold convertNumberToScientificNotation.
  destruct (coefficient_source s) as ([|c rest] & -> & Hclean).
  - left. split; reflexivity.
  - right. exists c, rest. split; [reflexivity|].
    simpl in Hclean. apply orb_false_elim in Hclean as [Hc Hrest].
    unfold requestedPrecision. rewrite addDecimalPointToNumber_cons.
    change ("e" ++ Number.show (finalMagnitude s)) with (String "e" (Number.show (finalMagnitude s))).
    rewrite split_append by (cbn [append Str.includes]; now rewrite Hc, Hrest).
    cbn [hd append Str.replace].
    destruct (Ascii.eqb c "."); cbn [append Str.replace length];
      rewrite ?Ascii.eqb_refl; reflexivity.
Qed.

Lemma requestedPrecision_positive (s : string) :
  1 <= requestedPrecision (convertNumberToScientificNotation s).
Proof.
  destruct (requestedPrecision_convert s) as [[_ ->] | (c & rest & _ & ->)]; lia.
Qed.

Lemma requestedPrecision_digits (s : string) :
  Spec.coefficientDigits (coefficient (normalizedNumber s))
  <= Z.max 9 (requestedPrecision (convertNumberToScientificNotation s)).
Proof.
  destruct (requestedPrecision_convert s) as [[-> ->] | (c & rest & -> & ->)].
  - vm_compute. discriminate.
  - unfold Spec.coefficientDigits. cbn [append Str.removeAll].
    rewrite Ascii.eqb_refl.
    pose proof (length_removeAll rest ".") as Hlen.
    destruct (Ascii.eqb c "."); cbn [length]; lia.
Qed.

(** ** Digits *)

Lemma length_digits (r : Z) (w : nat) (n : Z) : length (Digits.digits r w n) = w.
Proof.
  revert n; induction w as [|w IH]; intros n; simpl; [reflexivity|].
  rewrite length_append, IH; simpl; lia.
Qed.

Lemma digitChar_digit (d : Z) : 0 <= d < 10 -> Digits.isDigit (Digits.digitChar d) = true.
Proof.
  intros H. assert (H16 : 0 <= d < 16) by lia.
  each_digit d H16; try reflexivity; lia.
Qed.

Lemma digitValue_digitChar (d : Z) : 0 <= d < 10 -> Digits.digitValue (Digits.digitChar d) = d.
Proof.
  intros H. assert (H16 : 0 <= d < 16) by lia.
  each_digit d H16; try reflexivity; lia.
Qed.

Lemma all_digits (w : nat) (n : Z) : Str.all Digits.isDigit (Digits.digits 10 w n) = true.
Proof.
  revert n; induction w as [|w IH]; intros n; simpl; [reflexivity|].
  rewrite all_append, IH. simpl.
  rewrite digitChar_digit; [reflexivity | apply Z.mod_pos_bound; lia].
Qed.

Lemma count_positive (r n : Z) : (1 <= Digits.count r n)%nat.
Proof.
  unfold Digits.count. generalize (Z.to_nat (Z.log2 n)) as fuel.
  intros [|fuel]; simpl; [lia|]. destruct (n <? r); lia.
Qed.

Lemma render_nonempty (r n : Z) : Digits.render r n <> "".
Proof.
  unfold Digits.render. intros H.
  apply (f_equal length) in H. rewrite length_digits in H. simpl in H.
  pose proof (count_positive r n). lia.
Qed.

Lemma all_render (n : Z) : Str.all Digits.isDigit (Digits.render 10 n) = true.
Proof. apply all_digits. Qed.

Lemma countFuel_bound (r : Z) (fuel : nat) :
  2 <= r -> forall n, 0 <= n < 2 ^ Z.of_nat (S fuel) -> n < r ^ Z.of_nat (Digits.countFuel fuel r n).
Proof.
  intros Hr. induction fuel as [|fuel IH]; intros n Hn.
  - simpl in *. lia.
  - cbn [Digits.countFuel]. destruct (Z.ltb_spec n r) as [Hlt | Hge]; [simpl; lia|].
    assert (Hq : 0 <= n / r < 2 ^ Z.of_nat (S fuel)).
    { split; [apply Z.div_pos; lia|].
      apply Z.le_lt_trans with (n / 2); [apply Z.div_le_compat_l; lia|].
      apply Z.div_lt_upper_bound; [lia|].
      rewrite (Nat2Z.inj_succ (S fuel)), Z.pow_succ_r in Hn by lia. lia. }
    specialize (IH _ Hq).
    rewrite Nat2Z.inj_succ, Z.pow_succ_r by lia.
    pose proof (Z.mod_pos_bound n r ltac:(lia)).
    pose proof (Z.div_mod n r ltac:(lia)). nia.
Qed.

Lemma count_bound (r n : Z) : 2 <= r -> 0 <= n -> n < r ^ Z.of_nat (Digits.count r n).
Proof.
  intros Hr Hn. unfold Digits.count. apply countFuel_bound; [assumption|].
  split; [assumption|].
  destruct (Z.eq_dec n 0) as [->|Hnz].
  - apply Z.pow_pos_nonneg; lia.
  - pose proof (Z.log2_spec n ltac:(lia)) as [_ Hlog].
    pose proof (Z.log2_nonneg n).
    rewrite Nat2Z.inj_succ, Z2Nat.id by assumption. exact Hlog.
Qed.

Lemma valueFrom_snoc (s : string) c (acc : Z) :
  Digits.valueFrom acc (s ++ Str.chr c) = 10 * Digits.valueFrom acc s + Digits.digitValue c.
Proof. revert acc; induction s as [|a s IH]; intros acc; simpl; [reflexivity | apply IH]. Qed.

Lemma valueFrom_digits (w : nat) (n : Z) :
  Digits.valueFrom 0 (Digits.digits 10 w n) = n mod 10 ^ Z.of_nat w.
Proof.
  revert n; induction w as [|w IH]; intros n.
  - simpl. now rewrite Z.mod_1_r.
  - cbn [Digits.digits]. rewrite valueFrom_snoc, IH.
    rewrite digitValue_digitChar by (apply Z.mod_pos_bound; lia).
    rewrite Nat2Z.inj_succ, Z.pow_succ_r by lia.
    rewrite Z.rem_mul_r by (try apply Z.pow_pos_nonneg; lia). lia.
Qed.

(** Reading back what was printed. *)
Lemma valueFrom_render (n : Z) : 0 <= n -> Digits.valueFrom 0 (Digits.render 10 n) = n.
Proof.
  intros Hn. unfold Digits.render. rewrite valueFrom_digits.
  apply Z.mod_small. split; [assumption | apply count_bound; lia].
Qed.

Lemma unsigned_digits (s : string) :
  Str.all Digits.isDigit s = true -> Spec.unsigned s = s.
Proof.
  intros H. destruct (unsigned_cases s) as [(Heq & _) | (sign & Heq & Hsign)]; [assumption|].
  rewrite Heq in H. simpl in H. apply andb_prop in H as [H _].
  destruct Hsign; subst sign; discriminate H.
Qed.

Lemma unsigned_signed sign (s : string) :
  sign = "+"%char \/ sign = "-"%char -> Spec.unsigned (String sign s) = s.
Proof.
  unfold Spec.unsigned. intros [-> | ->]; simpl; now rewrite startsWith_empty.
Qed.

Lemma parseInt_show (z : Z) : Number.parseInt (Number.show (Some z)) = Some z.
Proof.
  unfold Number.show, Number.parseInt. cbv zeta.
  pose proof (all_render (Z.abs z)) as Hall.
  pose proof (render_nonempty 10 (Z.abs z)) as Hne.
  destruct (Z.ltb_spec z 0) as [Hneg | Hpos].
  - cbn [append Number.trimStart]. change (Number.isWhiteSpace "-") with false. cbv iota.
    cbn [Str.startsWith Ascii.eqb Bool.eqb andb orb Str.drop].
    rewrite startsWith_empty. cbn [orb].
    rewrite (takeDigits_digits _ Hall), valueFrom_render by lia.
    destruct (String.eqb_spec (Digits.render 10 (Z.abs z)) ""); [contradiction|].
    f_equal. lia.
  - cbn [append].
    destruct (Digits.render 10 (Z.abs z)) as [|c s] eqn:Hr; [contradiction|].
    assert (Hc : Digits.isDigit c = true) by (simpl in Hall; now apply andb_prop in Hall as [H _]).
    cbn [Number.trimStart]. rewrite (digit_not_space _ Hc).
    pose proof (unsigned_digits _ Hall) as Hu. unfold Spec.unsigned in Hu.
    assert (Hminus : Str.startsWith (String c s) "-" = false).
    { simpl. destruct (Ascii.eqb_spec c "-") as [->|]; [discriminate Hc | reflexivity]. }
    assert (Hplus : Str.startsWith (String c s) "+" = false).
    { simpl. destruct (Ascii.eqb_spec c "+") as [->|]; [discriminate Hc | reflexivity]. }
    rewrite Hminus, Hplus. cbn [orb].
    rewrite (takeDigits_digits _ Hall).
    destruct (String.eqb_spec (String c s) ""); [discriminate|].
    rewrite <- Hr, valueFrom_render by lia. f_equal. lia.
Qed.

(** ** toPrecision, step 10.a *)

Lemma countFuel_lower (r : Z) (fuel : nat) :
  2 <= r -> forall n, 1 <= n -> r ^ (Z.of_nat (Digits.countFuel fuel r n) - 1) <= n.
Proof.
  intros Hr. induction fuel as [|fuel IH]; intros n Hn; [simpl; lia|].
  cbn [Digits.countFuel]. destruct (Z.ltb_spec n r) as [Hlt | Hge]; [simpl; lia|].
  assert (Hq : 1 <= n / r) by (apply Z.div_le_lower_bound; lia).
  specialize (IH _ Hq).
  rewrite Nat2Z.inj_succ.
  replace (Z.succ (Z.of_nat (Digits.countFuel fuel r (n / r))) - 1)
    with (Z.succ (Z.of_nat (Digits.countFuel fuel r (n / r)) - 1)) by lia.
  assert (Hc : (1 <= Digits.countFuel fuel r (n / r))%nat)
    by (destruct fuel; simpl; [lia | destruct (n / r <? r); lia]).
  rewrite Z.pow_succ_r by lia.
  pose proof (Z.mul_div_le n r ltac:(lia)). nia.
Qed.

(** A positive integer has as many decimal digits as [Digits.count] says. *)
Lemma count_decimal (a : Z) :
  0 < a ->
  1 <= Z.of_nat (Digits.count 10 a)
  /\ 10 ^ (Z.of_nat (Digits.count 10 a) - 1) <= a < 10 ^ Z.of_nat (Digits.count 10 a).
Proof.
  intros Ha. pose proof (count_positive 10 a). split; [lia|]. split.
  - apply countFuel_lower; lia.
  - apply count_bound; lia.
Qed.

Lemma pow10_positive (k : Z) : 0 <= k -> 0 < 10 ^ k.
Proof. intros. apply Z.pow_pos_nonneg; lia. Qed.

Lemma pow10_split (j k : Z) : 0 <= j -> 0 <= k -> 10 ^ (j + k) = 10 ^ j * 10 ^ k.
Proof. intros. apply Z.pow_add_r; lia. Qed.

(** [floorLog10 a b] is the [e] with [b * 10^e <= a < b * 10^(e+1)]. *)
Lemma floorLog10_spec (a b : Z) :
  0 < a -> 0 < b ->
  Number.scaledLe b (Number.floorLog10 a b) a = true
  /\ Number.scaledLe b (Number.floorLog10 a b + 1) a = false.
Proof.
  intros Ha Hb. unfold Number.floorLog10.
  destruct (count_decimal a Ha) as (Hca & Hla & Hua).
  destruct (count_decimal b Hb) as (Hcb & Hlb & Hub).
  set (ca := Z.of_nat (Digits.count 10 a)) in *.
  set (cb := Z.of_nat (Digits.count 10 b)) in *.
  set (k := ca - cb).
  assert (Hupper : Number.scaledLe b (k + 1) a = false).
  { unfold Number.scaledLe. destruct (Z.leb_spec 0 (k + 1)).
    - apply Z.leb_gt.
      replace ca with ((cb - 1) + (k + 1)) in Hua by (unfold k; lia).
      rewrite pow10_split in Hua by lia.
      pose proof (pow10_positive (k + 1) ltac:(lia)). nia.
    - apply Z.leb_gt.
      replace (cb - 1) with (ca + (- (k + 1))) in Hlb by (unfold k; lia).
      rewrite pow10_split in Hlb by lia.
      pose proof (pow10_positive (- (k + 1)) ltac:(lia)). nia. }
  assert (Hlower : Number.scaledLe b (k - 1) a = true).
  { unfold Number.scaledLe. destruct (Z.leb_spec 0 (k - 1)).
    - apply Z.leb_le.
      replace (ca - 1) with (cb + (k - 1)) in Hla by (unfold k; lia).
      rewrite pow10_split in Hla by lia.
      pose proof (pow10_positive (k - 1) ltac:(lia)). nia.
    - apply Z.leb_le.
      replace cb with ((ca - 1) + (- (k - 1))) in Hub by (unfold k; lia).
      rewrite pow10_split in Hub by lia.
      pose proof (pow10_positive (- (k - 1)) ltac:(lia)). nia. }
  cbv zeta. fold ca cb k.
  destruct (Number.scaledLe b k a) eqn:Hk.
  - now split.
  - split; [assumption|]. now replace (k - 1 + 1) with k by lia.
Qed.

(** The quotient that roundScaled rounds lies between [10^(p-1)] and
    [10^p]. *)
Lemma scaled_bounds (a b e p : Z) :
  0 < a -> 0 < b -> 1 <= p ->
  Number.scaledLe b e a = true -> Number.scaledLe b (e + 1) a = false ->
  let s := e - p + 1 in
  let A := if 0 <=? s then a else a * 10 ^ (- s) in
  let B := if 0 <=? s then b * 10 ^ s else b in
  0 < B /\ B * 10 ^ (p - 1) <= A < B * 10 ^ p.
Proof.
  intros Ha Hb Hp Hlow Hhigh s A B. subst A B.
  unfold Number.scaledLe in *.
  pose proof (pow10_positive (p - 1) ltac:(lia)) as Hp1.
  assert (Hpp : 10 ^ p = 10 * 10 ^ (p - 1)).
  { replace p with (Z.succ (p - 1)) at 1 by lia. apply Z.pow_succ_r. lia. }
  destruct (Z.leb_spec 0 s) as [Hs | Hs].
  - (* s >= 0, hence e >= 0 *)
    destruct (Z.leb_spec 0 e); [|lia]. destruct (Z.leb_spec 0 (e + 1)); [|lia].
    apply Z.leb_le in Hlow. apply Z.leb_gt in Hhigh.
    pose proof (pow10_positive s Hs) as Hs1.
    assert (He : 10 ^ e = 10 ^ s * 10 ^ (p - 1))
      by (rewrite <- pow10_split by lia; f_equal; unfold s; lia).
    assert (He1 : 10 ^ (e + 1) = 10 ^ s * 10 ^ p)
      by (rewrite <- pow10_split by lia; f_equal; unfold s; lia).
    rewrite He in Hlow. rewrite He1 in Hhigh. nia.
  - (* s < 0 *)
    pose proof (pow10_positive (- s) ltac:(lia)) as Hs1.
    split; [assumption|]. split.
    + destruct (Z.leb_spec 0 e) as [He | He].
      * apply Z.leb_le in Hlow.
        assert (Hsplit : 10 ^ (p - 1) = 10 ^ e * 10 ^ (- s))
          by (rewrite <- pow10_split by lia; f_equal; unfold s; lia).
        pose proof (pow10_positive e He). rewrite Hsplit. nia.
      * apply Z.leb_le in Hlow.
        assert (Hsplit : 10 ^ (- s) = 10 ^ (- e) * 10 ^ (p - 1))
          by (rewrite <- pow10_split by lia; f_equal; unfold s; lia).
        pose proof (pow10_positive (- e) ltac:(lia)). rewrite Hsplit. nia.
    + destruct (Z.leb_spec 0 (e + 1)) as [He | He].
      * apply Z.leb_gt in Hhigh.
        assert (Hsplit : 10 ^ p = 10 ^ (e + 1) * 10 ^ (- s))
          by (rewrite <- pow10_split by lia; f_equal; unfold s; lia).
        pose proof (pow10_positive (e + 1) He). rewrite Hsplit. nia.
      * apply Z.leb_gt in Hhigh.
        assert (Hsplit : 10 ^ (- s) = 10 ^ (- (e + 1)) * 10 ^ p)
          by (rewrite <- pow10_split by lia; f_equal; unfold s; lia).
        pose proof (pow10_positive (- (e + 1)) ltac:(lia)). rewrite Hsplit. nia.
Qed.

(** Step 10.a of toPrecision: the [n] of [significand] has [p] digits and is
    the value over [10^(e-p+1)] rounded to the nearest integer, a tie
    upwards. *)
Theorem significand_spec (a b p : Z) :
  0 < a -> 0 < b -> 1 <= p ->
  let '(e, n) := Number.significand a b p in
  10 ^ (p - 1) <= n < 10 ^ p /\ Spec.nearest a b n (e - p + 1).
Proof.
  intros Ha Hb Hp. unfold Number.significand.
  destruct (floorLog10_spec a b Ha Hb) as [Hlow Hhigh].
  set (e := Number.floorLog10 a b) in *.
  destruct (scaled_bounds a b e p Ha Hb Hp Hlow Hhigh) as (HB & HlA & HuA).
  cbv zeta in HB, HlA, HuA.
  pose proof (pow10_positive (p - 1) ltac:(lia)) as Hp1.
  assert (Hpp : 10 ^ p = 10 * 10 ^ (p - 1)).
  { replace p with (Z.succ (p - 1)) at 1 by lia. apply Z.pow_succ_r. lia. }
  unfold Number.roundScaled.
  set (s := e - p + 1) in *.
  set (A := if 0 <=? s then a else a * 10 ^ (- s)) in *.
  set (B := if 0 <=? s then b * 10 ^ s else b) in *.
  set (n := (2 * A + B) / (2 * B)).
  assert (Hn : 2 * B * n <= 2 * A + B < 2 * B * (n + 1)).
  { pose proof (Z.mul_div_le (2 * A + B) (2 * B) ltac:(lia)).
    pose proof (Z.mul_succ_div_gt (2 * A + B) (2 * B) ltac:(lia)).
    fold n in H, H0. lia. }
  assert (Hrange : 10 ^ (p - 1) <= n <= 10 ^ p) by nia.
  destruct (Z.leb_spec (10 ^ p) n) as [Hcarry | Hfits].
  - assert (Hnp : n = 10 ^ p) by lia.
    assert (Hdiv : n / 10 = 10 ^ (p - 1)).
    { rewrite Hnp, Hpp, Z.mul_comm. apply Z.div_mul. lia. }
    rewrite Hdiv. split; [lia|].
    unfold Spec.nearest. cbv zeta.
    replace (e + 1 - p + 1) with (s + 1) by (unfold s; lia).
    destruct (Z.leb_spec 0 (s + 1)) as [Hs1 | Hs1].
    + destruct (Z.leb_spec 0 s) as [Hs | Hs].
      * (* the unit is ten times the one rounded at *)
        assert (Hunit : b * 10 ^ (s + 1) = 10 * B).
        { unfold B. destruct (Z.leb_spec 0 s); [|lia].
          replace (s + 1) with (Z.succ s) by lia. rewrite Z.pow_succ_r by lia. lia. }
        assert (HA : A = a) by (unfold A; destruct (Z.leb_spec 0 s); [reflexivity | lia]).
        rewrite Hunit, <- HA. nia.
      * assert (Hs' : s = -1) by lia.
        assert (HA : A = 10 * a).
        { unfold A. destruct (Z.leb_spec 0 s); [lia|].
          replace (- s) with 1 by lia. rewrite Z.pow_1_r. lia. }
        assert (HBb : B = b) by (unfold B; destruct (Z.leb_spec 0 s); [lia | reflexivity]).
        replace (s + 1) with 0 by lia. rewrite Z.pow_0_r, Z.mul_1_r.
        rewrite HA, HBb in *. nia.
    + assert (HA : A = 10 * (a * 10 ^ (- (s + 1)))).
      { unfold A. destruct (Z.leb_spec 0 s); [lia|].
        replace (- s) with (Z.succ (- (s + 1))) by lia. rewrite Z.pow_succ_r by lia. lia. }
      assert (HBb : B = b) by (unfold B; destruct (Z.leb_spec 0 s); [lia | reflexivity]).
      rewrite HA, HBb in *. nia.
  - split; [lia|].
    unfold Spec.nearest. cbv zeta. fold s. fold A B. lia.
Qed.

(** ** The runtime model on known values *)

(** 0.1 is [3602879701896397 * 2^-55] and 0.000001 is
    [4722366482869645 * 2^-72]. *)
Example toPrecision_known :
  Number.toPrecision (Finite false 3602879701896397 (-55)) 1 = Ok "0.1"
  /\ Number.toPrecision (Finite false 3602879701896397 (-55)) 20 = Ok "0.10000000000000000555"
  /\ Number.toPrecision (integer 123456) 2 = Ok "1.2e+5"
  /\ Number.toPrecision (integer 123456) 8 = Ok "123456.00"
  /\ Number.toPrecision (integer 25) 1 = Ok "3e+1"
  /\ Number.toPrecision (Finite false 5 (-1)) 1 = Ok "3"
  /\ Number.toPrecision (Finite false 4722366482869645 (-72)) 2 = Ok "0.0000010"
  /\ Number.toPrecision (Finite false 1 (-30)) 3 = Ok "9.31e-10"
  /\ Number.toPrecision zero 3 = Ok "0.00"
  /\ Number.toPrecision (Infinity false) 0 = Ok "Infinity"
  /\ Number.toPrecision (integer 1) 0 = Throw RangeError
  /\ Number.toPrecision (integer 1) 101 = Throw RangeError.
Proof. repeat split; vm_compute; reflexivity. Qed.

Example toString_known :
  Number.toString (integer 255) 16 = "ff"
  /\ Number.toString (integer 511) 8 = "777"
  /\ Number.toString (integer 5) 2 = "101"
  /\ Number.toString zero 16 = "0"
  /\ Number.toString (Number.ofInteger 9007199254740993) 16 = "20000000000000"
  /\ Number.toString (Infinity false) 16 = "Infinity".
Proof. repeat split; vm_compute; reflexivity. Qed.

Example parseInt_known :
  Number.parseInt "-2" = Some (-2) /\ Number.parseInt "+25" = Some 25
  /\ Number.parseInt "007" = Some 7 /\ Number.parseInt "" = None
  /\ Number.show (Some (-12)) = "-12" /\ Number.show None = "NaN".
Proof. repeat split; reflexivity. Qed.

(** ** The trace of baseTenLosesPrecision *)

Lemma traced_verdict (rt : Runtime) (node : Node) :
  baseTenLosesPrecision rt node = (r <- Spec.traced rt node ;; Ok (fst r)).
Proof.
  unfold baseTenLosesPrecision, Spec.traced.
  destruct (100 <? requestedPrecision (convertNumberToScientificNotation (getRaw node)));
    [reflexivity|].
  destruct (toPrecision rt (value node)
              (requestedPrecision (convertNumberToScientificNotation (getRaw node))));
    reflexivity.
Qed.


(** ** What toPrecision prints is a decimal literal *)

Lemma nonempty_eqb (s : string) : (0 < length s)%nat -> String.eqb s "" = false.
Proof. destruct s; simpl; [lia | reflexivity]. Qed.

Lemma wf_make (w : string) (f : option string) e :
  Str.all Digits.isDigit w = true ->
  match f with
  | Some f' => Str.all Digits.isDigit f' = true /\ (0 < length w + length f')%nat
  | None => (0 < length w)%nat
  end ->
  Spec.wfExponent e = true ->
  Spec.wf {| Spec.whole := w; Spec.fraction := f; Spec.exponent := e |} = true.
Proof.
  intros Hw Hf He. unfold Spec.wf; cbn [Spec.whole Spec.fraction Spec.exponent].
  rewrite Hw, He, andb_true_r. cbn [andb].
  destruct f as [f'|].
  - destruct Hf as [Hf Hlen]. rewrite Hf. cbn [andb].
    destruct w; [|reflexivity]. simpl in *. now rewrite nonempty_eqb.
  - now rewrite nonempty_eqb.
Qed.

Lemma not_bare (w f : string) e :
  (0 < length f)%nat ->
  Spec.bareZeroPoint {| Spec.whole := w; Spec.fraction := Some f; Spec.exponent := e |} = false.
Proof.
  intros Hf. unfold Spec.bareZeroPoint; cbn [Spec.whole Spec.fraction].
  rewrite nonempty_eqb by assumption. apply andb_false_r.
Qed.

Lemma wfExponent_rendered sign (n : Z) :
  sign = "+"%char \/ sign = "-"%char ->
  Spec.wfExponent (Some ("e"%char, String sign (Digits.render 10 n))) = true.
Proof.
  intros Hsign. unfold Spec.wfExponent.
  rewrite (unsigned_signed _ _ Hsign), all_render.
  destruct (String.eqb_spec (Digits.render 10 n) "") as [H|]; [|reflexivity].
  now apply render_nonempty in H.
Qed.

(** Every text toPrecision prints for a finite value that is not negative
    is a decimal literal with a digit after its point, when it has one. *)
Lemma toPrecisionFinite_literal (neg : bool) (m : N) (e p : Z) :
  neg && negb (m =? 0)%N = false -> 1 <= p ->
  exists d,
    Number.toPrecisionFinite neg m e p = Spec.text d
    /\ Spec.wf d = true /\ Spec.bareZeroPoint d = false.
Proof.
  intros Hsign Hp. unfold Number.toPrecisionFinite. rewrite Hsign.
  destruct (if (m =? 0)%N then (0, 0)
            else Number.significand (Number.numerator m e) (Number.denominator e) p)
    as [e10 n].
  pose proof (all_digits (Z.to_nat p) n) as HD.
  pose proof (length_digits 10 (Z.to_nat p) n) as HL.
  set (D := Digits.digits 10 (Z.to_nat p) n) in *. clearbody D.
  destruct ((e10 <? -6) || (p <=? e10)) eqn:Hexp.
  - set (sign := if 0 <? e10 then "+"%char else "-"%char).
    assert (Hs : sign = "+"%char \/ sign = "-"%char)
      by (unfold sign; destruct (0 <? e10); auto).
    replace ((if 0 <? e10 then "+" else "-") ++ Digits.render 10 (Z.abs e10))
      with (String sign (Digits.render 10 (Z.abs e10)))
      by (unfold sign; now destruct (0 <? e10)).
    destruct (Z.eqb_spec p 1) as [-> | Hp1].
    + exists {| Spec.whole := D; Spec.fraction := None;
                Spec.exponent := Some ("e"%char, String sign (Digits.render 10 (Z.abs e10))) |}.
      split; [|split].
      * unfold Spec.text, Spec.mantissa; simpl. now rewrite append_empty.
      * apply wf_make; [assumption | lia | now apply wfExponent_rendered].
      * unfold Spec.bareZeroPoint; simpl. apply andb_false_r.
    + exists {| Spec.whole := Str.take 1 D; Spec.fraction := Some (Str.drop 1 D);
                Spec.exponent := Some ("e"%char, String sign (Digits.render 10 (Z.abs e10))) |}.
      split; [|split].
      * unfold Spec.text, Spec.mantissa; simpl. now rewrite !append_assoc.
      * apply wf_make; [now apply all_take| |now apply wfExponent_rendered].
        split; [now apply all_drop|]. rewrite length_drop. lia.
      * apply not_bare. rewrite length_drop. lia.
  - apply orb_false_elim in Hexp as [Hlow Hhigh].
    apply Z.ltb_ge in Hlow. apply Z.leb_gt in Hhigh.
    destruct (Z.eqb_spec e10 (p - 1)) as [He | He].
    + exists {| Spec.whole := D; Spec.fraction := None; Spec.exponent := None |}.
      split; [|split].
      * unfold Spec.text, Spec.mantissa; simpl. now rewrite !append_empty.
      * apply wf_make; [assumption | lia | reflexivity].
      * unfold Spec.bareZeroPoint; simpl. apply andb_false_r.
    + destruct (Z.leb_spec 0 e10) as [Hnn | Hn].
      * exists {| Spec.whole := Str.take (Z.to_nat (e10 + 1)) D;
                  Spec.fraction := Some (Str.drop (Z.to_nat (e10 + 1)) D);
                  Spec.exponent := None |}.
        split; [|split].
        -- unfold Spec.text, Spec.mantissa; simpl. now rewrite !append_assoc, append_empty.
        -- apply wf_make; [now apply all_take| |reflexivity].
           split; [now apply all_drop|]. rewrite length_drop. lia.
        -- apply not_bare. rewrite length_drop. lia.
      * exists {| Spec.whole := "0";
                  Spec.fraction := Some (Str.repeat "0" (Z.to_nat (- (e10 + 1))) ++ D);
                  Spec.exponent := None |}.
        split; [|split].
        -- unfold Spec.text, Spec.mantissa; simpl. now rewrite append_empty.
        -- apply wf_make; [reflexivity| |reflexivity].
           split; [|simpl; lia].
           rewrite all_append, HD. now rewrite all_repeat.
        -- apply not_bare. rewrite length_append. lia.
Qed.

(** ** Binary, octal and hex literals *)

(** No digit of the radix, in upper case, is the letter of its prefix. *)
Lemma radixDigit_not_letter (radix : Z) letter c :
  (radix = 2 /\ letter = "B"%char) \/ (radix = 8 /\ letter = "O"%char)
  \/ (radix = 16 /\ letter = "X"%char) ->
  Spec.radixDigit radix c = true -> Ascii.eqb (Str.upper c) letter = false.
Proof.
  intros Hr Hc.
  destruct Hr as [[-> ->] | [[-> ->] | [-> ->]]];
    destruct c as [[] [] [] [] [] [] [] []]; try reflexivity; discriminate Hc.
Qed.

Lemma radixDigits_exclude_letter (radix : Z) letter (s : string) :
  (radix = 2 /\ letter = "B"%char) \/ (radix = 8 /\ letter = "O"%char)
  \/ (radix = 16 /\ letter = "X"%char) ->
  Str.all (Spec.radixDigit radix) s = true ->
  Str.includes (Str.toUpperCase s) letter = false.
Proof.
  intros Hr. induction s as [|c s IH]; intros Hs; [reflexivity|].
  simpl in Hs. apply andb_prop in Hs as [Hc Hs].
  cbn [Str.toUpperCase Str.includes].
  now rewrite (radixDigit_not_letter _ _ _ Hr Hc), IH.
Qed.

Lemma digitChar_radixDigit (radix d : Z) :
  radix = 2 \/ radix = 8 \/ radix = 16 -> 0 <= d < radix ->
  Spec.radixDigit radix (Digits.digitChar d) = true.
Proof.
  intros Hr Hd. assert (H16 : 0 <= d < 16) by lia.
  destruct Hr as [-> | [-> | ->]]; each_digit d H16; try reflexivity; lia.
Qed.

(** What is printed of an integer is digits of the radix. *)
Lemma render_radixDigits (radix n : Z) :
  radix = 2 \/ radix = 8 \/ radix = 16 ->
  Str.all (Spec.radixDigit radix) (Digits.render radix n) = true.
Proof.
  intros Hr. unfold Digits.render. generalize (Digits.count radix n) as w.
  intros w; revert n; induction w as [|w IH]; intros n; [reflexivity|].
  cbn [Digits.digits]. rewrite all_append, IH. cbn [Str.chr Str.all andb].
  rewrite digitChar_radixDigit; [reflexivity | assumption|].
  apply Z.mod_pos_bound. destruct Hr as [-> | [-> | ->]]; lia.
Qed.

(** A non-negative integer is printed as its digits, nothing else. *)
Lemma toString_natural (x : number) (radix : Z) :
  isNatural x = true -> Number.toString x radix = Digits.render radix (Spec.naturalValue x).
Proof.
  destruct x as [| |neg m e]; try discriminate. intros Hnat.
  unfold Number.toString, Spec.naturalValue, isNegative.
  assert (Hsign : neg && negb (m =? 0)%N = false).
  { simpl in Hnat. destruct (m =? 0)%N; [apply andb_false_r|].
    simpl in Hnat. apply andb_prop in Hnat as [Hneg _]. now destruct neg. }
  assert (Hrem : Number.numerator m e mod Number.denominator e = 0).
  { unfold Number.numerator, Number.denominator. simpl in Hnat.
    destruct (Z.leb_spec 0 e); [apply Z.mod_1_r|].
    destruct (N.eqb_spec m 0) as [->|]; [reflexivity|].
    simpl in Hnat. apply andb_prop in Hnat as [_ Hnat]. now apply Z.eqb_eq in Hnat. }
  rewrite Hsign, Hrem. simpl. now rewrite append_empty.
Qed.

(** A suffix that has no prefix letter in it lies within the digits. *)
Lemma endsWith_behind_prefix c letter (s p : string) :
  Str.includes p letter = false ->
  Str.endsWith (String c (String letter s)) p = Str.endsWith s p.
Proof.
  intros Hp. apply eq_true_iff_eq. rewrite !endsWith_iff. split.
  - intros [before Heq].
    destruct before as [|a [|b before]]; simpl in Heq.
    + subst p. simpl in Hp. rewrite Ascii.eqb_refl, orb_true_r in Hp. discriminate.
    + injection Heq as _ Heq. subst p. simpl in Hp. rewrite Ascii.eqb_refl in Hp. discriminate.
    + injection Heq as _ _ Heq. now exists before.
  - intros [before ->]. now exists (String c (String letter before)).
Qed.

Lemma octal_first a :
  Digits.isOctalDigit a = true ->
  Ascii.eqb a "_" = false /\ Str.upper a <> "B"%char /\ Str.upper a <> "X"%char.
Proof.
  destruct a as [[] [] [] [] [] [] [] []]; intros H; try discriminate H;
    repeat split; discriminate.
Qed.

(** The verdict for a literal with a radix prefix, whatever the runtime
    prints as long as it is digits of the radix. *)
Lemma prefixed_verdict (rt : Runtime) c (radix : Z) (digits rendered : string) (v : Value) :
  In (c, radix) [("b"%char, 2); ("B"%char, 2); ("o"%char, 8); ("O"%char, 8);
                 ("x"%char, 16); ("X"%char, 16)] ->
  toString rt v radix = Ok rendered ->
  Str.all (Spec.radixDigit radix) rendered = true ->
  losesPrecision rt {| raw := String "0" (String c digits); value := v |}
  = Ok (negb (Str.endsWith (Spec.rawDigits digits) (Str.toUpperCase rendered))).
Proof.
  intros Hin Hrendered Hdigits.
  unfold losesPrecision, isBaseTen, notBaseTenLosesPrecision, getRaw, Spec.rawDigits.
  cbn [raw value].
  simpl in Hin.
  repeat (destruct Hin as [Hin | Hin]; [injection Hin as <- <- | ]); try contradiction;
    cbn [prefixes forallb Str.startsWith Str.removeAll Str.toUpperCase andb negb
         Ascii.eqb Bool.eqb Str.upper nat_of_ascii];
    rewrite ?startsWith_empty;
    repeat match goal with
           | |- context [Str.upper (Ascii ?b0 ?b1 ?b2 ?b3 ?b4 ?b5 ?b6 ?b7)] =>
               let u := eval vm_compute in (Str.upper (Ascii b0 b1 b2 b3 b4 b5 b6 b7)) in
               change (Str.upper (Ascii b0 b1 b2 b3 b4 b5 b6 b7)) with u
           end;
    cbn [Ascii.eqb Bool.eqb andb negb];
    rewrite Hrendered; cbn [bind];
    match goal with
    | |- context [Str.endsWith (String ?a (String ?l _)) _] =>
        rewrite (endsWith_behind_prefix a l)
          by (eapply radixDigits_exclude_letter; [|exact Hdigits]; tauto)
    end; reflexivity.
Qed.

(** The verdict for a legacy octal literal: it is compared in base 8. *)
Lemma legacy_verdict (rt : Runtime) (text rendered : string) (v : Value) :
  legacyOctal text = true ->
  toString rt v 8 = Ok rendered ->
  losesPrecision rt {| raw := text; value := v |}
  = Ok (negb (Str.endsWith (Spec.rawDigits text) (Str.toUpperCase rendered))).
Proof.
  intros Hlegacy Hrendered.
  unfold losesPrecision, isBaseTen. cbn [raw].
  rewrite Hlegacy, andb_false_r.
  unfold notBaseTenLosesPrecision, getRaw, Spec.rawDigits.
  cbn [raw value].
  destruct text as [|c0 [|a rest]]; try discriminate Hlegacy.
  { destruct c0 as [[] [] [] [] [] [] [] []]; discriminate Hlegacy. }
  destruct c0 as [[] [] [] [] [] [] [] []]; try discriminate Hlegacy.
  simpl in Hlegacy. apply andb_prop in Hlegacy as [Ha _].
  destruct (octal_first a Ha) as (Hsep & HB & HX).
  cbn [Str.removeAll Ascii.eqb Bool.eqb]. rewrite Hsep.
  cbn [Str.toUpperCase Str.startsWith].
  apply Ascii.eqb_neq in HB, HX.
  change (Str.upper "0") with "0"%char.
  cbn [Ascii.eqb Bool.eqb andb]. rewrite HB, HX. cbn [andb].
  rewrite Hrendered. reflexivity.
Qed.

Lemma nonDecimal_cases (text digits : string) (radix : Z) :
  Spec.nonDecimal text = Some (radix, digits) ->
  (exists c,
      text = String "0" (String c digits)
      /\ In (c, radix) [("b"%char, 2); ("B"%char, 2); ("o"%char, 8); ("O"%char, 8);
                        ("x"%char, 16); ("X"%char, 16)])
  \/ (legacyOctal text = true /\ radix = 8 /\ digits = text).
Proof.
  unfold Spec.nonDecimal. intros H.
  repeat match type of H with
         | (if ?a || ?b then _ else _) = _ =>
             let Ea := fresh "E" in
             let Eb := fresh "E" in
             destruct a eqn:Ea;
             [ apply startsWith_inv in Ea; cbn [length Str.drop append] in Ea;
               cbn [orb] in H; injection H as <- <-;
               left; eexists; split; [exact Ea | simpl; tauto]
             | destruct b eqn:Eb;
               [ apply startsWith_inv in Eb; cbn [length Str.drop append] in Eb;
                 cbn [orb] in H; injection H as <- <-;
                 left; eexists; split; [exact Eb | simpl; tauto]
               | cbn [orb] in H ] ]
         end.
  destruct (legacyOctal text) eqn:Hlegacy; [|discriminate].
  injection H as <- <-. now right.
Qed.

Lemma nonDecimal_radix (text digits : string) (radix : Z) :
  Spec.nonDecimal text = Some (radix, digits) -> radix = 2 \/ radix = 8 \/ radix = 16.
Proof.
  intros H. destruct (nonDecimal_cases _ _ _ H) as [(c & _ & Hin) | (_ & -> & _)]; [|tauto].
  simpl in Hin.
  repeat (destruct Hin as [Hin | Hin]; [injection Hin as _ <-; tauto|]). contradiction.
Qed.

Lemma nonDecimal_verdict (rt : Runtime) (text digits rendered : string) (radix : Z) (v : Value) :
  Spec.nonDecimal text = Some (radix, digits) ->
  toString rt v radix = Ok rendered ->
  Str.all (Spec.radixDigit radix) rendered = true ->
  losesPrecision rt {| raw := text; value := v |}
  = Ok (negb (Str.endsWith (Spec.rawDigits digits) (Str.toUpperCase rendered))).
Proof.
  intros H Hrendered Hdigits.
  destruct (nonDecimal_cases _ _ _ H) as [(c & -> & Hin) | (Hlegacy & -> & ->)].
  - now apply prefixed_verdict with (radix := radix).
  - now apply legacy_verdict.
Qed.

(** ** Surface forms of the same digits *)

Lemma wf_surface (digits : string) (k : nat) e :
  Str.all Digits.isDigit digits = true -> (1 <= k <= length digits)%nat ->
  Spec.wfExponent e = true -> Spec.wf (Spec.surface digits k e) = true.
Proof.
  intros Hd Hk He. unfold Spec.surface. apply wf_make; [now apply all_take| |assumption].
  destruct (Nat.ltb_spec k (length digits)).
  - split; [now apply all_drop|]. rewrite length_take; lia.
  - rewrite length_take; lia.
Qed.

(** A digit string with no zero at either end normalizes to itself with the
    point behind its first digit, wherever the point was written; the
    magnitude is the exponent plus the digits before the point, less one. *)
Lemma normalizedNumber_surface (digits : string) (k : nat) e :
  Str.all Digits.isDigit digits = true ->
  Str.startsWith digits "0" = false -> Str.endsWith digits "0" = false ->
  (1 <= k <= length digits)%nat -> Spec.wfExponent e = true ->
  normalizedNumber (Spec.text (Spec.surface digits k e))
  = {| magnitude := Z.of_nat k - 1; coefficient := addDecimalPointToNumber digits |}.
Proof.
  intros Hd Hfirst Hlast Hk He.
  rewrite (normalizedNumber_text _ (wf_surface _ _ _ Hd Hk He)).
  destruct digits as [|c r]; [simpl in Hk; lia|].
  assert (Hc : c <> "0"%char).
  { intros ->. simpl in Hfirst. rewrite startsWith_empty in Hfirst. discriminate. }
  simpl in Hd. apply andb_prop in Hd as [Hdc Hdr].
  destruct k as [|k]; [lia|]. cbn [length] in Hk.
  unfold Spec.surface, Spec.mantissa; cbn [Spec.whole Spec.fraction length].
  rewrite addDecimalPointToNumber_cons.
  destruct (Nat.ltb_spec (S k) (S (length r))) as [Hlt | Hge].
  - cbn [Str.take Str.drop].
    rewrite normalizeFloat_leading by (try assumption; now apply all_take).
    rewrite length_take by lia. rewrite take_drop. f_equal. lia.
  - assert (Hkr : k = length r) by lia. subst k.
    cbn [Str.take]. rewrite take_all.
    rewrite normalizeInteger_leading by assumption. f_equal. lia.
Qed.

Lemma convert_surface (digits : string) (k : nat) e :
  Str.all Digits.isDigit digits = true ->
  Str.startsWith digits "0" = false -> Str.endsWith digits "0" = false ->
  (1 <= k <= length digits)%nat -> Spec.wfExponent e = true ->
  convertNumberToScientificNotation (Spec.text (Spec.surface digits k e))
  = addDecimalPointToNumber digits ++ "e"
    ++ Number.show (Some (Spec.exponentValue (Spec.surface digits k e) + (Z.of_nat k - 1))).
Proof.
  intros Hd Hfirst Hlast Hk He.
  rewrite (convert_text _ (wf_surface _ _ _ Hd Hk He)).
  now rewrite normalizedNumber_surface.
Qed.

Lemma digitsValue_surface (digits : string) (k : nat) e :
  (1 <= k <= length digits)%nat ->
  Spec.digitsValue (Spec.surface digits k e) = Digits.valueFrom 0 digits.
Proof.
  intros Hk. unfold Spec.digitsValue, Spec.surface; cbn [Spec.whole Spec.fraction].
  destruct (Nat.ltb_spec k (length digits)).
  - now rewrite take_drop.
  - assert (k = length digits) by lia. subst k. now rewrite take_all, append_empty.
Qed.

Lemma scale_surface (digits : string) (k : nat) e :
  (1 <= k <= length digits)%nat ->
  Spec.scale (Spec.surface digits k e)
  = Spec.exponentValue (Spec.surface digits k e) + Z.of_nat k - Z.of_nat (length digits).
Proof.
  intros Hk. unfold Spec.scale. unfold Spec.surface at 2; cbn [Spec.fraction].
  destruct (Nat.ltb_spec k (length digits)).
  - rewrite length_drop. lia.
  - lia.
Qed.

Lemma wfExponent_show (z : Z) :
  Spec.wfExponent (Some ("e"%char, Number.show (Some z))) = true.
Proof.
  unfold Number.show. destruct (z <? 0).
  - apply wfExponent_rendered. now right.
  - unfold Spec.wfExponent. cbn [append].
    rewrite (unsigned_digits _ (all_render _)), all_render.
    destruct (String.eqb_spec (Digits.render 10 (Z.abs z)) "") as [H|]; [|reflexivity].
    now apply render_nonempty in H.
Qed.

Lemma ecma_conforms : Spec.conforms ecma.
Proof.
  split.
  - intros x p Hp. cbn [toPrecision ecma]. unfold Number.toPrecision.
    destruct x; try (eexists; reflexivity).
    destruct (Z.ltb_spec p 1); [lia|]. destruct (Z.ltb_spec 100 p); [lia|].
    eexists; reflexivity.
  - intros x radix. eexists; reflexivity.
Qed.

Lemma losesPrecision_returns (rt : Runtime) (node : Node) :
  Spec.conforms rt -> isNumber node = true -> returns (losesPrecision rt node).
Proof.
  intros [Hprecision Hstring] Hnumber.
  destruct node as [text v]. unfold isNumber in Hnumber; cbn [value] in Hnumber.
  destruct v as [x| | | | |]; try discriminate.
  unfold losesPrecision. destruct (isBaseTen _).
  - unfold baseTenLosesPrecision. cbn [value].
    destruct (Z.ltb_spec 100 (requestedPrecision
                                (convertNumberToScientificNotation (getRaw {| raw := text; value := VNumber x |}))))
      as [Hbig | Hsmall]; [eexists; reflexivity|].
    pose proof (requestedPrecision_positive (getRaw {| raw := text; value := VNumber x |})) as Hpos.
    destruct (Hprecision x _ (conj Hpos Hsmall)) as [stored ->].
    eexists; reflexivity.
  - unfold notBaseTenLosesPrecision. cbn [value].
    match goal with
    | |- context [toString rt (VNumber x) ?base] => destruct (Hstring x base) as [rendered ->]
    end.
    eexists; reflexivity.
Qed.

(** ** The zero-stripping loops against the specification's stripping *)

Lemma reverse_append (s t : string) :
  Spec.reverse (s ++ t) = Spec.reverse t ++ Spec.reverse s.
Proof.
  induction s as [|a s IH]; cbn [append Spec.reverse].
  - now rewrite append_empty.
  - now rewrite IH, append_assoc.
Qed.

Lemma reverse_involutive (s : string) : Spec.reverse (Spec.reverse s) = s.
Proof.
  induction s as [|a s IH]; [reflexivity|].
  cbn [Spec.reverse]. now rewrite reverse_append, IH.
Qed.

Lemma reverse_zeros (j : nat) : Spec.reverse (Str.repeat "0" j) = Str.repeat "0" j.
Proof.
  induction j as [|j IH]; [reflexivity|].
  cbn [Str.repeat Spec.reverse]. rewrite IH. symmetry. apply (repeat_snoc "0" j).
Qed.

Lemma withoutLeadingZeros_stops (j : nat) c (rest : string) :
  c <> "0"%char ->
  Spec.withoutLeadingZeros (Str.repeat "0" j ++ String c rest) = String c rest.
Proof.
  intros Hc. induction j as [|j IH]; cbn [Str.repeat append Spec.withoutLeadingZeros].
  - unfold Spec.isZeroChar. apply Ascii.eqb_neq in Hc. now rewrite Hc.
  - exact IH.
Qed.

Lemma withoutTrailingZeros_stops (s : string) c (j : nat) :
  c <> "0"%char ->
  Spec.withoutTrailingZeros (s ++ String c (Str.repeat "0" j)) = s ++ Str.chr c.
Proof.
  intros Hc. unfold Spec.withoutTrailingZeros.
  rewrite reverse_append. cbn [Spec.reverse]. rewrite reverse_zeros, append_assoc.
  cbn [append]. rewrite (withoutLeadingZeros_stops j c _ Hc).
  cbn [Spec.reverse]. now rewrite reverse_involutive.
Qed.

Lemma not_all_zeros (j : nat) c (rest : string) :
  c <> "0"%char -> Str.all Spec.isZeroChar (Str.repeat "0" j ++ String c rest) = false.
Proof.
  intros Hc. rewrite all_append. cbn [Str.all]. unfold Spec.isZeroChar at 2.
  apply Ascii.eqb_neq in Hc. rewrite Hc. apply andb_false_r.
Qed.

(** The two loops of the rule, one after the other, take off the zeros the
    specification takes off: those before the first character that is not
    a zero and those behind the last; a string of zeros only is kept. *)
Lemma significantDigits_stripped (mantissa : string) :
  removeTrailingZeros (removeLeadingZeros mantissa) = Spec.significantDigits mantissa.
Proof.
  unfold Spec.significantDigits.
  destruct (leading_zeros mantissa) as (j & rest & -> & [-> | (c & r & -> & Hc)]).
  - rewrite append_empty, (all_repeat Spec.isZeroChar "0" j eq_refl).
    now rewrite removeLeadingZeros_zeros, removeTrailingZeros_zeros.
  - rewrite (not_all_zeros j c r Hc), (removeLeadingZeros_stops _ _ _ Hc),
      (withoutLeadingZeros_stops _ _ _ Hc).
    destruct (trailing_zeros (String c r)) as [Hz | (before & c' & t & Hs & Hc')].
    + cbn [length Str.repeat] in Hz. injection Hz as Hz _. contradiction.
    + rewrite Hs, (removeTrailingZeros_stops _ _ _ Hc').
      symmetry. now apply withoutTrailingZeros_stops.
Qed.

Lemma removeLeadingZeros_stripped (mantissa : string) :
  Str.all Spec.isZeroChar mantissa = false ->
  removeLeadingZeros mantissa = Spec.withoutLeadingZeros mantissa.
Proof.
  intros Hnz.
  destruct (leading_zeros mantissa) as (j & rest & -> & [-> | (c & r & -> & Hc)]).
  - rewrite append_empty, (all_repeat Spec.isZeroChar "0" j eq_refl) in Hnz. discriminate.
  - now rewrite (removeLeadingZeros_stops _ _ _ Hc), (withoutLeadingZeros_stops _ _ _ Hc).
Qed.

(** * The claims *)

(** C1, as stated, fails: for the text "0e5" (decoded value zero)
    losesPrecision returns true. *)
Lemma C1_zero_exponent_reports_loss :
  convertNumberToScientificNotation "0e5" = "0.e4"
  /\ Number.toPrecision zero 1 = Ok "0"
  /\ convertNumberToScientificNotation "0" = "0.e-1"
  /\ losesPrecision ecma (lit "0e5" zero) = Ok true.
Proof. repeat split; vm_compute; reflexivity. Qed.

(** C1 (amended).  For the texts "0" and "0.0" losesPrecision returns false;
    for "0e5" it returns true, the exponent of the text staying in the
    magnitude while the rendering of zero has none.  None of the three is
    reported: the visitor tests [node.value] first, and zero is falsy. *)
Theorem C1_zero_forms (reported : list Descriptor) :
  losesPrecision ecma (lit "0" zero) = Ok false
  /\ losesPrecision ecma (lit "0.0" zero) = Ok false
  /\ losesPrecision ecma (lit "0e5" zero) = Ok true
  /\ Literal ecma (lit "0" zero) reported = Ok reported
  /\ Literal ecma (lit "0.0" zero) reported = Ok reported
  /\ Literal ecma (lit "0e5" zero) reported = Ok reported.
Proof.
  repeat split; try (vm_compute; reflexivity); reflexivity.
Qed.

(** C2, as stated, fails: "1.0" and "1" are decimal literals of the same
    value, and so are "0" and "0e5", yet each pair normalizes to two
    different strings. *)
Lemma C2_same_value_different_forms :
  let one_point_zero :=
    {| Spec.whole := "1"; Spec.fraction := Some "0"; Spec.exponent := None |} in
  let one := {| Spec.whole := "1"; Spec.fraction := None; Spec.exponent := None |} in
  Spec.text one_point_zero = "1.0" /\ Spec.text one = "1"
  /\ Spec.wf one_point_zero = true /\ Spec.wf one = true
  /\ Spec.sameValue one_point_zero one
  /\ convertNumberToScientificNotation "1.0" = "1.0e0"
  /\ convertNumberToScientificNotation "1" = "1.e0"
  /\ convertNumberToScientificNotation "0" = "0.e-1"
  /\ convertNumberToScientificNotation "0e5" = "0.e4".
Proof. cbv zeta. repeat split; vm_compute; reflexivity. Qed.


(** C3.  The integer 2^53+1 decodes to the Number 2^53.  The text
    "9007199254740993" with that value makes losesPrecision return true, the
    text "9007199254740992" makes it return false. *)
Theorem C3_safe_integer_boundary :
  Number.ofInteger 9007199254740993 = Number.ofInteger 9007199254740992
  /\ Spec.naturalValue (Number.ofInteger 9007199254740993) = 9007199254740992
  /\ losesPrecision ecma (lit "9007199254740993" (Number.ofInteger 9007199254740993)) = Ok true
  /\ losesPrecision ecma (lit "9007199254740992" (Number.ofInteger 9007199254740992)) = Ok false.
Proof. repeat split; vm_compute; reflexivity. Qed.

(** C4.  For a literal with a radix prefix (0b, 0o, 0x, either case) or a
    legacy octal literal, losesPrecision returns true exactly when the raw
    digits (separators stripped, upper case) do not end with what the
    runtime prints of the value in that radix, in upper case, whenever that
    is digits of the radix.  ECMA-262's runtime prints a non-negative
    integer as its digits; zero is the one digit "0", so raw digits that
    are all zeros match it; "0777" is compared in base 8. *)
Theorem C4_non_decimal (text digits : string) (radix : Z) :
  Spec.nonDecimal text = Some (radix, digits) ->
  (forall rt v rendered,
      toString rt v radix = Ok rendered ->
      Str.all (Spec.radixDigit radix) rendered = true ->
      losesPrecision rt {| raw := text; value := v |}
      = Ok (negb (Str.endsWith (Spec.rawDigits digits) (Str.toUpperCase rendered))))
  /\ (forall x,
         isNatural x = true ->
         toString ecma (VNumber x) radix = Ok (Digits.render radix (Spec.naturalValue x))
         /\ losesPrecision ecma (lit text x)
            = Ok (negb (Str.endsWith (Spec.rawDigits digits)
                          (Str.toUpperCase (Digits.render radix (Spec.naturalValue x))))))
  /\ (Str.toUpperCase (Digits.render radix 0) = "0"
      /\ forall k,
           Spec.rawDigits digits = Str.repeat "0" (S k) ->
           losesPrecision ecma (lit text zero) = Ok false)
  /\ Spec.nonDecimal "0777" = Some (8, "0777")
  /\ losesPrecision ecma (lit "0777" (integer 511)) = Ok false
  /\ losesPrecision ecma (lit "0777" (integer 777)) = Ok true.
Proof.
  intros Hform.
  pose proof (nonDecimal_radix _ _ _ Hform) as Hradix.
  assert (Hecma : forall x,
             isNatural x = true ->
             toString ecma (VNumber x) radix = Ok (Digits.render radix (Spec.naturalValue x))
             /\ losesPrecision ecma (lit text x)
                = Ok (negb (Str.endsWith (Spec.rawDigits digits)
                              (Str.toUpperCase (Digits.render radix (Spec.naturalValue x)))))).
  { intros x Hnat.
    assert (Hprint : toString ecma (VNumber x) radix
                     = Ok (Digits.render radix (Spec.naturalValue x)))
      by (cbn [toString ecma]; now rewrite toString_natural).
    split; [exact Hprint|].
    apply (nonDecimal_verdict ecma _ _ _ _ _ Hform Hprint).
    now apply render_radixDigits. }
  assert (Hrender : Str.toUpperCase (Digits.render radix 0) = "0")
    by (destruct Hradix as [-> | [-> | ->]]; reflexivity).
  split; [intros rt v rendered; now apply nonDecimal_verdict|].
  split; [exact Hecma|].
  split; [|repeat split; vm_compute; reflexivity].
  split; [exact Hrender|].
  intros k Hzeros.
  destruct (Hecma zero eq_refl) as [_ ->].
  change (Spec.naturalValue zero) with 0. rewrite Hrender, Hzeros.
  pose proof (endsWith_zero "" k) as Hend. cbn [append] in Hend.
  now rewrite Hend.
Qed.

Lemma C4_non_decimal_witness :
  losesPrecision ecma (lit "0xFF_ff" (integer 65535))
  = Ok (negb (Str.endsWith "FFFF" "FFFF"))
  /\ losesPrecision ecma (lit "0x20000000000001" (Number.ofInteger 9007199254740993))
     = Ok (negb (Str.endsWith "20000000000001" "20000000000000")).
Proof.
  split.
  - exact (proj2 (proj1 (proj2 (C4_non_decimal "0xFF_ff" "FF_ff" 16 eq_refl))
                   (integer 65535) eq_refl)).
  - exact (proj2 (proj1 (proj2 (C4_non_decimal "0x20000000000001" "20000000000001" 16 eq_refl))
                   (Number.ofInteger 9007199254740993) eq_refl)).
Defined.

(** C5, as stated, fails: the magnitude is taken from the length of the
    mantissa as written, not from its length after the leading zeros went.
    The adjustment of -1 that "0" needs puts "089" at 0, where
    normalizeInteger gives 1; with no adjustment "089" fits and "0" does
    not. *)
Lemma C5_stated_magnitude_misses :
  magnitude (normalizeInteger "0") = -1
  /\ Spec.statedMagnitude (-1) "0" = -1
  /\ Spec.statedMagnitude 0 "0" = 0
  /\ Spec.statedMagnitude 1 "0" = 1
  /\ magnitude (normalizeInteger "089") = 1
  /\ Spec.statedMagnitude (-1) "089" = 0
  /\ Spec.statedMagnitude 0 "089" = 1
  /\ isBaseTen (lit "089" (integer 89)) = true.
Proof. repeat split; vm_compute; reflexivity. Qed.

(** C5 (amended).  For a decimal literal with no point whose mantissa has
    at most one leading zero, the normalizer is normalizeInteger on the
    mantissa.  Its magnitude is the length of the mantissa as written, less
    one, and less one more when its first character is a zero: that is -1
    for "0" and, for any other such mantissa, the length after the leading
    zero is stripped, less one.  Its coefficient is the significant digits
    of the mantissa (leading, then trailing zeros stripped, as the
    specification strips them) with a point after the first of them. *)
Theorem C5_integer_form (d : Spec.Decimal) :
  Spec.wf d = true -> Spec.fraction d = None ->
  Str.startsWith (Spec.whole d) "00" = false ->
  normalizedNumber (Spec.text d) = normalizeInteger (Spec.whole d)
  /\ magnitude (normalizedNumber (Spec.text d))
     = Z.of_nat (length (Spec.whole d)) - 1
       - (if Str.startsWith (Spec.whole d) "0" then 1 else 0)
  /\ magnitude (normalizedNumber (Spec.text d))
     = (if String.eqb (Spec.whole d) "0" then -1
        else Z.of_nat (length (Spec.withoutLeadingZeros (Spec.whole d))) - 1)
  /\ exists c rest,
       Spec.significantDigits (Spec.whole d) = String c rest
       /\ coefficient (normalizedNumber (Spec.text d)) = String c ("." ++ rest).
Proof.
  intros Hwf Hf Hone.
  pose proof (normalizedNumber_text d Hwf) as Hnormal. rewrite Hf in Hnormal.
  pose proof (wf_integer d Hwf Hf) as Hne.
  rewrite Hnormal. split; [reflexivity|].
  set (mantissa := Spec.whole d) in *. clearbody mantissa.
  split; [|split].
  - unfold normalizeInteger; cbn [magnitude]. destruct (Str.startsWith mantissa "0"); lia.
  - unfold normalizeInteger; cbn [magnitude].
    destruct mantissa as [|a s]; [contradiction|].
    destruct (Ascii.eqb_spec a "0") as [-> | Ha].
    + destruct s as [|b s]; [reflexivity|].
      assert (Hb : b <> "0"%char).
      { intros ->. simpl in Hone. rewrite startsWith_empty in Hone. discriminate. }
      pose proof (withoutLeadingZeros_stops 1 b s Hb) as Hstrip.
      cbn [Str.repeat append] in Hstrip. rewrite Hstrip.
      cbn [Str.startsWith Ascii.eqb Bool.eqb andb]. rewrite ?startsWith_empty.
      cbn [String.eqb Ascii.eqb Bool.eqb length]. lia.
    + pose proof (withoutLeadingZeros_stops 0 a s Ha) as Hstrip.
      cbn [Str.repeat append] in Hstrip. rewrite Hstrip.
      assert (Hstart : Str.startsWith (String a s) "0" = false)
        by exact (startsWith_head a s "0" Ha).
      rewrite Hstart.
      destruct (String.eqb_spec (String a s) "0") as [Heq|]; [|reflexivity].
      injection Heq as -> _. contradiction.
  - unfold normalizeInteger; cbn [coefficient].
    rewrite significantDigits_stripped.
    destruct (Spec.significantDigits mantissa) as [|c rest] eqn:Hs.
    + exfalso. rewrite <- significantDigits_stripped in Hs.
      destruct mantissa as [|a s]; [contradiction|].
      destruct (leading_zeros (String a s)) as (j & rest & Hm & [-> | (c & r & -> & Hc)]).
      * rewrite append_empty in Hm. rewrite Hm in Hs.
        rewrite removeLeadingZeros_zeros, removeTrailingZeros_zeros, <- Hm in Hs. discriminate.
      * rewrite Hm, (removeLeadingZeros_stops _ _ _ Hc) in Hs.
        destruct (removeTrailingZeros_keeps_first c r) as [m Hk]. rewrite Hk in Hs. discriminate.
    + exists c, rest. now split.
Qed.

Lemma C5_integer_form_witness :
  magnitude (normalizedNumber "01200e3") = 3
  /\ exists c rest,
       Spec.significantDigits "01200" = String c rest
       /\ coefficient (normalizedNumber "01200e3") = String c ("." ++ rest).
Proof.
  destruct (C5_integer_form
              {| Spec.whole := "01200"; Spec.fraction := None;
                 Spec.exponent := Some ("e"%char, "3") |} eq_refl eq_refl eq_refl)
    as (_ & _ & Hmagnitude & Hcoefficient).
  split; [exact Hmagnitude | exact Hcoefficient].
Defined.

(** Beyond one leading zero the magnitude counts the extra zeros: "0089"
    is 89, normalizes to "8.9e2" and is told apart from the rendering "89"
    of its own value. *)
Example leading_zeros_counted :
  magnitude (normalizeInteger "0089") = 2
  /\ convertNumberToScientificNotation "0089" = "8.9e2"
  /\ Number.toPrecision (integer 89) 2 = Ok "89"
  /\ losesPrecision ecma (lit "0089" (integer 89)) = Ok true.
Proof. repeat split; vm_compute; reflexivity. Qed.

(** C6, as stated, fails.  For "1e999", whose value is infinite, the
    rendering is "Infinity" and its coefficient is "I.nfinity"; for "0.",
    whose digit string after the point is empty, the coefficient is
    "undefined.". *)
Lemma C6_coefficients_off_pattern :
  Spec.normalizedNumbersBuilt ecma (lit "1e999" (Infinity false))
  = Ok [ {| magnitude := 0; coefficient := "1." |};
         {| magnitude := 7; coefficient := "I.nfinity" |} ]
  /\ Spec.coefficientPattern "I.nfinity" = false
  /\ losesPrecision ecma (lit "1e999" (Infinity false)) = Ok true
  /\ Spec.normalizedNumbersBuilt ecma (lit "0." zero)
     = Ok [ {| magnitude := -1; coefficient := "undefined." |};
            {| magnitude := -1; coefficient := "0.0" |} ]
  /\ Spec.coefficientPattern "undefined." = false.
Proof. repeat split; vm_compute; reflexivity. Qed.

(** C6 (amended).  When the raw text, separators removed, is a decimal
    literal other than zeros followed by a bare point ("0.", "0.e5"), and
    the decoded value is finite and not negative, every NormalizedNumber
    that baseTenLosesPrecision builds, from the raw text and from the
    rendering of the value, has a coefficient of the pattern: one digit, a
    point, zero or more digits, the first digit a zero only when all of
    them are. *)
Theorem C6_coefficient_pattern (node : Node) (d : Spec.Decimal) (x : number) :
  getRaw node = Spec.text d -> Spec.wf d = true -> Spec.bareZeroPoint d = false ->
  value node = VNumber x -> isFinite x = true -> isNegative x = false ->
  exists built,
    Spec.normalizedNumbersBuilt ecma node = Ok built
    /\ hd_error built = Some (normalizedNumber (Spec.text d))
    /\ Forall (fun n => Spec.coefficientPattern (coefficient n) = true) built.
Proof.
  intros Hraw Hwf Hbare Hvalue Hfinite Hsign.
  pose proof (pattern_text d Hwf Hbare) as Hfirst.
  unfold Spec.normalizedNumbersBuilt, Spec.traced. rewrite Hraw, Hvalue.
  destruct (Z.ltb_spec 100 (requestedPrecision (convertNumberToScientificNotation (Spec.text d))))
    as [Hbig | Hsmall].
  - eexists; split; [reflexivity|]. split; [reflexivity|]. now constructor.
  - pose proof (requestedPrecision_positive (Spec.text d)) as Hpos.
    destruct x as [| |neg m e]; try discriminate Hfinite.
    cbn [toPrecision ecma]. unfold Number.toPrecision.
    destruct (Z.ltb_spec (requestedPrecision (convertNumberToScientificNotation (Spec.text d))) 1);
      [lia|].
    destruct (Z.ltb_spec 100 (requestedPrecision (convertNumberToScientificNotation (Spec.text d))));
      [lia|].
    cbn [orb bind].
    destruct (toPrecisionFinite_literal neg m e _ Hsign Hpos) as (d' & -> & Hwf' & Hbare').
    eexists; split; [reflexivity|]. split; [reflexivity|].
    constructor; [assumption|]. constructor; [|constructor].
    now apply pattern_text.
Qed.

Lemma C6_coefficient_pattern_witness :
  exists built,
    Spec.normalizedNumbersBuilt ecma (lit "1_234.50" (Finite false 2469 (-1))) = Ok built
    /\ hd_error built = Some (normalizedNumber "1234.50")
    /\ Forall (fun n => Spec.coefficientPattern (coefficient n) = true) built.
Proof.
  exact (C6_coefficient_pattern
           (lit "1_234.50" (Finite false 2469 (-1)))
           {| Spec.whole := "1234"; Spec.fraction := Some "50"; Spec.exponent := None |}
           (Finite false 2469 (-1)) eq_refl eq_refl eq_refl eq_refl eq_refl eq_refl).
Defined.

(** C7, as stated, fails: "0.e-1" is what "0" normalizes to, a digit, a
    point and an integer magnitude, and normalizing it again gives
    "undefined.e-2"; likewise "0.0e-1", from "0.00", gives "0.e-2". *)
Lemma C7_zero_coefficient_moves :
  convertNumberToScientificNotation "0" = Spec.canonical "0" "" (-1)
  /\ convertNumberToScientificNotation (Spec.canonical "0" "" (-1)) = "undefined.e-2"
  /\ convertNumberToScientificNotation "0.00" = Spec.canonical "0" "0" (-1)
  /\ convertNumberToScientificNotation (Spec.canonical "0" "0" (-1)) = "0.e-2".
Proof. repeat split; vm_compute; reflexivity. Qed.

(** C7 (amended).  A string in canonical form (one digit, a point, zero or
    more digits, "e" and an integer magnitude) whose first digit is not a
    zero, and whose magnitude is an integer the runtime is exact on, is
    returned unchanged by convertNumberToScientificNotation. *)
Theorem C7_canonical_fixed c (rest : string) (z : Z) :
  Digits.isDigit c = true -> c <> "0"%char -> Str.all Digits.isDigit rest = true ->
  Spec.safe z = true ->
  convertNumberToScientificNotation (Spec.canonical c rest z) = Spec.canonical c rest z.
Proof.
  intros Hc Hnz Hrest _.
  set (d := {| Spec.whole := Str.chr c; Spec.fraction := Some rest;
               Spec.exponent := Some ("e"%char, Number.show (Some z)) |}).
  assert (Htext : Spec.canonical c rest z = Spec.text d) by reflexivity.
  assert (Hwf : Spec.wf d = true).
  { apply wf_make; [simpl; now rewrite Hc | | apply wfExponent_show].
    split; [assumption | simpl; lia]. }
  rewrite Htext at 1. rewrite (convert_text d Hwf), (normalizedNumber_text d Hwf).
  unfold Spec.exponentValue, Spec.mantissa.
  cbn [d Spec.whole Spec.fraction Spec.exponent Str.chr append].
  pose proof (normalizeFloat_leading c "" rest Hc Hnz eq_refl) as Hfloat.
  cbn [append length] in Hfloat.
  rewrite parseInt_show, Hfloat. cbn [magnitude coefficient].
  unfold Spec.canonical. cbn [append]. now rewrite Z.add_0_r.
Qed.

Lemma C7_canonical_fixed_witness :
  convertNumberToScientificNotation "1.2345e2" = "1.2345e2".
Proof.
  exact (C7_canonical_fixed "1" "2345" 2 eq_refl ltac:(discriminate) eq_refl eq_refl).
Defined.

(** C8.  When the coefficient of a decimal literal has more than 100
    characters besides its point, losesPrecision returns true, normally and
    whatever the runtime's rendering would return or throw: the value is not
    rendered. *)
Theorem C8_precision_guard (rt : Runtime) (node : Node) :
  isBaseTen node = true ->
  100 < Spec.coefficientDigits (coefficient (normalizedNumber (getRaw node))) ->
  losesPrecision rt node = Ok true.
Proof.
  intros Hten Hmany. unfold losesPrecision, baseTenLosesPrecision. rewrite Hten.
  pose proof (requestedPrecision_digits (getRaw node)) as Hdigits.
  destruct (Z.ltb_spec 100 (requestedPrecision (convertNumberToScientificNotation (getRaw node))));
    [reflexivity | lia].
Qed.

Lemma C8_precision_guard_witness :
  losesPrecision
    {| toString := fun _ _ => Throw TypeError; toPrecision := fun _ _ => Throw RangeError |}
    (lit (Str.repeat "1" 101) (integer 1))
  = Ok true.
Proof.
  apply C8_precision_guard; [reflexivity | vm_compute; reflexivity].
Defined.



(** C10.  A Literal node whose value is falsy (a zero, NaN) is never
    reported: the visitor returns the diagnostics it was given, whatever
    the runtime and whatever losesPrecision would return for the node. *)
Theorem C10_falsy_never_reported (rt : Runtime) (node : Node) (reported : list Descriptor) :
  truthy (value node) = false -> Literal rt node reported = Ok reported.
Proof. intros Hfalsy. unfold Literal. now rewrite Hfalsy. Qed.

Lemma C10_falsy_never_reported_witness :
  losesPrecision ecma (lit "0e5" zero) = Ok true
  /\ Literal ecma (lit "0e5" zero) [] = Ok []
  /\ Literal ecma (lit "0x0" NaN) [] = Ok [].
Proof.
  split; [vm_compute; reflexivity|].
  split; apply C10_falsy_never_reported; reflexivity.
Defined.

(** * Further properties of the rule *)

(** ** The digit-string helpers *)

Lemma repeat_plus c (j k : nat) : Str.repeat c (j + k) = Str.repeat c j ++ Str.repeat c k.
Proof. induction j as [|j IH]; simpl; [reflexivity | now rewrite IH]. Qed.

Lemma includes_removeAll (s : string) x c :
  c <> x -> Str.includes (Str.removeAll s x) c = Str.includes s c.
Proof.
  intros Hc. induction s as [|a s IH]; simpl; [reflexivity|].
  destruct (Ascii.eqb_spec a x) as [->|Hax]; simpl.
  - rewrite IH. apply Ascii.eqb_neq in Hc. rewrite Ascii.eqb_sym in Hc. now rewrite Hc.
  - now rewrite IH.
Qed.

Lemma removeAll_clean (s : string) x : Str.includes (Str.removeAll s x) x = false.
Proof.
  induction s as [|a s IH]; simpl; [reflexivity|].
  destruct (Ascii.eqb a x) eqn:Ha; simpl; [assumption | now rewrite Ha].
Qed.

Lemma removeAll_unchanged (s : string) x : Str.includes s x = false -> Str.removeAll s x = s.
Proof.
  induction s as [|a s IH]; simpl; intros H; [reflexivity|].
  apply orb_false_elim in H as [Ha Hs]. now rewrite Ha, IH.
Qed.

(** X1.  removeLeadingZeros (lines 98-105): a string of zeros only, the empty
    one among them, comes back whole; any other string comes back from its
    first character that is not a zero.  Stripping twice strips no more. *)
Theorem removeLeadingZeros_behaviour (s : string) :
  (exists j,
      (s = Str.repeat "0" j /\ removeLeadingZeros s = s)
      \/ exists c rest,
           c <> "0"%char /\ s = Str.repeat "0" j ++ String c rest
           /\ removeLeadingZeros s = String c rest)
  /\ removeLeadingZeros (removeLeadingZeros s) = removeLeadingZeros s
  /\ (length (removeLeadingZeros s) <= length s)%nat
  /\ (removeLeadingZeros s = "" -> s = "").
Proof.
  destruct (leading_zeros s) as (j & rest & -> & [-> | (c & r & -> & Hc)]).
  - rewrite append_empty, removeLeadingZeros_zeros.
    split; [exists j; now left|]. split; [apply removeLeadingZeros_zeros|].
    split; [lia | auto].
  - rewrite (removeLeadingZeros_stops _ _ _ Hc).
    split; [exists j; right; now exists c, r|].
    split; [now apply removeLeadingZeros_nonzero|].
    split; [rewrite length_append; lia | discriminate].
Qed.

Lemma removeLeadingZeros_behaviour_witness :
  removeLeadingZeros (removeLeadingZeros "00120") = removeLeadingZeros "00120"
  /\ (length (removeLeadingZeros "00120") <= length "00120")%nat
  /\ (removeLeadingZeros "00120" = "" -> "00120" = "").
Proof. exact (proj2 (removeLeadingZeros_behaviour "00120")). Defined.

(** X2.  removeTrailingZeros (lines 112-119): a string of zeros only comes back
    whole; any other string comes back up to its last character that is
    not a zero.  Stripping twice strips no more. *)
Theorem removeTrailingZeros_behaviour (s : string) :
  (exists j,
      (s = Str.repeat "0" j /\ removeTrailingZeros s = s)
      \/ exists before c,
           c <> "0"%char /\ s = before ++ String c (Str.repeat "0" j)
           /\ removeTrailingZeros s = before ++ Str.chr c)
  /\ removeTrailingZeros (removeTrailingZeros s) = removeTrailingZeros s
  /\ (length (removeTrailingZeros s) <= length s)%nat
  /\ (removeTrailingZeros s = "" -> s = "").
Proof.
  destruct (trailing_zeros s) as [Hz | (before & c & j & -> & Hc)].
  - rewrite Hz, removeTrailingZeros_zeros.
    split; [exists (length s); now left|]. split; [apply removeTrailingZeros_zeros|].
    split; [lia | auto].
  - rewrite (removeTrailingZeros_stops _ _ _ Hc).
    split; [exists j; right; now exists before, c|].
    split; [apply (removeTrailingZeros_stops before c 0 Hc)|].
    split.
    + rewrite !length_append. simpl. lia.
    + intros H. apply (f_equal length) in H. rewrite length_snoc in H. discriminate.
Qed.

Lemma removeTrailingZeros_behaviour_witness :
  removeTrailingZeros (removeTrailingZeros "10200") = removeTrailingZeros "10200"
  /\ (length (removeTrailingZeros "10200") <= length "10200")%nat
  /\ (removeTrailingZeros "10200" = "" -> "10200" = "").
Proof. exact (proj2 (removeTrailingZeros_behaviour "10200")). Defined.

(** X3.  addDecimalPointToNumber (lines 89-91): of a string that is not empty it
    makes a string one longer, with the point at index 1, and taking the
    first point out again gives the string back; this is how
    baseTenLosesPrecision counts the digits of a coefficient. *)
Theorem addDecimalPointToNumber_round_trip (s : string) :
  s <> "" ->
  Str.replace (addDecimalPointToNumber s) "." "" = s
  /\ length (addDecimalPointToNumber s) = S (length s)
  /\ String.get 1 (addDecimalPointToNumber s) = Some "."%char
  /\ Str.first (addDecimalPointToNumber s) = Str.first s.
Proof.
  intros Hne. destruct s as [|c rest]; [contradiction|].
  rewrite addDecimalPointToNumber_cons. cbn [append].
  repeat split.
  cbn [Str.replace]. destruct (Ascii.eqb_spec c ".") as [->|]; [reflexivity|].
  cbn [Str.replace]. now rewrite Ascii.eqb_refl.
Qed.

Lemma addDecimalPointToNumber_round_trip_witness :
  Str.replace (addDecimalPointToNumber "12345") "." "" = "12345"
  /\ addDecimalPointToNumber "12345" = "1.2345"
  /\ addDecimalPointToNumber "" = "undefined.".
Proof.
  split; [apply (addDecimalPointToNumber_round_trip "12345"); discriminate|].
  split; reflexivity.
Defined.

(** X4.  getRaw (lines 46-48): the result has no separator left, keeps every
    other character, and is the raw text itself when that has no
    separator. *)
Theorem getRaw_strips_separators (node : Node) :
  Str.includes (getRaw node) "_" = false
  /\ (forall c, c <> "_"%char -> Str.includes (getRaw node) c = Str.includes (raw node) c)
  /\ (Str.includes (raw node) "_" = false -> getRaw node = raw node)
  /\ getRaw {| raw := getRaw node; value := value node |} = getRaw node
  /\ (length (getRaw node) <= length (raw node))%nat.
Proof.
  unfold getRaw; cbn [raw].
  split; [apply removeAll_clean|].
  split; [intros c Hc; now apply includes_removeAll|].
  split; [apply removeAll_unchanged|].
  split; [apply removeAll_unchanged, removeAll_clean | apply length_removeAll].
Qed.

Lemma getRaw_strips_separators_witness :
  getRaw (lit "1_000" (integer 1000)) = "1000"
  /\ Str.includes (getRaw (lit "1_000" (integer 1000))) "_" = false.
Proof.
  split; [reflexivity|].
  exact (proj1 (getRaw_strips_separators (lit "1_000" (integer 1000)))).
Defined.

(** ** The classifier on decimal literals *)

Lemma text_excludes (d : Spec.Decimal) c :
  Spec.wf d = true -> Digits.isDigit c = false ->
  c <> "."%char -> c <> "e"%char -> c <> "E"%char -> c <> "+"%char -> c <> "-"%char ->
  Str.includes (Spec.text d) c = false.
Proof.
  intros Hwf Hc Hpoint Hlow Hup Hplus Hminus.
  unfold Spec.text.
  rewrite includes_append, (mantissa_excludes d Hwf c Hc Hpoint), orb_false_l.
  destruct (Spec.exponent d) as [[mark digits]|] eqn:He; [|reflexivity].
  destruct (wf_exponent d Hwf _ _ He) as (Hmark & _ & Hall).
  cbn [Str.includes]. rewrite (exponent_excludes digits c Hall Hc Hplus Hminus), orb_false_r.
  apply Ascii.eqb_neq. destruct Hmark; congruence.
Qed.

Lemma startsWith_includes (s : string) a b :
  Str.startsWith s (String a (Str.chr b)) = true -> Str.includes s b = true.
Proof.
  destruct s as [|x [|y s]]; cbn [Str.startsWith Str.chr]; intros H; try discriminate.
  - now rewrite andb_false_r in H.
  - apply andb_prop in H as [_ H]. apply andb_prop in H as [H _].
    cbn [Str.includes]. now rewrite H, orb_true_r.
Qed.

Lemma legacyOctal_digits (s : string) :
  legacyOctal s = true -> Str.all Digits.isOctalDigit s = true.
Proof.
  destruct s as [|a rest]; [discriminate|].
  destruct a as [[] [] [] [] [] [] [] []]; try discriminate.
  cbn [legacyOctal]. intros H. apply andb_prop in H as [_ H]. exact H.
Qed.

(** A decimal literal that is no integer of legacy octal shape is on the
    decimal path. *)
Lemma isBaseTen_text (node : Node) (d : Spec.Decimal) :
  Spec.wf d = true -> getRaw node = Spec.text d ->
  Spec.fraction d <> None \/ Spec.exponent d <> None \/ legacyOctal (Spec.whole d) = false ->
  isBaseTen node = true.
Proof.
  intros Hwf Hraw Hshape.
  assert (Hprefix : forall a b,
             Digits.isDigit b = false -> b <> "_"%char ->
             b <> "."%char -> b <> "e"%char -> b <> "E"%char -> b <> "+"%char -> b <> "-"%char ->
             Str.startsWith (raw node) (String a (Str.chr b)) = false).
  { intros a b Hb Hsep Hpoint Hlow Hup Hplus Hminus.
    destruct (Str.startsWith (raw node) (String a (Str.chr b))) eqn:Hstart; [|reflexivity].
    apply startsWith_includes in Hstart.
    rewrite <- (includes_removeAll (raw node) "_" b Hsep) in Hstart.
    fold (getRaw node) in Hstart. rewrite Hraw, text_excludes in Hstart by assumption.
    discriminate. }
  unfold isBaseTen. apply andb_true_intro; split.
  - cbn [forallb prefixes].
    change "0x" with (String "0" (Str.chr "x")). change "0X" with (String "0" (Str.chr "X")).
    change "0b" with (String "0" (Str.chr "b")). change "0B" with (String "0" (Str.chr "B")).
    change "0o" with (String "0" (Str.chr "o")). change "0O" with (String "0" (Str.chr "O")).
    rewrite !Hprefix by (reflexivity || discriminate). reflexivity.
  - destruct (legacyOctal (raw node)) eqn:Hlegacy; [exfalso | reflexivity].
    pose proof (legacyOctal_digits _ Hlegacy) as Hoctal.
    assert (Hclean : getRaw node = raw node)
      by (apply removeAll_unchanged; now apply (all_excludes _ _ _ Hoctal)).
    rewrite Hclean in Hraw.
    assert (Hnone : forall c, Digits.isOctalDigit c = false -> Str.includes (Spec.text d) c = false)
      by (intros c Hc; rewrite <- Hraw; now apply (all_excludes _ _ _ Hoctal)).
    destruct (Spec.fraction d) as [f|] eqn:Hf.
    { pose proof (includes_point d Hwf) as Hpoint. rewrite Hf, Hnone in Hpoint by reflexivity.
      discriminate. }
    destruct (Spec.exponent d) as [[mark digits]|] eqn:He.
    { destruct (wf_exponent d Hwf _ _ He) as (Hmark & _).
      assert (Hin : Str.includes (Spec.text d) mark = true).
      { unfold Spec.text. rewrite He, includes_append. cbn [Str.includes].
        now rewrite Ascii.eqb_refl, orb_true_r. }
      rewrite Hnone in Hin by (destruct Hmark as [-> | ->]; reflexivity). discriminate. }
    assert (Hwhole : Spec.text d = Spec.whole d)
      by (unfold Spec.text, Spec.mantissa; now rewrite Hf, He, !append_empty).
    rewrite Hwhole in Hraw. rewrite Hraw in Hlegacy.
    destruct Hshape as [H | [H | H]]; [now apply H | now apply H | congruence].
Qed.

(** X5.  isBaseTen (lines 55-62): a decimal literal, written with or without
    separators, is sent down the decimal path unless it is an integer of
    legacy octal shape: a point, an exponent, or a digit 8 or 9 behind the
    leading zero each make it decimal. *)
Theorem isBaseTen_decimal_literals (node : Node) (d : Spec.Decimal) :
  Spec.wf d = true -> getRaw node = Spec.text d ->
  Spec.fraction d <> None \/ Spec.exponent d <> None \/ legacyOctal (Spec.whole d) = false ->
  isBaseTen node = true.
Proof. apply isBaseTen_text. Qed.

Lemma isBaseTen_decimal_literals_witness :
  isBaseTen (lit "1_000.5e3" (integer 1000500)) = true
  /\ isBaseTen (lit "089" (integer 89)) = true
  /\ isBaseTen (lit "017" (integer 15)) = false.
Proof.
  split; [|split; [|reflexivity]].
  - apply (isBaseTen_decimal_literals _
             {| Spec.whole := "1000"; Spec.fraction := Some "5";
                Spec.exponent := Some ("e"%char, "3") |}); [reflexivity | reflexivity |].
    left; discriminate.
  - apply (isBaseTen_decimal_literals _
             {| Spec.whole := "089"; Spec.fraction := None; Spec.exponent := None |});
      [reflexivity | reflexivity |].
    right; right; reflexivity.
Defined.

(** ** Zeros around the digits of a mantissa *)

Lemma last_nonzero (s : string) :
  s <> "" -> Str.endsWith s "0" = false ->
  exists before c, s = before ++ Str.chr c /\ c <> "0"%char.
Proof.
  intros Hne Hend.
  destruct (trailing_zeros s) as [Hz | (before & c & j & Hs & Hc)].
  - destruct s as [|a s]; [contradiction|]. cbn [length] in Hz.
    rewrite Hz in Hend. pose proof (endsWith_zero "" (length s)) as H.
    cbn [append] in H. rewrite H in Hend. discriminate.
  - destruct j as [|j]; [now exists before, c|].
    rewrite Hs, snoc_shift, endsWith_zero in Hend. discriminate.
Qed.

Lemma removeTrailingZeros_append_zeros (s : string) (t : nat) :
  s <> "" -> Str.endsWith s "0" = false ->
  removeTrailingZeros (s ++ Str.repeat "0" t) = s.
Proof.
  intros Hne Hend. destruct (last_nonzero s Hne Hend) as (before & c & -> & Hc).
  rewrite append_assoc. cbn [Str.chr append]. now apply removeTrailingZeros_stops.
Qed.

(** A mantissa below one: zeros, the point, [j] zeros and then a digit
    that is not zero. *)
Lemma normalizeFloat_fraction (z j : nat) c (r : string) :
  c <> "0"%char ->
  normalizeFloat (Str.repeat "0" z ++ "." ++ Str.repeat "0" j ++ String c r)
  = {| magnitude := - Z.of_nat j - 1; coefficient := String c ("." ++ r) |}.
Proof.
  intros Hc.
  change ("." ++ Str.repeat "0" j ++ String c r) with (String "." (Str.repeat "0" j ++ String c r)).
  rewrite normalizeFloat_skips_zeros by discriminate.
  unfold normalizeFloat.
  rewrite removeLeadingZeros_nonzero by discriminate.
  cbn [Str.startsWith Ascii.eqb Bool.eqb andb]. rewrite startsWith_empty.
  cbn [Str.sliceFrom Str.drop].
  rewrite (removeLeadingZeros_stops _ _ _ Hc), addDecimalPointToNumber_cons.
  f_equal. rewrite length_append, length_repeat. lia.
Qed.

(** X6.  normalizeFloat (lines 145-164) on a value below one: whatever the
    number of zeros before the point, a fraction of [j] zeros and then a
    digit that is not zero gets the magnitude [-j-1], and its coefficient
    is the rest of the fraction with the point behind that digit; the
    zeros the fraction ends in stay in the coefficient. *)
Theorem normalizeFloat_small_fraction (z j t : nat) c (r : string) :
  c <> "0"%char ->
  normalizeFloat (Str.repeat "0" z ++ "." ++ Str.repeat "0" j ++ String c r
                  ++ Str.repeat "0" t)
  = {| magnitude := - Z.of_nat j - 1;
       coefficient := String c ("." ++ r ++ Str.repeat "0" t) |}.
Proof.
  intros Hc. exact (normalizeFloat_fraction z j c (r ++ Str.repeat "0" t) Hc).
Qed.

Lemma normalizeFloat_small_fraction_witness :
  normalizeFloat "0.0034" = {| magnitude := -3; coefficient := "3.4" |}
  /\ normalizeFloat ".00340" = {| magnitude := -3; coefficient := "3.40" |}.
Proof.
  split.
  - apply (normalizeFloat_small_fraction 1 2 0 "3" "4"). discriminate.
  - apply (normalizeFloat_small_fraction 0 2 1 "3" "4"). discriminate.
Defined.

Lemma repeat_excludes c x (j : nat) : c <> x -> Str.includes (Str.repeat c j) x = false.
Proof.
  intros H. apply Ascii.eqb_neq in H.
  induction j as [|j IH]; simpl; [reflexivity | now rewrite H, IH].
Qed.

(** X7.  normalizeFloat (lines 145-164): zeros written before a mantissa that
    has a point change nothing. *)
Theorem normalizeFloat_leading_zeros (z : nat) (s : string) :
  Str.includes s "." = true ->
  normalizeFloat (Str.repeat "0" z ++ s) = normalizeFloat s.
Proof.
  intros Hpoint.
  destruct (leading_zeros s) as (j & rest & -> & [-> | (c & r & -> & Hc)]).
  - rewrite append_empty, repeat_excludes in Hpoint by discriminate. discriminate.
  - rewrite <- append_assoc, <- repeat_plus.
    now rewrite !normalizeFloat_skips_zeros.
Qed.

Lemma normalizeFloat_leading_zeros_witness :
  normalizeFloat "007.5" = normalizeFloat "7.5".
Proof. apply (normalizeFloat_leading_zeros 2 "7.5"). reflexivity. Defined.

(** X8.  normalizeInteger (lines 126-137): the magnitude is taken from the
    length of the mantissa as written, and only one leading zero is taken
    off it, so every leading zero after the first raises the magnitude by
    one; the coefficient is that of the mantissa without them. *)
Theorem normalizeInteger_leading_zeros (j : nat) c (r : string) :
  c <> "0"%char ->
  normalizeInteger (Str.repeat "0" j ++ String c r)
  = {| magnitude := magnitude (normalizeInteger (String c r)) + Z.max 0 (Z.of_nat j - 1);
       coefficient := coefficient (normalizeInteger (String c r)) |}.
Proof.
  intros Hc. unfold normalizeInteger. cbn [magnitude coefficient].
  rewrite (removeLeadingZeros_stops _ _ _ Hc), (removeLeadingZeros_nonzero _ _ Hc).
  assert (Hstart : Str.startsWith (String c r) "0" = false)
    by exact (startsWith_head c r "0" Hc).
  rewrite Hstart. f_equal. rewrite length_append, length_repeat.
  destruct j as [|j]; cbn [Str.repeat append].
  - rewrite Hstart. lia.
  - cbn [Str.startsWith]. rewrite Ascii.eqb_refl, startsWith_empty. cbn [andb length]. lia.
Qed.

Lemma normalizeInteger_leading_zeros_witness :
  normalizeInteger "89" = {| magnitude := 1; coefficient := "8.9" |}
  /\ normalizeInteger "089" = {| magnitude := 1; coefficient := "8.9" |}
  /\ normalizeInteger "0089" = {| magnitude := 2; coefficient := "8.9" |}.
Proof.
  split; [reflexivity|]. split.
  - apply (normalizeInteger_leading_zeros 1 "8" "9"). discriminate.
  - apply (normalizeInteger_leading_zeros 2 "8" "9"). discriminate.
Defined.

Lemma wf_bare (d : Spec.Decimal) e :
  Spec.wf d = true -> Spec.wfExponent e = true ->
  Spec.wf {| Spec.whole := Spec.whole d; Spec.fraction := Spec.fraction d;
             Spec.exponent := e |} = true.
Proof.
  unfold Spec.wf; cbn [Spec.whole Spec.fraction Spec.exponent].
  intros H He. apply andb_prop in H as [H _]. now rewrite H, He.
Qed.

(** X9.  normalizeInteger (lines 126-137) under
    convertNumberToScientificNotation (lines 171-184): the zeros an integer
    mantissa ends in go into the magnitude and not into the coefficient, so
    a number reads the same with its zeros written out and with them moved
    into the exponent ("1200", "12e2"); the exponents and the magnitude are
    integers the runtime is exact on. *)
Theorem integer_trailing_zeros (digits : string) (t : nat) e :
  let d := {| Spec.whole := digits ++ Str.repeat "0" t; Spec.fraction := None;
              Spec.exponent := e |} in
  Str.all Digits.isDigit digits = true -> digits <> "" ->
  Str.startsWith digits "0" = false -> Str.endsWith digits "0" = false ->
  Spec.wfExponent e = true ->
  Spec.safe (Spec.exponentValue d) = true ->
  Spec.safe (Spec.exponentValue d + Z.of_nat (length digits + t) - 1) = true ->
  normalizedNumber (Spec.text d)
  = {| magnitude := Z.of_nat (length digits + t) - 1;
       coefficient := addDecimalPointToNumber digits |}
  /\ convertNumberToScientificNotation (Spec.text d)
     = addDecimalPointToNumber digits ++ "e"
       ++ Number.show (Some (Spec.exponentValue d + Z.of_nat (length digits + t) - 1)).
Proof.
  intros d Hd Hne Hfirst Hlast He _ _.
  assert (Hwf : Spec.wf d = true).
  { apply wf_make; [|rewrite length_append; destruct digits; [contradiction | simpl; lia]
                    |assumption].
    rewrite all_append, Hd. now apply all_repeat. }
  assert (Hnormal : normalizedNumber (Spec.text d)
                    = {| magnitude := Z.of_nat (length digits + t) - 1;
                         coefficient := addDecimalPointToNumber digits |}).
  { rewrite (normalizedNumber_text d Hwf). cbn [d Spec.fraction Spec.whole].
    unfold normalizeInteger.
    destruct digits as [|c r] eqn:Hdigits; [contradiction|].
    assert (Hc : c <> "0"%char).
    { intros ->. simpl in Hfirst. rewrite startsWith_empty in Hfirst. discriminate. }
    change (String c r ++ Str.repeat "0" t) with (String c (r ++ Str.repeat "0" t)).
    rewrite (removeLeadingZeros_nonzero _ _ Hc).
    assert (Hstart : Str.startsWith (String c (r ++ Str.repeat "0" t)) "0" = false)
      by exact (startsWith_head c _ "0" Hc).
    rewrite Hstart.
    change (String c (r ++ Str.repeat "0" t)) with (String c r ++ Str.repeat "0" t).
    rewrite removeTrailingZeros_append_zeros by assumption.
    f_equal. rewrite length_append, length_repeat. lia. }
  split; [exact Hnormal|].
  rewrite (convert_text d Hwf), Hnormal. cbn [coefficient magnitude].
  do 4 f_equal. lia.
Qed.

Lemma integer_trailing_zeros_witness :
  convertNumberToScientificNotation "1200" = "1.2e3"
  /\ convertNumberToScientificNotation "12e2" = "1.2e3".
Proof.
  split.
  - apply (integer_trailing_zeros "12" 2 None); try reflexivity; discriminate.
  - apply (integer_trailing_zeros "12" 0 (Some ("e"%char, "2"))); try reflexivity; discriminate.
Defined.

(** X10.  convertNumberToScientificNotation (lines 171-184): the exponent part of
    a decimal literal touches nothing but the magnitude, to which its value
    is added, and its marker reads the same in either case; the exponent
    and the magnitude are integers the runtime is exact on. *)
Theorem exponent_only_shifts (d : Spec.Decimal) :
  Spec.wf d = true ->
  Spec.safe (Spec.exponentValue d) = true ->
  Spec.safe (Spec.exponentValue d + magnitude (normalizedNumber (Spec.mantissa d))) = true ->
  normalizedNumber (Spec.text d) = normalizedNumber (Spec.mantissa d)
  /\ convertNumberToScientificNotation (Spec.text d)
     = coefficient (normalizedNumber (Spec.mantissa d)) ++ "e"
       ++ Number.show (Some (Spec.exponentValue d
                             + magnitude (normalizedNumber (Spec.mantissa d))))
  /\ forall mark digits,
       Spec.exponent d = Some (mark, digits) ->
       convertNumberToScientificNotation (Spec.mantissa d ++ String "e" digits)
       = convertNumberToScientificNotation (Spec.text d)
       /\ convertNumberToScientificNotation (Spec.mantissa d ++ String "E" digits)
          = convertNumberToScientificNotation (Spec.text d).
Proof.
  intros Hwf _ _.
  assert (Hsame : forall e,
             Spec.wfExponent e = true ->
             normalizedNumber
               (Spec.text {| Spec.whole := Spec.whole d; Spec.fraction := Spec.fraction d;
                             Spec.exponent := e |})
             = normalizedNumber (Spec.mantissa d)).
  { intros e He.
    rewrite (normalizedNumber_text _ (wf_bare d e Hwf He)).
    pose proof (normalizedNumber_text _ (wf_bare d None Hwf eq_refl)) as Hbare.
    unfold Spec.text in Hbare at 1. cbn [Spec.exponent] in Hbare.
    rewrite append_empty in Hbare. exact (eq_sym Hbare). }
  assert (Hown : normalizedNumber (Spec.text d) = normalizedNumber (Spec.mantissa d)).
  { assert (He : Spec.wfExponent (Spec.exponent d) = true)
      by (unfold Spec.wf in Hwf; now apply andb_prop in Hwf as [_ Hwf]).
    rewrite <- (Hsame _ He). now destruct d. }
  split; [exact Hown|]. split; [now rewrite (convert_text d Hwf), Hown|].
  intros mark digits He.
  destruct (wf_exponent d Hwf _ _ He) as (Hmark & Hne & Hall).
  assert (Hmarks : forall m,
             m = "e"%char \/ m = "E"%char ->
             convertNumberToScientificNotation (Spec.mantissa d ++ String m digits)
             = convertNumberToScientificNotation (Spec.text d)).
  { intros m Hm.
    assert (Hwfe : Spec.wfExponent (Some (m, digits)) = true).
    { unfold Spec.wfExponent. rewrite Hall, andb_true_r.
      destruct (String.eqb_spec (Spec.unsigned digits) ""); [contradiction|].
      destruct Hm as [-> | ->]; reflexivity. }
    pose proof (convert_text _ (wf_bare d _ Hwf Hwfe)) as Hconvert.
    rewrite (Hsame _ Hwfe) in Hconvert.
    unfold Spec.text in Hconvert at 1. cbn [Spec.exponent] in Hconvert.
    change (Spec.mantissa {| Spec.whole := Spec.whole d; Spec.fraction := Spec.fraction d;
                             Spec.exponent := Some (m, digits) |})
      with (Spec.mantissa d) in Hconvert.
    rewrite Hconvert, (convert_text d Hwf), Hown.
    unfold Spec.exponentValue. cbn [Spec.exponent]. now rewrite He. }
  split; apply Hmarks; auto.
Qed.

Lemma exponent_only_shifts_witness :
  normalizedNumber "12.5E-7" = normalizedNumber "12.5"
  /\ convertNumberToScientificNotation "12.5e-7" = convertNumberToScientificNotation "12.5E-7".
Proof.
  pose proof (exponent_only_shifts
                {| Spec.whole := "12"; Spec.fraction := Some "5";
                   Spec.exponent := Some ("E"%char, "-7") |} eq_refl eq_refl eq_refl) as H.
  split; [exact (proj1 H)|].
  exact (proj1 (proj2 (proj2 H) "E"%char "-7" eq_refl)).
Defined.

(** ** The visitor *)

(** X11.  Literal (lines 220-229): with a runtime that prints a Number in any
    radix and to any precision from 1 to 100, the visitor returns normally
    for every node; it leaves the diagnostics as they were or adds one
    behind them, for this node and with the message id noLossOfPrecision,
    and it adds one only for a truthy Number for which losesPrecision
    returns true.  A literal that is no Number (a string, a BigInt, a
    regular expression) is never reported. *)
Theorem Literal_reports_at_most_once (rt : Runtime) (node : Node) (reported : list Descriptor) :
  Spec.conforms rt ->
  exists result,
    Literal rt node reported = Ok result
    /\ (result = reported /\ (truthy (value node) && isNumber node = true ->
                              losesPrecision rt node = Ok false)
        \/ result = (reported ++ [{| messageId := "noLossOfPrecision"; node := node |}])%list
           /\ truthy (value node) = true /\ isNumber node = true
           /\ losesPrecision rt node = Ok true)
    /\ (isNumber node = false -> result = reported).
Proof.
  intros Hrt. unfold Literal.
  destruct (truthy (value node)) eqn:Htruthy; cbn [andb];
    [|exists reported; split; [reflexivity|]; split; [left; split; [reflexivity|]|];
      [discriminate | reflexivity]].
  destruct (isNumber node) eqn:Hnumber;
    [|exists reported; split; [reflexivity|]; split; [left; split; [reflexivity|]|];
      [discriminate | reflexivity]].
  destruct (losesPrecision_returns rt node Hrt Hnumber) as [[|] ->]; cbn [bind].
  - eexists; split; [reflexivity|]. split; [right; auto | discriminate].
  - exists reported; split; [reflexivity|]. split; [left; auto | reflexivity].
Qed.

Lemma Literal_reports_at_most_once_witness :
  exists result,
    Literal ecma {| raw := "9007199254740993n"; value := VBigInt 9007199254740993 |} [] = Ok result
    /\ result = [].
Proof.
  destruct (Literal_reports_at_most_once
              ecma {| raw := "9007199254740993n"; value := VBigInt 9007199254740993 |} [] ecma_conforms)
    as (result & Hresult & _ & Hnone).
  exists result. split; [exact Hresult | now apply Hnone].
Defined.

(** ** Literals that are exact *)

(** X12.  notBaseTenLosesPrecision (lines 69-82): a binary, octal or hex literal
    whose digits are, leading zeros, letter case and separators aside, the
    digits of its value in that radix is not flagged, and the visitor adds
    no diagnostic for it. *)
Theorem exact_non_decimal_not_flagged (text digits : string) (radix : Z) (j : nat)
    (x : number) :
  Spec.nonDecimal text = Some (radix, digits) ->
  isNatural x = true ->
  Spec.rawDigits digits
  = Str.repeat "0" j ++ Str.toUpperCase (Digits.render radix (Spec.naturalValue x)) ->
  losesPrecision ecma (lit text x) = Ok false
  /\ forall reported, Literal ecma (lit text x) reported = Ok reported.
Proof.
  intros Hform Hnatural Hdigits.
  assert (Hprint : toString ecma (VNumber x) radix
                   = Ok (Digits.render radix (Spec.naturalValue x)))
    by (cbn [toString ecma]; now rewrite toString_natural).
  assert (Hverdict : losesPrecision ecma (lit text x) = Ok false).
  { unfold lit.
    rewrite (nonDecimal_verdict ecma _ _ _ _ _ Hform Hprint)
      by (apply render_radixDigits; now apply (nonDecimal_radix _ _ _ Hform)).
    rewrite Hdigits.
    replace (Str.endsWith _ _) with true; [reflexivity|].
    symmetry. apply endsWith_iff. now exists (Str.repeat "0" j). }
  split; [exact Hverdict|].
  intros reported. unfold Literal. rewrite Hverdict. cbn [bind].
  now destruct (truthy (value (lit text x)) && isNumber (lit text x)).
Qed.

Lemma exact_non_decimal_not_flagged_witness :
  losesPrecision ecma (lit "0x00_ff" (integer 255)) = Ok false
  /\ losesPrecision ecma (lit "0o17" (integer 15)) = Ok false.
Proof.
  split.
  - apply (exact_non_decimal_not_flagged "0x00_ff" "00_ff" 16 2 (integer 255)); reflexivity.
  - apply (exact_non_decimal_not_flagged "0o17" "17" 8 0 (integer 15)); reflexivity.
Defined.

(** ** Digit strings and their values *)

Lemma string_snoc_cases (s : string) : s = "" \/ exists s' c, s = s' ++ Str.chr c.
Proof.
  induction s as [|a s [-> | (s' & c & ->)]]; [now left | right | right].
  - now exists "", a.
  - now exists (String a s'), c.
Qed.

Lemma string_rev_ind (P : string -> Prop) :
  P "" -> (forall s c, P s -> P (s ++ Str.chr c)) -> forall s, P s.
Proof.
  intros Hempty Hsnoc s. remember (length s) as n eqn:Hn. revert s Hn.
  induction n as [|n IH]; intros s Hn.
  - destruct s; [exact Hempty | discriminate].
  - destruct (string_snoc_cases s) as [-> | (s' & c & ->)]; [exact Hempty|].
    apply Hsnoc, IH. rewrite length_snoc in Hn. lia.
Qed.

Lemma digitValue_range c : Digits.isDigit c = true -> 0 <= Digits.digitValue c < 10.
Proof.
  destruct c as [[] [] [] [] [] [] [] []]; intros H; try discriminate H;
    unfold Digits.digitValue; simpl; lia.
Qed.

Lemma digitValue_positive c :
  Digits.isDigit c = true -> c <> "0"%char -> 1 <= Digits.digitValue c.
Proof.
  destruct c as [[] [] [] [] [] [] [] []]; intros H Hc; try discriminate H;
    try (unfold Digits.digitValue; simpl; lia).
  now contradiction Hc.
Qed.

Lemma digitChar_digitValue c :
  Digits.isDigit c = true -> Digits.digitChar (Digits.digitValue c) = c.
Proof.
  destruct c as [[] [] [] [] [] [] [] []]; intros H; try discriminate H; reflexivity.
Qed.

Lemma valueFrom_acc (s : string) (acc : Z) :
  Digits.valueFrom acc s = acc * 10 ^ Z.of_nat (length s) + Digits.valueFrom 0 s.
Proof.
  revert acc; induction s as [|c s IH]; intros acc.
  - simpl. lia.
  - cbn [Digits.valueFrom length]. rewrite IH, (IH (10 * 0 + Digits.digitValue c)).
    rewrite Nat2Z.inj_succ, Z.pow_succ_r by lia. ring.
Qed.

Lemma valueFrom_append (s t : string) :
  Digits.valueFrom 0 (s ++ t)
  = Digits.valueFrom 0 s * 10 ^ Z.of_nat (length t) + Digits.valueFrom 0 t.
Proof.
  assert (H : forall acc, Digits.valueFrom acc (s ++ t)
                          = Digits.valueFrom (Digits.valueFrom acc s) t)
    by (induction s as [|c s IH]; intros acc; simpl; [reflexivity | apply IH]).
  now rewrite H, valueFrom_acc.
Qed.

Lemma valueFrom_zeros (j : nat) : Digits.valueFrom 0 (Str.repeat "0" j) = 0.
Proof. induction j as [|j IH]; [reflexivity | exact IH]. Qed.

Lemma valueFrom_leading_zeros (j : nat) (s : string) :
  Digits.valueFrom 0 (Str.repeat "0" j ++ s) = Digits.valueFrom 0 s.
Proof. rewrite valueFrom_append, valueFrom_zeros. lia. Qed.

Lemma valueFrom_trailing_zeros (s : string) (t : nat) :
  Digits.valueFrom 0 (s ++ Str.repeat "0" t) = Digits.valueFrom 0 s * 10 ^ Z.of_nat t.
Proof. rewrite valueFrom_append, valueFrom_zeros, length_repeat. lia. Qed.

Lemma valueFrom_bounds (s : string) :
  Str.all Digits.isDigit s = true ->
  0 <= Digits.valueFrom 0 s < 10 ^ Z.of_nat (length s).
Proof.
  induction s as [|s c IH] using string_rev_ind; intros H; [simpl; lia|].
  rewrite all_append in H. apply andb_prop in H as [Hs Hc].
  simpl in Hc. rewrite andb_true_r in Hc.
  rewrite valueFrom_snoc, length_snoc, Nat2Z.inj_succ, Z.pow_succ_r by lia.
  pose proof (digitValue_range c Hc). specialize (IH Hs). lia.
Qed.

Lemma valueFrom_lower c (r : string) :
  Digits.isDigit c = true -> c <> "0"%char -> Str.all Digits.isDigit r = true ->
  10 ^ Z.of_nat (length r) <= Digits.valueFrom 0 (String c r).
Proof.
  intros Hc Hnz Hr. cbn [Digits.valueFrom]. rewrite valueFrom_acc.
  pose proof (digitValue_positive c Hc Hnz). pose proof (valueFrom_bounds r Hr).
  pose proof (pow10_positive (Z.of_nat (length r)) ltac:(lia)). nia.
Qed.

(** Printing the value of a digit string to its own width gives it back. *)
Lemma digits_valueFrom (s : string) :
  Str.all Digits.isDigit s = true ->
  Digits.digits 10 (length s) (Digits.valueFrom 0 s) = s.
Proof.
  induction s as [|s c IH] using string_rev_ind; intros H; [reflexivity|].
  rewrite all_append in H. apply andb_prop in H as [Hs Hc].
  simpl in Hc. rewrite andb_true_r in Hc.
  pose proof (digitValue_range c Hc) as Hv.
  rewrite length_snoc, valueFrom_snoc. cbn [Digits.digits].
  replace ((10 * Digits.valueFrom 0 s + Digits.digitValue c) / 10)
    with (Digits.valueFrom 0 s)
    by (apply Z.div_unique with (Digits.digitValue c); lia).
  replace ((10 * Digits.valueFrom 0 s + Digits.digitValue c) mod 10)
    with (Digits.digitValue c)
    by (apply Z.mod_unique with (Digits.valueFrom 0 s); lia).
  now rewrite IH, digitChar_digitValue.
Qed.

(** ** toPrecision of a value that has no more digits than asked for *)

Lemma scaledLe_iff (a b k M : Z) :
  0 <= M -> 0 <= k + M ->
  Number.scaledLe b k a = true <-> b * 10 ^ (k + M) <= a * 10 ^ M.
Proof.
  intros HM HkM. unfold Number.scaledLe.
  pose proof (pow10_positive M HM) as HpM.
  destruct (Z.leb_spec 0 k) as [Hk | Hk].
  - rewrite Z.leb_le, pow10_split by lia.
    pose proof (pow10_positive k Hk). split; intros; nia.
  - rewrite Z.leb_le.
    replace M with (- k + (k + M)) at 2 by lia. rewrite (pow10_split (- k) (k + M)) by lia.
    pose proof (pow10_positive (k + M) HkM). pose proof (pow10_positive (- k) ltac:(lia)).
    split; intros; nia.
Qed.

Lemma scaledLe_below (a b k k' : Z) :
  0 < b -> k' <= k -> Number.scaledLe b k a = true -> Number.scaledLe b k' a = true.
Proof.
  intros Hb Hle H.
  set (M := Z.max 0 (- k')).
  apply (scaledLe_iff a b k M) in H; [|lia|lia].
  apply (scaledLe_iff a b k' M); [lia|lia|].
  apply Z.le_trans with (b * 10 ^ (k + M)); [|assumption].
  apply Z.mul_le_mono_nonneg_l; [lia|]. apply Z.pow_le_mono_r; lia.
Qed.

Lemma floorLog10_unique (a b E : Z) :
  0 < a -> 0 < b ->
  Number.scaledLe b E a = true -> Number.scaledLe b (E + 1) a = false ->
  Number.floorLog10 a b = E.
Proof.
  intros Ha Hb Hlow Hhigh.
  destruct (floorLog10_spec a b Ha Hb) as [Hlow' Hhigh'].
  destruct (Z.lt_trichotomy (Number.floorLog10 a b) E) as [Hlt | [Heq | Hgt]];
    [|assumption|].
  - rewrite (scaledLe_below a b E (Number.floorLog10 a b + 1) Hb ltac:(lia) Hlow) in Hhigh'.
    discriminate.
  - rewrite (scaledLe_below a b (Number.floorLog10 a b) (E + 1) Hb ltac:(lia) Hlow') in Hhigh.
    discriminate.
Qed.

(** When [a / b] is [n * 10^s] for an [n] of [p] digits, step 10.a finds
    that [n], and the exponent [s + p - 1]. *)
Lemma significand_exact (a b n s p : Z) :
  0 < b -> 1 <= p -> 10 ^ (p - 1) <= n < 10 ^ p ->
  a * 10 ^ Z.max 0 (- s) = n * 10 ^ Z.max 0 s * b ->
  Number.significand a b p = (s + p - 1, n).
Proof.
  intros Hb Hp Hn Hexact.
  pose proof (pow10_positive (p - 1) ltac:(lia)) as Hp1.
  pose proof (pow10_positive (Z.max 0 s) ltac:(lia)) as Hs1.
  pose proof (pow10_positive (Z.max 0 (- s)) ltac:(lia)) as Hs2.
  assert (Ha : 0 < a).
  { assert (Hpos : 0 < n * 10 ^ Z.max 0 s * b)
      by (apply Z.mul_pos_pos; [apply Z.mul_pos_pos|]; lia).
    rewrite <- Hexact in Hpos. nia. }
  assert (Hpp : 10 ^ p = 10 * 10 ^ (p - 1)).
  { replace p with (Z.succ (p - 1)) at 1 by lia. apply Z.pow_succ_r. lia. }
  assert (Hfloor : Number.floorLog10 a b = s + p - 1).
  { apply floorLog10_unique; try assumption.
    - apply (scaledLe_iff a b (s + p - 1) (Z.max 0 (- s))); [lia|lia|].
      rewrite Hexact.
      replace (s + p - 1 + Z.max 0 (- s)) with ((p - 1) + Z.max 0 s) by lia.
      rewrite pow10_split by lia. nia.
    - destruct (Number.scaledLe b (s + p - 1 + 1) a) eqn:Habove; [|reflexivity].
      apply (scaledLe_iff a b (s + p - 1 + 1) (Z.max 0 (- s))) in Habove; [|lia|lia].
      rewrite Hexact in Habove.
      replace (s + p - 1 + 1 + Z.max 0 (- s)) with (p + Z.max 0 s) in Habove by lia.
      rewrite pow10_split in Habove by lia. nia. }
  unfold Number.significand. rewrite Hfloor. cbv zeta.
  replace (s + p - 1 - p + 1) with s by lia.
  assert (Hround : Number.roundScaled a b s = n).
  { unfold Number.roundScaled. cbv zeta.
    destruct (Z.leb_spec 0 s) as [Hs | Hs].
    - rewrite (Z.max_r 0 s), (Z.max_l 0 (- s)) in Hexact by lia.
      rewrite (Z.max_r 0 s) in Hs1 by lia.
      rewrite Z.pow_0_r, Z.mul_1_r in Hexact. subst a.
      symmetry. apply Z.div_unique with (b * 10 ^ s); nia.
    - rewrite (Z.max_l 0 s), (Z.max_r 0 (- s)) in Hexact by lia.
      rewrite Z.pow_0_r, Z.mul_1_r in Hexact. rewrite Hexact.
      symmetry. apply Z.div_unique with b; nia. }
  rewrite Hround. destruct (Z.leb_spec (10 ^ p) n); [lia | reflexivity].
Qed.

Lemma parseInt_signed sign (n : Z) :
  0 <= n ->
  Number.parseInt (String sign (Digits.render 10 n))
  = if Ascii.eqb sign "+" then Some n
    else if Ascii.eqb sign "-" then Some (- n)
    else Number.parseInt (String sign (Digits.render 10 n)).
Proof.
  intros Hn.
  destruct (Ascii.eqb_spec sign "+") as [->|Hplus];
    [|destruct (Ascii.eqb_spec sign "-") as [->|Hminus]; [|reflexivity]];
    unfold Number.parseInt; cbv zeta; cbn [Number.trimStart];
    [change (Number.isWhiteSpace "+") with false
    |change (Number.isWhiteSpace "-") with false];
    cbv iota; cbn [Str.startsWith Ascii.eqb Bool.eqb andb orb];
    rewrite ?startsWith_empty; cbn [orb Str.drop];
    rewrite (takeDigits_digits _ (all_render n)), valueFrom_render by lia;
    (destruct (String.eqb_spec (Digits.render 10 n) "") as [Hempty|];
     [now apply render_nonempty in Hempty | reflexivity]).
Qed.

(** The exponent toPrecision prints reads back as the exponent it is. *)
Lemma exponentValue_rendered (w : string) (f : option string) (M : Z) :
  Spec.exponentValue
    {| Spec.whole := w; Spec.fraction := f;
       Spec.exponent := Some ("e"%char, String (if 0 <? M then "+"%char else "-"%char)
                                               (Digits.render 10 (Z.abs M))) |}
  = M.
Proof.
  unfold Spec.exponentValue; cbn [Spec.exponent].
  rewrite parseInt_signed by lia.
  destruct (Z.ltb_spec 0 M); cbn [Ascii.eqb Bool.eqb]; lia.
Qed.

Lemma endsWith_single c z : c <> z -> Str.endsWith (Str.chr c) (Str.chr z) = false.
Proof.
  intros Hcz. destruct (Str.endsWith (Str.chr c) (Str.chr z)) eqn:H; [|reflexivity].
  apply endsWith_iff in H as [before H].
  destruct before as [|a [|b before]]; simpl in H.
  - injection H as H. contradiction.
  - discriminate.
  - discriminate.
Qed.

Lemma same_form (C C' : string) (z z' : Z) :
  C = C' -> z = z' ->
  C ++ "e" ++ Number.show (Some z) = C' ++ "e" ++ Number.show (Some z').
Proof. now intros -> ->. Qed.

(** The text toPrecision prints, normalized: the digits that step 10.a
    finds, with the point behind the first, and its exponent; but when the
    digits are printed as an integer, the zeros they end in are gone. *)
Lemma toPrecision_form c (r : string) (M : Z) (m : N) (ex : Z) :
  Digits.isDigit c = true -> c <> "0"%char -> Str.all Digits.isDigit r = true ->
  (m =? 0)%N = false ->
  Number.significand (Number.numerator m ex) (Number.denominator ex)
    (Z.of_nat (S (length r)))
  = (M, Digits.valueFrom 0 (String c r)) ->
  convertNumberToScientificNotation
    (Number.toPrecisionFinite false m ex (Z.of_nat (S (length r))))
  = (if M =? Z.of_nat (length r)
     then addDecimalPointToNumber (removeTrailingZeros (String c r))
     else String c ("." ++ r)) ++ "e" ++ Number.show (Some M).
Proof.
  intros Hc Hnz Hr Hm Hsig.
  assert (HD : Str.all Digits.isDigit (String c r) = true) by (simpl; now rewrite Hc, Hr).
  unfold Number.toPrecisionFinite. cbn [andb]. rewrite Hm, Hsig. cbv beta iota zeta.
  rewrite Nat2Z.id.
  pose proof (digits_valueFrom _ HD) as Hdigits. cbn [length] in Hdigits.
  rewrite Hdigits. clear Hdigits.
  set (p := Z.of_nat (S (length r))).
  assert (Hp : p = Z.of_nat (length r) + 1) by (unfold p; lia).
  destruct ((M <? -6) || (p <=? M)) eqn:Hexp.
  - (* exponential notation *)
    assert (HM : M < -6 \/ p <= M).
    { apply orb_prop in Hexp as [H | H]; [left; now apply Z.ltb_lt | right; now apply Z.leb_le]. }
    destruct (Z.eqb_spec M (Z.of_nat (length r))) as [Heq | _]; [lia|].
    set (sign := if 0 <? M then "+"%char else "-"%char).
    assert (Hs : sign = "+"%char \/ sign = "-"%char)
      by (unfold sign; destruct (0 <? M); auto).
    replace ((if 0 <? M then "+" else "-") ++ Digits.render 10 (Z.abs M))
      with (String sign (Digits.render 10 (Z.abs M)))
      by (unfold sign; now destruct (0 <? M)).
    destruct (Z.eqb_spec p 1) as [Hp1 | Hp1].
    + destruct r as [|a r]; [|cbn [length] in Hp; lia].
      set (d := {| Spec.whole := String c ""; Spec.fraction := None;
                   Spec.exponent := Some ("e"%char, String sign (Digits.render 10 (Z.abs M))) |}).
      assert (Hwf : Spec.wf d = true)
        by (apply wf_make; [exact HD | simpl; lia | now apply wfExponent_rendered]).
      change (convertNumberToScientificNotation (Spec.text d) = String c ("." ++ "") ++ "e" ++ Number.show (Some M)).
      rewrite (convert_text d Hwf), (normalizedNumber_text d Hwf). cbn [d Spec.fraction Spec.whole].
      rewrite (normalizeInteger_leading c "" Hnz (endsWith_single c "0" Hnz)).
      cbn [coefficient magnitude length]. unfold d, sign.
      rewrite exponentValue_rendered. apply same_form; [reflexivity | simpl; lia].
    + set (d := {| Spec.whole := String c ""; Spec.fraction := Some r;
                   Spec.exponent := Some ("e"%char, String sign (Digits.render 10 (Z.abs M))) |}).
      assert (Hwf : Spec.wf d = true).
      { apply wf_make; [simpl; now rewrite Hc | | now apply wfExponent_rendered].
        split; [assumption | simpl; lia]. }
      change (convertNumberToScientificNotation (Spec.text d) = String c ("." ++ r) ++ "e" ++ Number.show (Some M)).
      rewrite (convert_text d Hwf), (normalizedNumber_text d Hwf).
      unfold Spec.mantissa. cbn [d Spec.fraction Spec.whole].
      rewrite (normalizeFloat_leading c "" r Hc Hnz eq_refl).
      cbn [coefficient magnitude length]. unfold d, sign.
      rewrite exponentValue_rendered. apply same_form; [reflexivity | simpl; lia].
  - apply orb_false_elim in Hexp as [Hlow Hhigh].
    apply Z.ltb_ge in Hlow. apply Z.leb_gt in Hhigh.
    replace (p - 1) with (Z.of_nat (length r)) by lia.
    destruct (Z.eqb_spec M (Z.of_nat (length r))) as [Heq | Hne].
    + (* the digits as an integer *)
      set (d := {| Spec.whole := String c r; Spec.fraction := None; Spec.exponent := None |}).
      assert (Hwf : Spec.wf d = true) by (apply wf_make; [exact HD | simpl; lia | reflexivity]).
      change ("" ++ String c r) with (String c r).
      replace (String c r) with (Spec.text d) at 1
        by (unfold Spec.text, Spec.mantissa; cbn [d Spec.whole Spec.fraction Spec.exponent];
            now rewrite !append_empty).
      rewrite (convert_text d Hwf), (normalizedNumber_text d Hwf). cbn [d Spec.fraction Spec.whole].
      unfold normalizeInteger. cbn [coefficient magnitude].
      rewrite (removeLeadingZeros_nonzero _ _ Hnz).
      assert (Hstart : Str.startsWith (String c r) "0" = false)
        by exact (startsWith_head c r "0" Hnz).
      rewrite Hstart. unfold Spec.exponentValue, d; cbn [Spec.exponent length].
      apply same_form; [reflexivity | lia].
    + destruct (Z.leb_spec 0 M) as [Hnn | Hneg].
      * (* the point within the digits *)
        replace (Z.to_nat (M + 1)) with (S (Z.to_nat M)) by lia.
        set (q := Z.to_nat M). cbn [Str.take Str.drop].
        set (d := {| Spec.whole := String c (Str.take q r); Spec.fraction := Some (Str.drop q r);
                     Spec.exponent := None |}).
        assert (Hwf : Spec.wf d = true).
        { apply wf_make; [simpl; rewrite Hc; now apply all_take | | reflexivity].
          split; [now apply all_drop | simpl; lia]. }
        replace ("" ++ String c (Str.take q r) ++ "." ++ Str.drop q r) with (Spec.text d)
          by (unfold Spec.text, Spec.mantissa; cbn [d Spec.whole Spec.fraction Spec.exponent];
              now rewrite append_empty).
        rewrite (convert_text d Hwf), (normalizedNumber_text d Hwf).
        unfold Spec.mantissa. cbn [d Spec.fraction Spec.whole].
        rewrite (normalizeFloat_leading c _ _ Hc Hnz (all_take _ q r Hr)).
        cbn [coefficient magnitude]. rewrite take_drop, length_take by (unfold q; lia).
        unfold Spec.exponentValue, d; cbn [Spec.exponent].
        apply same_form; [reflexivity | unfold q; lia].
      * (* zeros between the point and the digits *)
        set (j := Z.to_nat (- (M + 1))).
        set (d := {| Spec.whole := "0";
                     Spec.fraction := Some (Str.repeat "0" j ++ String c r);
                     Spec.exponent := None |}).
        assert (Hwf : Spec.wf d = true).
        { apply wf_make; [reflexivity | | reflexivity].
          split; [|simpl; lia]. rewrite all_append, HD. now rewrite all_repeat. }
        replace ("" ++ "0." ++ Str.repeat "0" j ++ String c r) with (Spec.text d)
          by (unfold Spec.text, Spec.mantissa; cbn [d Spec.whole Spec.fraction Spec.exponent];
              now rewrite append_empty).
        rewrite (convert_text d Hwf), (normalizedNumber_text d Hwf).
        unfold Spec.mantissa. cbn [d Spec.fraction Spec.whole].
        change (normalizeFloat ("0" ++ "." ++ Str.repeat "0" j ++ String c r))
          with (normalizeFloat (Str.repeat "0" 1 ++ "." ++ Str.repeat "0" j ++ String c r)).
        rewrite (normalizeFloat_fraction 1 j c r Hnz).
        cbn [coefficient magnitude].
        unfold Spec.exponentValue, d; cbn [Spec.exponent].
        apply same_form; [reflexivity | unfold j; lia].
Qed.

Lemma denominator_positive (ex : Z) : 0 < Number.denominator ex.
Proof.
  unfold Number.denominator. destruct (Z.leb_spec 0 ex); [lia | apply Z.pow_pos_nonneg; lia].
Qed.

Lemma numerator_positive (m : N) (ex : Z) : (m =? 0)%N = false -> 0 < Number.numerator m ex.
Proof.
  intros Hm. apply N.eqb_neq in Hm. unfold Number.numerator.
  destruct (Z.leb_spec 0 ex); [|lia].
  apply Z.mul_pos_pos; [lia | apply Z.pow_pos_nonneg; lia].
Qed.


(** ** What the normalizer makes of a literal is the number it denotes *)

Lemma startsWith_zeros (j : nat) (s : string) :
  Str.startsWith (Str.repeat "0" (S (S j)) ++ s) "00" = true.
Proof. cbn [Str.repeat append Str.startsWith]. now rewrite startsWith_empty. Qed.

(** The digits behind the leading zeros of an integer mantissa, their
    trailing zeros set apart. *)
Lemma significant_digits c (r : string) :
  c <> "0"%char ->
  exists (r0 : string) (t : nat),
    String c r = String c r0 ++ Str.repeat "0" t
    /\ removeTrailingZeros (String c r) = String c r0
    /\ Str.endsWith (String c r0) "0" = false.
Proof.
  intros Hc.
  destruct (trailing_zeros (String c r)) as [Hz | (before & c' & t & Hs & Hc')].
  - cbn [length Str.repeat] in Hz. injection Hz as Hz _. contradiction.
  - assert (Hend : Str.endsWith (before ++ Str.chr c') "0" = false).
    { destruct (Str.endsWith (before ++ Str.chr c') "0") eqn:H; [|reflexivity].
      apply endsWith_iff in H as [b H].
      assert (Hlen : length before = length b).
      { apply (f_equal length) in H. rewrite !length_append in H. simpl in H. lia. }
      apply (f_equal (fun s => Str.drop (length before) s)) in H.
      rewrite drop_append in H. rewrite Hlen, drop_append in H.
      injection H as H. contradiction. }
    destruct before as [|b before].
    + cbn [append] in Hs. injection Hs as <- Hr.
      exists "", t. split; [now rewrite Hr|]. split; [|exact Hend].
      rewrite Hr. apply (removeTrailingZeros_stops "" c t Hc').
    + cbn [append] in Hs. injection Hs as <- Hr.
      exists (before ++ Str.chr c'), t. split; [|split; [|exact Hend]].
      * rewrite Hr. cbn [append]. now rewrite append_assoc.
      * rewrite Hr.
        exact (removeTrailingZeros_stops (String c before) c' t Hc').
Qed.

Lemma normalizedNumber_value (d : Spec.Decimal) :
  Spec.wf d = true -> 0 < Spec.digitsValue d ->
  (Spec.fraction d = None -> Str.startsWith (Spec.whole d) "00" = false) ->
  exists c (r : string) (t : nat),
    Digits.isDigit c = true /\ c <> "0"%char /\ Str.all Digits.isDigit r = true
    /\ coefficient (normalizedNumber (Spec.text d)) = String c ("." ++ r)
    /\ Spec.exponentValue d + magnitude (normalizedNumber (Spec.text d))
       - Z.of_nat (length r)
       = Spec.scale d + Z.of_nat t
    /\ (exists j : nat,
          Spec.whole d ++ match Spec.fraction d with
                          | Some f => f
                          | None => ""
                          end
          = Str.repeat "0" j ++ String c r ++ Str.repeat "0" t)
    /\ (Spec.fraction d <> None -> t = 0%nat)
    /\ (Spec.fraction d = None -> Str.endsWith (String c r) "0" = false).
Proof.
  intros Hwf Hvalue Hzeros.
  rewrite (normalizedNumber_text d Hwf).
  pose proof (wf_whole d Hwf) as Hw.
  pose proof (wf_fraction d Hwf) as Hfd.
  unfold Spec.scale, Spec.digitsValue, Spec.mantissa in *.
  set (ev := Spec.exponentValue d). clearbody ev.
  destruct d as [w [f|] e]; cbn [Spec.whole Spec.fraction] in *.
  - specialize (Hfd f eq_refl).
    destruct (leading_zeros w) as (j & rest & -> & [-> | (c & r' & -> & Hc)]).
    + (* nothing but zeros before the point *)
      rewrite append_empty in *.
      destruct (leading_zeros f) as (j' & rest' & -> & [-> | (c & r & -> & Hc)]).
      * rewrite append_empty, valueFrom_leading_zeros, valueFrom_zeros in Hvalue. lia.
      * rewrite all_append in Hfd. apply andb_prop in Hfd as [_ Hfd].
        cbn [Str.all] in Hfd. apply andb_prop in Hfd as [Hdc Hdr].
        exists c, r, 0%nat. rewrite (normalizeFloat_fraction j j' c r Hc).
        cbn [coefficient magnitude].
        split; [assumption|]. split; [assumption|]. split; [assumption|].
        split; [reflexivity|]. split; [|split; [|split; [reflexivity | discriminate]]].
        -- rewrite length_append, length_repeat. cbn [length]. lia.
        -- exists (j + j')%nat.
           now rewrite repeat_plus, !append_assoc, append_empty.
    + (* a digit that is not zero before the point *)
      rewrite all_append in Hw. apply andb_prop in Hw as [_ Hw].
      cbn [Str.all] in Hw. apply andb_prop in Hw as [Hdc Hdr].
      exists c, (r' ++ f), 0%nat.
      rewrite (append_assoc (Str.repeat "0" j)).
      change (String c r' ++ "." ++ f) with (String c (r' ++ "." ++ f)).
      rewrite (normalizeFloat_skips_zeros j c _ Hc).
      change (String c (r' ++ "." ++ f)) with (String c r' ++ "." ++ f).
      rewrite (normalizeFloat_leading c r' f Hdc Hc Hdr).
      cbn [coefficient magnitude].
      split; [assumption|]. split; [assumption|].
      split; [rewrite all_append; now rewrite Hdr, Hfd|].
      split; [reflexivity|]. split; [|split; [|split; [reflexivity | discriminate]]].
      * rewrite length_append. lia.
      * exists j. rewrite !append_assoc. cbn [append Str.repeat].
        now rewrite append_assoc, append_empty.
  - specialize (Hzeros eq_refl). rewrite append_empty in Hvalue.
    destruct (leading_zeros w) as (j & rest & -> & [-> | (c & r' & -> & Hc)]).
    + rewrite append_empty, valueFrom_zeros in Hvalue. lia.
    + rewrite all_append in Hw. apply andb_prop in Hw as [_ Hw].
      destruct (significant_digits c r' Hc) as (r0 & t & Hsplit & Hstrip & Hend).
      assert (Hall : Str.all Digits.isDigit (String c r0) = true).
      { rewrite Hsplit, all_append in Hw. now apply andb_prop in Hw as [Hw _]. }
      cbn [Str.all] in Hall. apply andb_prop in Hall as [Hdc Hdr].
      exists c, r0, t.
      unfold normalizeInteger. cbn [coefficient magnitude].
      rewrite (removeLeadingZeros_stops _ _ _ Hc), Hstrip, addDecimalPointToNumber_cons.
      split; [assumption|]. split; [assumption|]. split; [assumption|].
      split; [reflexivity|].
      split; [|split; [|split; [intros Hsome; now contradiction Hsome | intros _; exact Hend]]].
      * assert (Hlen : length (String c r') = (S (length r0) + t)%nat).
        { rewrite Hsplit, length_append, length_repeat. reflexivity. }
        rewrite length_append, length_repeat, Hlen.
        destruct j as [|[|j]].
        -- cbn [Str.repeat append].
           assert (Hstart : Str.startsWith (String c r') "0" = false)
             by exact (startsWith_head c r' "0" Hc).
           rewrite Hstart. lia.
        -- cbn [Str.repeat append Str.startsWith]. rewrite Ascii.eqb_refl, ?startsWith_empty.
           cbn [andb length]. lia.
        -- rewrite startsWith_zeros in Hzeros. discriminate.
      * exists j. now rewrite append_empty, Hsplit.
Qed.

Lemma normalizedNumber_digitsValue (d : Spec.Decimal) (j t : nat) c (r : string) :
  Spec.whole d ++ match Spec.fraction d with
                  | Some f => f
                  | None => ""
                  end
  = Str.repeat "0" j ++ String c r ++ Str.repeat "0" t ->
  Spec.digitsValue d = Digits.valueFrom 0 (String c r) * 10 ^ Z.of_nat t.
Proof.
  intros H. unfold Spec.digitsValue.
  now rewrite H, valueFrom_leading_zeros, valueFrom_trailing_zeros.
Qed.

(** ** Powers of ten and the last character of a coefficient *)

Lemma rescale (a b V scale : Z) (t : nat) :
  0 < b ->
  a * 10 ^ Z.max 0 (- scale) = V * 10 ^ Z.of_nat t * 10 ^ Z.max 0 scale * b ->
  a * 10 ^ Z.max 0 (- (scale + Z.of_nat t)) = V * 10 ^ Z.max 0 (scale + Z.of_nat t) * b.
Proof.
  intros Hb H.
  destruct (Z.le_gt_cases 0 scale) as [Hs | Hs].
  - rewrite (Z.max_r 0 scale), (Z.max_l 0 (- scale)) in H by lia.
    rewrite (Z.max_r 0 (scale + Z.of_nat t)), (Z.max_l 0 (- (scale + Z.of_nat t))) by lia.
    rewrite Z.pow_0_r in *. rewrite (Z.add_comm scale), pow10_split by lia. lia.
  - rewrite (Z.max_l 0 scale), (Z.max_r 0 (- scale)) in H by lia.
    rewrite Z.pow_0_r, Z.mul_1_r in H.
    destruct (Z.le_gt_cases 0 (scale + Z.of_nat t)) as [Hst | Hst].
    + rewrite (Z.max_r 0 (scale + Z.of_nat t)), (Z.max_l 0 (- (scale + Z.of_nat t))) by lia.
      rewrite Z.pow_0_r, Z.mul_1_r.
      replace (Z.of_nat t) with ((scale + Z.of_nat t) + (- scale)) in H at 1 by lia.
      rewrite (pow10_split (scale + Z.of_nat t) (- scale)) in H by lia.
      pose proof (pow10_positive (- scale) ltac:(lia)) as Hpos.
      apply (Z.mul_reg_r _ _ (10 ^ (- scale))); [lia|]. rewrite H. ring.
    + rewrite (Z.max_l 0 (scale + Z.of_nat t)), (Z.max_r 0 (- (scale + Z.of_nat t))) by lia.
      rewrite Z.pow_0_r, Z.mul_1_r.
      replace (- scale) with ((- (scale + Z.of_nat t)) + Z.of_nat t) in H by lia.
      rewrite (pow10_split (- (scale + Z.of_nat t)) (Z.of_nat t)) in H by lia.
      pose proof (pow10_positive (Z.of_nat t) ltac:(lia)) as Hpos.
      apply (Z.mul_reg_r _ _ (10 ^ Z.of_nat t)); [lia|]. rewrite <- Z.mul_assoc, H. ring.
Qed.

Lemma endsWith_coefficient c (r : string) z :
  c <> z -> "."%char <> z ->
  Str.endsWith (String c ("." ++ r)) (Str.chr z) = Str.endsWith (String c r) (Str.chr z).
Proof.
  intros Hc Hpoint. apply eq_true_iff_eq. rewrite !endsWith_iff. split.
  - intros [before H]. destruct before as [|b1 [|b2 before]]; cbn [append Str.chr] in H.
    + discriminate.
    + injection H as _ H _. contradiction.
    + injection H as -> _ ->. now exists (String b1 before).
  - intros [before H]. destruct before as [|b before]; cbn [append Str.chr] in H.
    + injection H as H _. contradiction.
    + injection H as -> ->. now exists (String b (String "." before)).
Qed.

(** ** The verdict on any decimal literal *)

Lemma significand_digits (a b p : Z) :
  0 < a -> 0 < b -> 1 <= p ->
  exists E c (r : string),
    Number.significand a b p = (E, Digits.valueFrom 0 (String c r))
    /\ Digits.isDigit c = true /\ c <> "0"%char /\ Str.all Digits.isDigit r = true
    /\ p = Z.of_nat (S (length r)).
Proof.
  intros Ha Hb Hp. pose proof (significand_spec a b p Ha Hb Hp) as Hspec.
  destruct (Number.significand a b p) as [E n]. destruct Hspec as [[Hlow Hhigh] _].
  pose proof (pow10_positive (p - 1) ltac:(lia)) as Hp1.
  pose proof (all_digits (Z.to_nat p) n) as Hall.
  pose proof (length_digits 10 (Z.to_nat p) n) as Hlen.
  pose proof (valueFrom_digits (Z.to_nat p) n) as Hvalue.
  rewrite Z2Nat.id, Z.mod_small in Hvalue by lia.
  destruct (Digits.digits 10 (Z.to_nat p) n) as [|c r]; [simpl in Hlen; lia|].
  cbn [Str.all] in Hall. apply andb_prop in Hall as [Hc Hr]. cbn [length] in Hlen.
  exists E, c, r. split; [now rewrite Hvalue|]. split; [assumption|].
  split; [|split; [assumption | lia]].
  intros ->. change (Digits.valueFrom 0 (String "0" r)) with (Digits.valueFrom 0 r) in Hvalue.
  pose proof (valueFrom_bounds r Hr) as [_ Hupper].
  replace (Z.of_nat (length r)) with (p - 1) in Hupper by lia. lia.
Qed.

Lemma valueFrom_inj (s s' : string) :
  Str.all Digits.isDigit s = true -> Str.all Digits.isDigit s' = true ->
  length s = length s' -> Digits.valueFrom 0 s = Digits.valueFrom 0 s' -> s = s'.
Proof.
  intros Hs Hs' Hlen Hvalue.
  rewrite <- (digits_valueFrom s Hs), <- (digits_valueFrom s' Hs').
  now rewrite Hlen, Hvalue.
Qed.

Lemma append_inv_head (s x y : string) : s ++ x = s ++ y -> x = y.
Proof. induction s as [|a s IH]; simpl; intros H; [assumption|]. injection H as H. auto. Qed.

(** Two normalized texts are the same text only when coefficient and
    magnitude are the same. *)
Lemma form_inj (C C' : string) (z z' : Z) :
  Str.includes C "e" = false -> Str.includes C' "e" = false ->
  C ++ "e" ++ Number.show (Some z) = C' ++ "e" ++ Number.show (Some z') ->
  C = C' /\ z = z'.
Proof.
  intros HC HC' H.
  assert (Hhead : C = C').
  { apply (f_equal (fun s => hd "" (Str.split s "e"))) in H.
    change ("e" ++ Number.show (Some z)) with (String "e" (Number.show (Some z))) in H.
    change ("e" ++ Number.show (Some z')) with (String "e" (Number.show (Some z'))) in H.
    now rewrite !split_append in H by assumption. }
  subst C'. split; [reflexivity|].
  apply append_inv_head in H. apply (append_inv_head "e") in H.
  apply (f_equal Number.parseInt) in H. rewrite !parseInt_show in H. now injection H.
Qed.

Lemma coefficient_excludes c (r : string) :
  Digits.isDigit c = true -> Str.all Digits.isDigit r = true ->
  Str.includes (String c ("." ++ r)) "e" = false.
Proof.
  intros Hc Hr. cbn [append Str.includes].
  rewrite (digits_exclude r "e" Hr eq_refl).
  destruct (Ascii.eqb_spec c "e") as [->|]; [discriminate Hc | reflexivity].
Qed.

Lemma coefficient_digits c (r : string) :
  Digits.isDigit c = true -> Str.replace (String c ("." ++ r)) "." "" = String c r.
Proof.
  intros Hc. cbn [append Str.replace].
  destruct (Ascii.eqb_spec c ".") as [->|]; [discriminate Hc|].
  now rewrite Ascii.eqb_refl.
Qed.

(** The verdict of the rule on a decimal literal with a finite value above
    zero: it is false exactly when step 10.a of toPrecision, at the
    precision of the literal, finds the digits and the magnitude of the
    literal; but a coefficient that ends in a zero with a magnitude one
    less than the precision is flagged in any case. *)
Lemma decimal_verdict (node : Node) (d : Spec.Decimal) (m : N) (ex : Z) :
  Spec.wf d = true -> getRaw node = Spec.text d ->
  value node = VNumber (Finite false m ex) -> (m =? 0)%N = false ->
  isBaseTen node = true ->
  0 < Spec.digitsValue d ->
  (Spec.fraction d = None -> Str.startsWith (Spec.whole d) "00" = false) ->
  requestedPrecision (convertNumberToScientificNotation (Spec.text d)) <= 100 ->
  losesPrecision ecma node
  = Ok (negb (let '(E, n) :=
                Number.significand (Number.numerator m ex) (Number.denominator ex)
                  (requestedPrecision (convertNumberToScientificNotation (Spec.text d))) in
              (E =? Spec.exponentValue d + magnitude (normalizedNumber (Spec.text d)))
              && (n =? Digits.valueFrom 0
                         (Str.replace (coefficient (normalizedNumber (Spec.text d))) "." "")))
        || (Str.endsWith (coefficient (normalizedNumber (Spec.text d))) "0"
            && (Spec.exponentValue d + magnitude (normalizedNumber (Spec.text d))
                =? requestedPrecision (convertNumberToScientificNotation (Spec.text d)) - 1))).
Proof.
  intros Hwf Hraw Hvalue Hm Hten Hpositive Hzeros Hguard.
  destruct (normalizedNumber_value d Hwf Hpositive Hzeros)
    as (c & r & t & Hdc & Hc & Hdr & Hcoefficient & _).
  destruct (requestedPrecision_convert (Spec.text d))
    as [[Hundefined _] | (c0 & r0 & Hcoefficient' & Hprecision)];
    [rewrite Hcoefficient in Hundefined; discriminate|].
  rewrite Hcoefficient in Hcoefficient'. injection Hcoefficient' as <- <-.
  rewrite Hprecision in *.
  pose proof (convert_text d Hwf) as Hconvert. rewrite Hcoefficient in Hconvert.
  rewrite Hcoefficient, (coefficient_digits c r Hdc).
  set (M := Spec.exponentValue d + magnitude (normalizedNumber (Spec.text d))) in *.
  clearbody M.
  destruct (significand_digits (Number.numerator m ex) (Number.denominator ex)
              (Z.of_nat (S (length r))) (numerator_positive m ex Hm)
              (denominator_positive ex) ltac:(lia))
    as (E & c' & r' & Hsig & Hdc' & Hc' & Hdr' & Hlen).
  assert (Hlength : length r' = length r) by lia.
  rewrite Hsig.
  pose proof Hsig as Hstored. rewrite Hlen in Hstored.
  apply (toPrecision_form c' r' E m ex Hdc' Hc' Hdr' Hm) in Hstored.
  rewrite <- Hlen in Hstored.
  unfold losesPrecision, baseTenLosesPrecision. rewrite Hten, Hraw, Hvalue, Hprecision.
  destruct (Z.ltb_spec 100 (Z.of_nat (S (length r)))) as [Hbig | _]; [lia|].
  cbn [toPrecision ecma]. unfold Number.toPrecision.
  destruct (Z.ltb_spec (Z.of_nat (S (length r))) 1) as [Hsmall | _]; [lia|].
  destruct (Z.ltb_spec 100 (Z.of_nat (S (length r)))) as [Hbig | _]; [lia|].
  cbn [orb bind]. rewrite Hstored, Hconvert. f_equal.
  pose proof (endsWith_coefficient c r "0" Hc ltac:(discriminate)) as Hzero.
  unfold Str.chr in Hzero. rewrite Hzero. clear Hzero.
  replace (Z.of_nat (S (length r)) - 1) with (Z.of_nat (length r)) by lia.
  assert (Hdigits : E = M /\ Digits.valueFrom 0 (String c' r') = Digits.valueFrom 0 (String c r)
                    -> String c' r' = String c r).
  { intros [_ Hv]. apply valueFrom_inj; cbn [Str.all length]; try lia.
    - now rewrite Hdc', Hdr'.
    - now rewrite Hdc, Hdr. }
  assert (Hplain : String c ("." ++ r) ++ "e" ++ Number.show (Some M)
                   = String c' ("." ++ r') ++ "e" ++ Number.show (Some E)
                   <-> E = M /\ Digits.valueFrom 0 (String c' r')
                                = Digits.valueFrom 0 (String c r)).
  { split.
    - intros H. apply form_inj in H as [HC HM]; try now apply coefficient_excludes.
      injection HC as -> ->. now split.
    - intros H. pose proof (Hdigits H) as Heq. destruct H as [-> _].
      injection Heq as -> ->. reflexivity. }
  destruct (significant_digits c' r' Hc') as (r0 & t' & Hsplit & Hstrip & Hend).
  destruct (Z.eqb_spec E (Z.of_nat (length r'))) as [Hinteger | Hpoint].
  - (* the stored value is printed as an integer *)
    rewrite Hstrip, addDecimalPointToNumber_cons.
    destruct t' as [|t'].
    + (* which does not end in a zero *)
      rewrite append_empty in Hsplit. injection Hsplit as <-.
      destruct (String.eqb_spec (String c ("." ++ r) ++ "e" ++ Number.show (Some M))
                  (String c' ("." ++ r') ++ "e" ++ Number.show (Some E))) as [Heq | Hneq].
      * apply Hplain in Heq. pose proof (Hdigits Heq) as Hsame. destruct Heq as [HE Hv].
        apply Z.eqb_eq in HE, Hv. rewrite HE, Hv. cbn [andb negb orb].
        rewrite <- Hsame, Hend. reflexivity.
      * destruct ((E =? M) && (Digits.valueFrom 0 (String c' r')
                               =? Digits.valueFrom 0 (String c r))) eqn:Hboth;
          [|reflexivity].
        apply andb_prop in Hboth as [HE Hv]. apply Z.eqb_eq in HE, Hv.
        exfalso. apply Hneq, Hplain. now split.
    + (* which ends in a zero: its coefficient is shorter *)
      assert (Hshort : (length r0 < length r)%nat).
      { apply (f_equal length) in Hsplit.
        rewrite length_append, length_repeat in Hsplit. cbn [length] in Hsplit. lia. }
      destruct (String.eqb_spec (String c ("." ++ r) ++ "e" ++ Number.show (Some M))
                  (String c' ("." ++ r0) ++ "e" ++ Number.show (Some E))) as [Heq | _].
      * exfalso. apply form_inj in Heq as [HC _].
        -- injection HC as _ HC. apply (f_equal length) in HC. lia.
        -- now apply coefficient_excludes.
        -- apply coefficient_excludes; [assumption|].
           assert (Hall : Str.all Digits.isDigit (String c' r0 ++ Str.repeat "0" (S t')) = true)
             by (rewrite <- Hsplit; cbn [Str.all]; now rewrite Hdc', Hdr').
           rewrite all_append in Hall. apply andb_prop in Hall as [Hall _].
           cbn [Str.all] in Hall. now apply andb_prop in Hall as [_ Hall].
      * cbn [negb].
        destruct ((E =? M) && (Digits.valueFrom 0 (String c' r')
                               =? Digits.valueFrom 0 (String c r))) eqn:Hboth;
          [|reflexivity].
        apply andb_prop in Hboth as [HE Hv]. apply Z.eqb_eq in HE, Hv.
        rewrite <- (Hdigits (conj HE Hv)), Hsplit, endsWith_zero.
        cbn [negb orb andb]. symmetry. apply Z.eqb_eq. lia.
  - (* the stored value is printed with a point or an exponent *)
    destruct (String.eqb_spec (String c ("." ++ r) ++ "e" ++ Number.show (Some M))
                (String c' ("." ++ r') ++ "e" ++ Number.show (Some E))) as [Heq | Hneq].
    + apply Hplain in Heq. destruct Heq as [HE Hv].
      apply Z.eqb_eq in Hv. rewrite Hv. subst M. rewrite Z.eqb_refl. cbn [andb negb orb].
      destruct (Z.eqb_spec E (Z.of_nat (length r))); [lia | now rewrite andb_false_r].
    + destruct ((E =? M) && (Digits.valueFrom 0 (String c' r')
                             =? Digits.valueFrom 0 (String c r))) eqn:Hboth;
        [|reflexivity].
      apply andb_prop in Hboth as [HE Hv]. apply Z.eqb_eq in HE, Hv.
      exfalso. apply Hneq, Hplain. now split.
Qed.

(** The verdict on a literal whose value is, with no rounding, the number
    it denotes: it is flagged when its coefficient ends in a zero and the
    value prints, to the digits of the coefficient, as an integer, and
    only then. *)
Lemma exact_verdict (node : Node) (d : Spec.Decimal) (x : number) :
  Spec.wf d = true -> getRaw node = Spec.text d -> value node = VNumber x ->
  isBaseTen node = true ->
  0 < Spec.digitsValue d ->
  (Spec.fraction d = None -> Str.startsWith (Spec.whole d) "00" = false) ->
  requestedPrecision (convertNumberToScientificNotation (Spec.text d)) <= 100 ->
  Spec.denotes d x = true ->
  truthy (value node) = true
  /\ losesPrecision ecma node
     = Ok (Str.endsWith (coefficient (normalizedNumber (Spec.text d))) "0"
           && (Spec.exponentValue d + magnitude (normalizedNumber (Spec.text d))
               =? requestedPrecision (convertNumberToScientificNotation (Spec.text d)) - 1)).
Proof.
  intros Hwf Hraw Hvalue Hten Hpositive Hzeros Hguard Hdenotes.
  destruct x as [| |[|] m ex]; try discriminate Hdenotes.
  unfold Spec.denotes in Hdenotes. apply Z.eqb_eq in Hdenotes.
  pose proof (denominator_positive ex) as Hb.
  assert (Hm : (m =? 0)%N = false).
  { destruct (N.eqb_spec m 0) as [->|]; [exfalso | reflexivity].
    assert (Hzero : Number.numerator 0 ex = 0)
      by (unfold Number.numerator; destruct (0 <=? ex); reflexivity).
    rewrite Hzero in Hdenotes.
    pose proof (pow10_positive (Z.max 0 (Spec.scale d)) ltac:(lia)). nia. }
  split; [rewrite Hvalue; cbn [truthy isZero]; now rewrite Hm|].
  rewrite (decimal_verdict node d m ex) by assumption.
  destruct (normalizedNumber_value d Hwf Hpositive Hzeros)
    as (c & r & t & Hdc & Hc & Hdr & Hcoefficient & Hmagnitude & (j & Hshape) & _ & _).
  pose proof (normalizedNumber_digitsValue d j t c r Hshape) as Hdigits.
  destruct (requestedPrecision_convert (Spec.text d))
    as [[Hundefined _] | (c0 & r0 & Hcoefficient' & Hprecision)];
    [rewrite Hcoefficient in Hundefined; discriminate|].
  rewrite Hcoefficient in Hcoefficient'. injection Hcoefficient' as <- <-.
  rewrite Hprecision, Hcoefficient, (coefficient_digits c r Hdc).
  set (M := Spec.exponentValue d + magnitude (normalizedNumber (Spec.text d))) in *.
  rewrite Hdigits in Hdenotes. apply (rescale _ _ _ _ _ Hb) in Hdenotes.
  rewrite <- Hmagnitude in Hdenotes.
  pose proof (significand_exact (Number.numerator m ex) (Number.denominator ex)
                (Digits.valueFrom 0 (String c r)) (M - Z.of_nat (length r))
                (Z.of_nat (S (length r))) Hb) as Hsig.
  assert (Hone : 1 <= Z.of_nat (S (length r))) by lia. specialize (Hsig Hone).
  replace (Z.of_nat (S (length r)) - 1) with (Z.of_nat (length r)) in Hsig by lia.
  assert (HD : Str.all Digits.isDigit (String c r) = true) by (simpl; now rewrite Hdc, Hdr).
  pose proof (valueFrom_bounds (String c r) HD) as [_ Hupper].
  specialize (Hsig (conj (valueFrom_lower c r Hdc Hc Hdr) Hupper) Hdenotes).
  replace (M - Z.of_nat (length r) + Z.of_nat (S (length r)) - 1) with M in Hsig by lia.
  rewrite Hsig, !Z.eqb_refl. reflexivity.
Qed.

Lemma endsWith_cons a (s : string) z :
  s <> "" -> Str.endsWith (String a s) (Str.chr z) = Str.endsWith s (Str.chr z).
Proof.
  intros Hne. apply eq_true_iff_eq. rewrite !endsWith_iff. split.
  - intros [before H]. destruct before as [|b before]; cbn [append Str.chr] in H.
    + injection H as _ H. contradiction.
    + injection H as _ ->. now exists before.
  - intros [before ->]. now exists (String a before).
Qed.

Lemma endsWith_behind_zeros (j : nat) c (r : string) z :
  Str.endsWith (Str.repeat "0" j ++ String c r) (Str.chr z) = Str.endsWith (String c r) (Str.chr z).
Proof.
  induction j as [|j IH]; [reflexivity|].
  cbn [Str.repeat append]. rewrite endsWith_cons; [exact IH|].
  destruct j; discriminate.
Qed.

Lemma Literal_verdict (node : Node) (reported : list Descriptor) (verdict : bool) :
  truthy (value node) = true -> isNumber node = true ->
  losesPrecision ecma node = Ok verdict ->
  Literal ecma node reported
  = Ok (if verdict
        then (reported ++ [{| messageId := "noLossOfPrecision"; node := node |}])%list
        else reported).
Proof. intros Ht Hn Hv. unfold Literal. rewrite Ht, Hn, Hv. now destruct verdict. Qed.

(** X13.  normalizeInteger and normalizeFloat (lines 126-164) under
    convertNumberToScientificNotation (lines 171-184): what the normalizer
    makes of a decimal literal is the number the literal denotes.  For a
    literal with a digit that is not zero, and no two leading zeros when it
    has no point, the coefficient is a digit that is not zero, the point,
    and digits [r]; read as an integer and scaled by ten to the final
    magnitude less the length of [r], it is the literal's digits scaled by
    its exponent less the length of its fraction.  The exponent and the
    magnitude are integers the runtime is exact on. *)
Theorem normalizer_keeps_value (d : Spec.Decimal) :
  Spec.wf d = true -> 0 < Spec.digitsValue d ->
  (Spec.fraction d = None -> Str.startsWith (Spec.whole d) "00" = false) ->
  Spec.safe (Spec.exponentValue d) = true ->
  Spec.safe (Spec.exponentValue d + magnitude (normalizedNumber (Spec.text d))) = true ->
  exists c (r : string) (t : nat),
    Digits.isDigit c = true /\ c <> "0"%char /\ Str.all Digits.isDigit r = true
    /\ coefficient (normalizedNumber (Spec.text d)) = String c ("." ++ r)
    /\ Spec.exponentValue d + magnitude (normalizedNumber (Spec.text d))
       - Z.of_nat (length r)
       = Spec.scale d + Z.of_nat t
    /\ Spec.digitsValue d = Digits.valueFrom 0 (String c r) * 10 ^ Z.of_nat t.
Proof.
  intros Hwf Hpositive Hzeros _ _.
  destruct (normalizedNumber_value d Hwf Hpositive Hzeros)
    as (c & r & t & Hdc & Hc & Hdr & Hcoefficient & Hmagnitude & (j & Hshape) & _ & _).
  exists c, r, t. repeat (split; [assumption|]).
  exact (normalizedNumber_digitsValue d j t c r Hshape).
Qed.

Lemma normalizer_keeps_value_witness :
  exists c (r : string) (t : nat),
    Digits.isDigit c = true /\ c <> "0"%char /\ Str.all Digits.isDigit r = true
    /\ coefficient (normalizedNumber "0120e-3") = String c ("." ++ r)
    /\ -3 + magnitude (normalizedNumber "0120e-3") - Z.of_nat (length r) = -3 + Z.of_nat t
    /\ 120 = Digits.valueFrom 0 (String c r) * 10 ^ Z.of_nat t.
Proof.
  exact (normalizer_keeps_value
           {| Spec.whole := "0120"; Spec.fraction := None;
              Spec.exponent := Some ("e"%char, "-3") |}
           eq_refl eq_refl (fun _ => eq_refl) eq_refl eq_refl).
Defined.

(** X14.  baseTenLosesPrecision (lines 191-207): a decimal literal whose value
    is, with no rounding, the number it denotes is not flagged, and the
    visitor adds no diagnostic for it: whatever its form, with or without
    separators, provided it asks for no more than 100 digits, has no two
    leading zeros when it has no point, and does not end in a zero when it
    has one. *)
Theorem exact_decimal_not_flagged (node : Node) (d : Spec.Decimal) (x : number) :
  Spec.wf d = true -> getRaw node = Spec.text d -> value node = VNumber x ->
  isBaseTen node = true ->
  0 < Spec.digitsValue d ->
  (Spec.fraction d = None -> Str.startsWith (Spec.whole d) "00" = false) ->
  (forall f, Spec.fraction d = Some f -> Str.endsWith (Spec.whole d ++ f) "0" = false) ->
  requestedPrecision (convertNumberToScientificNotation (Spec.text d)) <= 100 ->
  Spec.safe (Spec.exponentValue d) = true ->
  Spec.safe (Spec.exponentValue d + magnitude (normalizedNumber (Spec.text d))) = true ->
  Spec.denotes d x = true ->
  losesPrecision ecma node = Ok false
  /\ forall reported, Literal ecma node reported = Ok reported.
Proof.
  intros Hwf Hraw Hvalue Hten Hpositive Hzeros Hlast Hguard _ _ Hdenotes.
  destruct (exact_verdict node d x Hwf Hraw Hvalue Hten Hpositive Hzeros Hguard Hdenotes)
    as [Htruthy Hverdict].
  destruct (normalizedNumber_value d Hwf Hpositive Hzeros)
    as (c & r & t & Hdc & Hc & Hdr & Hcoefficient & _ & (j & Hshape) & Hfloat & Hinteger).
  assert (Hend : Str.endsWith (coefficient (normalizedNumber (Spec.text d))) "0" = false).
  { rewrite Hcoefficient.
    pose proof (endsWith_coefficient c r "0" Hc ltac:(discriminate)) as Hzero.
    unfold Str.chr in Hzero. rewrite Hzero.
    destruct (Spec.fraction d) as [f|] eqn:Hf; [|now apply Hinteger].
    specialize (Hlast f eq_refl). rewrite Hshape, (Hfloat ltac:(discriminate)) in Hlast.
    cbn [Str.repeat] in Hlast. rewrite append_empty in Hlast.
    pose proof (endsWith_behind_zeros j c r "0") as Hbehind.
    unfold Str.chr in Hbehind. now rewrite <- Hbehind. }
  rewrite Hend in Hverdict. cbn [andb] in Hverdict.
  split; [exact Hverdict|].
  intros reported. unfold Literal. rewrite Hverdict. cbn [bind].
  now destruct (truthy (value node) && isNumber node).
Qed.

Lemma exact_decimal_not_flagged_witness :
  losesPrecision ecma (lit "0.5" (Finite false 1 (-1))) = Ok false
  /\ losesPrecision ecma (lit "1_200e-2" (integer 12)) = Ok false.
Proof.
  split.
  - eapply proj1, (exact_decimal_not_flagged _
             {| Spec.whole := "0"; Spec.fraction := Some "5"; Spec.exponent := None |});
      try reflexivity; try discriminate;
      try (intros f Hf; injection Hf as <-; reflexivity); vm_compute; discriminate.
  - eapply proj1, (exact_decimal_not_flagged _
             {| Spec.whole := "1200"; Spec.fraction := None;
                Spec.exponent := Some ("e"%char, "-2") |});
      try reflexivity; try discriminate; try (intros _; reflexivity);
      vm_compute; discriminate.
Defined.

Lemma denotes_truthy (d : Spec.Decimal) (x : number) :
  0 < Spec.digitsValue d -> Spec.denotes d x = true -> truthy (VNumber x) = true.
Proof.
  intros Hpositive Hdenotes.
  destruct x as [| |[|] m ex]; try discriminate Hdenotes.
  unfold Spec.denotes in Hdenotes. apply Z.eqb_eq in Hdenotes.
  pose proof (denominator_positive ex) as Hb.
  cbn [truthy isZero].
  destruct (N.eqb_spec m 0) as [->|]; [exfalso | reflexivity].
  assert (Hzero : Number.numerator 0 ex = 0)
    by (unfold Number.numerator; destruct (0 <=? ex); reflexivity).
  rewrite Hzero in Hdenotes.
  pose proof (pow10_positive (Z.max 0 (Spec.scale d)) ltac:(lia)). nia.
Qed.

(** X15.  baseTenLosesPrecision (lines 191-207) with normalizeInteger (lines
    126-137): a literal with a point and a digit that is not zero, whose
    last digit is a zero and whose exponent makes up for its fraction, so
    that its value is the integer its digits spell ("1.0e1", "50.",
    "1.00e2"), is flagged though its value is exact: toPrecision prints the
    integer with no point, and normalizeInteger takes the zeros off that
    the literal's coefficient keeps; beyond 100 digits the guard flags
    it. *)
Theorem exact_trailing_zero_flagged (node : Node) (d : Spec.Decimal) (x : number)
    (f : string) :
  Spec.wf d = true -> getRaw node = Spec.text d -> value node = VNumber x ->
  isBaseTen node = true ->
  0 < Spec.digitsValue d ->
  Spec.fraction d = Some f ->
  Str.endsWith (Spec.whole d ++ f) "0" = true ->
  Spec.exponentValue d = Z.of_nat (length f) ->
  Spec.denotes d x = true ->
  losesPrecision ecma node = Ok true
  /\ forall reported,
       Literal ecma node reported
       = Ok (reported ++ [{| messageId := "noLossOfPrecision"; node := node |}])%list.
Proof.
  intros Hwf Hraw Hvalue Hten Hpositive Hf Hlast Hexponent Hdenotes.
  assert (Hzeros : Spec.fraction d = None -> Str.startsWith (Spec.whole d) "00" = false)
    by (rewrite Hf; discriminate).
  assert (Htruthy : truthy (value node) = true)
    by (rewrite Hvalue; now apply (denotes_truthy d)).
  assert (Hverdict : losesPrecision ecma node = Ok true).
  { destruct (Z.le_gt_cases
                (requestedPrecision (convertNumberToScientificNotation (Spec.text d))) 100)
      as [Hguard | Hmany].
    - destruct (exact_verdict node d x Hwf Hraw Hvalue Hten Hpositive Hzeros Hguard Hdenotes)
        as [_ Hverdict].
      destruct (normalizedNumber_value d Hwf Hpositive Hzeros)
        as (c & r & t & Hdc & Hc & Hdr & Hcoefficient & Hmagnitude & (j & Hshape) & Hfloat & _).
      destruct (requestedPrecision_convert (Spec.text d))
        as [[Hundefined _] | (c0 & r0 & Hcoefficient' & Hprecision)];
        [rewrite Hcoefficient in Hundefined; discriminate|].
      rewrite Hcoefficient in Hcoefficient'. injection Hcoefficient' as <- <-.
      assert (Ht : t = 0%nat) by (apply Hfloat; rewrite Hf; discriminate). subst t.
      assert (Hend : Str.endsWith (coefficient (normalizedNumber (Spec.text d))) "0" = true).
      { rewrite Hcoefficient.
        pose proof (endsWith_coefficient c r "0" Hc ltac:(discriminate)) as Hzero.
        unfold Str.chr in Hzero. rewrite Hzero.
        rewrite Hf in Hshape. rewrite Hshape in Hlast.
        cbn [Str.repeat] in Hlast. rewrite append_empty in Hlast.
        pose proof (endsWith_behind_zeros j c r "0") as Hbehind.
        unfold Str.chr in Hbehind. now rewrite <- Hbehind. }
      assert (Hinteger : (Spec.exponentValue d + magnitude (normalizedNumber (Spec.text d))
                          =? requestedPrecision
                               (convertNumberToScientificNotation (Spec.text d)) - 1)
                         = true).
      { apply Z.eqb_eq. rewrite Hprecision. unfold Spec.scale in Hmagnitude.
        rewrite Hf in Hmagnitude. lia. }
      rewrite Hend, Hinteger in Hverdict. exact Hverdict.
    - unfold losesPrecision, baseTenLosesPrecision. rewrite Hten, Hraw.
      destruct (Z.ltb_spec 100
                  (requestedPrecision (convertNumberToScientificNotation (Spec.text d))));
        [reflexivity | lia]. }
  split; [exact Hverdict|].
  intros reported.
  apply (Literal_verdict node reported true Htruthy); [|exact Hverdict].
  unfold isNumber. now rewrite Hvalue.
Qed.

Lemma exact_trailing_zero_flagged_witness :
  losesPrecision ecma (lit "1.0e1" (integer 10)) = Ok true
  /\ losesPrecision ecma (lit "50." (integer 50)) = Ok true.
Proof.
  split.
  - eapply proj1, (exact_trailing_zero_flagged _
             {| Spec.whole := "1"; Spec.fraction := Some "0";
                Spec.exponent := Some ("e"%char, "1") |} _ "0"); reflexivity.
  - eapply proj1, (exact_trailing_zero_flagged _
             {| Spec.whole := "50"; Spec.fraction := Some ""; Spec.exponent := None |} _ "");
      reflexivity.
Defined.

(** X16.  losesPrecision on the decimal path (lines 191-218), for a literal of a
    finite value above zero that asks for no more than 100 digits: it
    returns false exactly when step 10.a of toPrecision, at the precision
    of the literal, finds the digits and the magnitude the normalizer made
    of the literal; but it returns true in any case when the coefficient of
    the literal ends in a zero and its magnitude is one less than its
    precision. *)
Theorem decimal_verdict_by_rounding (node : Node) (d : Spec.Decimal) (m : N) (ex : Z) :
  Spec.wf d = true -> getRaw node = Spec.text d ->
  value node = VNumber (Finite false m ex) -> (m =? 0)%N = false ->
  isBaseTen node = true ->
  0 < Spec.digitsValue d ->
  (Spec.fraction d = None -> Str.startsWith (Spec.whole d) "00" = false) ->
  requestedPrecision (convertNumberToScientificNotation (Spec.text d)) <= 100 ->
  Spec.safe (Spec.exponentValue d) = true ->
  Spec.safe (Spec.exponentValue d + magnitude (normalizedNumber (Spec.text d))) = true ->
  losesPrecision ecma node
  = Ok (negb (let '(E, n) :=
                Number.significand (Number.numerator m ex) (Number.denominator ex)
                  (requestedPrecision (convertNumberToScientificNotation (Spec.text d))) in
              (E =? Spec.exponentValue d + magnitude (normalizedNumber (Spec.text d)))
              && (n =? Digits.valueFrom 0
                         (Str.replace (coefficient (normalizedNumber (Spec.text d))) "." "")))
        || (Str.endsWith (coefficient (normalizedNumber (Spec.text d))) "0"
            && (Spec.exponentValue d + magnitude (normalizedNumber (Spec.text d))
                =? requestedPrecision (convertNumberToScientificNotation (Spec.text d)) - 1))).
Proof. intros; now apply decimal_verdict. Qed.

Lemma decimal_verdict_by_rounding_witness :
  losesPrecision ecma (lit "0.1" (Finite false 3602879701896397 (-55))) = Ok false
  /\ losesPrecision ecma (lit "0.10000000000000001" (Finite false 3602879701896397 (-55)))
     = Ok false
  /\ losesPrecision ecma (lit "0.100000000000000001" (Finite false 3602879701896397 (-55)))
     = Ok true.
Proof.
  split; [|split].
  - rewrite (decimal_verdict_by_rounding _
               {| Spec.whole := "0"; Spec.fraction := Some "1"; Spec.exponent := None |}
               3602879701896397 (-55));
      try reflexivity; try discriminate; vm_compute; discriminate.
  - rewrite (decimal_verdict_by_rounding _
               {| Spec.whole := "0"; Spec.fraction := Some "10000000000000001";
                  Spec.exponent := None |}
               3602879701896397 (-55));
      try reflexivity; try discriminate; vm_compute; discriminate.
  - rewrite (decimal_verdict_by_rounding _
               {| Spec.whole := "0"; Spec.fraction := Some "100000000000000001";
                  Spec.exponent := None |}
               3602879701896397 (-55));
      try reflexivity; try discriminate; vm_compute; discriminate.
Defined.

(** ** Separators, overflow and the digits asked for *)

(** X17.  getRaw (lines 46-48) before baseTenLosesPrecision (lines 191-207): the
    separators of a decimal literal change nothing; two nodes whose texts
    are the same literal once the separators are taken out, with the same
    value, get the same verdict from any runtime. *)
Theorem separators_do_not_matter (rt : Runtime) (node node' : Node) (d : Spec.Decimal) :
  Spec.wf d = true -> getRaw node = Spec.text d -> getRaw node' = Spec.text d ->
  value node = value node' ->
  Spec.fraction d <> None \/ Spec.exponent d <> None \/ legacyOctal (Spec.whole d) = false ->
  losesPrecision rt node = losesPrecision rt node'.
Proof.
  intros Hwf Hraw Hraw' Hvalue Hshape.
  unfold losesPrecision.
  rewrite (isBaseTen_text node d Hwf Hraw Hshape), (isBaseTen_text node' d Hwf Hraw' Hshape).
  unfold baseTenLosesPrecision. now rewrite Hraw, Hraw', Hvalue.
Qed.

Lemma separators_do_not_matter_witness :
  losesPrecision ecma (lit "9_007_199_254_740_993" (Number.ofInteger 9007199254740993))
  = losesPrecision ecma (lit "9007199254740993" (Number.ofInteger 9007199254740993)).
Proof.
  apply (separators_do_not_matter ecma _ _
           {| Spec.whole := "9007199254740993"; Spec.fraction := None;
              Spec.exponent := None |}); try reflexivity.
  right; right; reflexivity.
Defined.

Lemma zeros_of_all (s : string) :
  Str.all Spec.isZeroChar s = true -> s = Str.repeat "0" (length s).
Proof.
  induction s as [|a s IH]; [reflexivity|]. cbn [Str.all length Str.repeat]. intros H.
  apply andb_prop in H as [Ha Hs]. apply Ascii.eqb_eq in Ha. subst a. now rewrite <- IH.
Qed.

(** The coefficient of a decimal literal is of the pattern, or it is made
    of an empty digit string. *)
Lemma coefficient_cases (d : Spec.Decimal) :
  Spec.wf d = true ->
  coefficient (normalizedNumber (Spec.text d)) = "undefined."
  \/ Spec.coefficientPattern (coefficient (normalizedNumber (Spec.text d))) = true.
Proof.
  intros Hwf. destruct (Spec.bareZeroPoint d) eqn:Hbare; [left | right; now apply pattern_text].
  rewrite (normalizedNumber_text d Hwf). unfold Spec.bareZeroPoint in Hbare.
  apply andb_prop in Hbare as [Hzeros Hfraction]. unfold Spec.mantissa.
  destruct (Spec.fraction d) as [f|]; [|discriminate].
  apply String.eqb_eq in Hfraction. subst f.
  rewrite (zeros_of_all _ Hzeros). change ("." ++ "") with (String "." "").
  now rewrite normalizeFloat_skips_zeros by discriminate.
Qed.

(** X18.  baseTenLosesPrecision (lines 191-207) on a literal too large for a
    Number: toPrecision prints "Infinity" whatever the precision, the
    normalizer makes "I.nfinitye7" of it, and no literal normalizes to
    that; a decimal literal whose value is Infinity is always flagged and
    reported. *)
Theorem overflow_flagged (node : Node) (d : Spec.Decimal) :
  Spec.wf d = true -> getRaw node = Spec.text d -> isBaseTen node = true ->
  value node = VNumber (Infinity false) ->
  convertNumberToScientificNotation "Infinity" = "I.nfinitye7"
  /\ losesPrecision ecma node = Ok true
  /\ forall reported,
       Literal ecma node reported
       = Ok (reported ++ [{| messageId := "noLossOfPrecision"; node := node |}])%list.
Proof.
  intros Hwf Hraw Hten Hvalue.
  assert (Hverdict : losesPrecision ecma node = Ok true).
  { unfold losesPrecision, baseTenLosesPrecision. rewrite Hten, Hraw, Hvalue.
    destruct (100 <? requestedPrecision (convertNumberToScientificNotation (Spec.text d)));
      [reflexivity|].
    cbn [toPrecision ecma Number.toPrecision append bind].
    change (convertNumberToScientificNotation "Infinity") with "I.nfinitye7".
    unfold convertNumberToScientificNotation. f_equal. apply negb_true_iff.
    destruct (coefficient_cases d Hwf) as [-> | Hpattern]; [reflexivity|].
    destruct (coefficient (normalizedNumber (Spec.text d))) as [|digit [|point rest]];
      try discriminate Hpattern.
    cbn [Spec.coefficientPattern] in Hpattern.
    destruct point as [[] [] [] [] [] [] [] []]; try discriminate Hpattern.
    apply andb_prop in Hpattern as [Hpattern _]. apply andb_prop in Hpattern as [Hdigit _].
    cbn [append String.eqb].
    destruct (Ascii.eqb_spec digit "I") as [->|]; [discriminate Hdigit | reflexivity]. }
  split; [reflexivity|]. split; [exact Hverdict|].
  intros reported. unfold Literal, isNumber. now rewrite Hverdict, Hvalue.
Qed.

Lemma overflow_flagged_witness :
  losesPrecision ecma (lit "1e999" (Infinity false)) = Ok true
  /\ losesPrecision ecma (lit "2e308" (Infinity false)) = Ok true.
Proof.
  split.
  - eapply proj1, proj2, (overflow_flagged _
        {| Spec.whole := "1"; Spec.fraction := None; Spec.exponent := Some ("e"%char, "999") |});
      reflexivity.
  - eapply proj1, proj2, (overflow_flagged _
        {| Spec.whole := "2"; Spec.fraction := None; Spec.exponent := Some ("e"%char, "308") |});
      reflexivity.
Defined.

(** X19.  baseTenLosesPrecision (lines 191-207): the precision asked of
    toPrecision is the number of significant digits of the literal.  The
    digits of a literal with a digit that is not zero (and no two leading
    zeros when it has no point) are zeros, then the digits from the first
    that is not zero, then, when the literal has no point, the zeros it
    ends in; the precision is the length of the part in the middle. *)
Theorem requestedPrecision_significant (d : Spec.Decimal) :
  Spec.wf d = true -> 0 < Spec.digitsValue d ->
  (Spec.fraction d = None -> Str.startsWith (Spec.whole d) "00" = false) ->
  exists (j : nat) c (r : string) (t : nat),
    Spec.whole d ++ match Spec.fraction d with
                    | Some f => f
                    | None => ""
                    end
    = Str.repeat "0" j ++ String c r ++ Str.repeat "0" t
    /\ c <> "0"%char
    /\ (Spec.fraction d <> None -> t = 0%nat)
    /\ (Spec.fraction d = None -> Str.endsWith (String c r) "0" = false)
    /\ requestedPrecision (convertNumberToScientificNotation (Spec.text d))
       = Z.of_nat (length (String c r)).
Proof.
  intros Hwf Hpositive Hzeros.
  destruct (normalizedNumber_value d Hwf Hpositive Hzeros)
    as (c & r & t & Hdc & Hc & Hdr & Hcoefficient & _ & (j & Hshape) & Hfloat & Hinteger).
  exists j, c, r, t. repeat (split; [assumption|]).
  destruct (requestedPrecision_convert (Spec.text d))
    as [[Hundefined _] | (c0 & r0 & Hcoefficient' & Hprecision)];
    [rewrite Hcoefficient in Hundefined; discriminate|].
  rewrite Hcoefficient in Hcoefficient'. injection Hcoefficient' as <- <-.
  exact Hprecision.
Qed.

Lemma requestedPrecision_significant_witness :
  let d := {| Spec.whole := "01200"; Spec.fraction := None;
              Spec.exponent := Some ("e"%char, "5") |} in
  exists (j : nat) c (r : string) (t : nat),
    "01200" = Str.repeat "0" j ++ String c r ++ Str.repeat "0" t
    /\ c <> "0"%char
    /\ (Spec.fraction d <> None -> t = 0%nat)
    /\ (Spec.fraction d = None -> Str.endsWith (String c r) "0" = false)
    /\ requestedPrecision (convertNumberToScientificNotation "01200e5")
       = Z.of_nat (length (String c r)).
Proof.
  exact (requestedPrecision_significant
           {| Spec.whole := "01200"; Spec.fraction := None;
              Spec.exponent := Some ("e"%char, "5") |}
           eq_refl eq_refl (fun _ => eq_refl)).
Defined.

(** ** The suffix test of binary, octal and hex literals *)

Lemma toUpperCase_append (s t : string) :
  Str.toUpperCase (s ++ t) = Str.toUpperCase s ++ Str.toUpperCase t.
Proof. induction s as [|a s IH]; simpl; [reflexivity | now rewrite IH]. Qed.

Lemma length_toUpperCase (s : string) : length (Str.toUpperCase s) = length s.
Proof. induction s as [|a s IH]; simpl; [reflexivity | now rewrite IH]. Qed.

Lemma toUpperCase_zeros (j : nat) : Str.toUpperCase (Str.repeat "0" j) = Str.repeat "0" j.
Proof. induction j as [|j IH]; [reflexivity|]. cbn [Str.repeat Str.toUpperCase]. now rewrite IH. Qed.

Lemma snoc_inj (a b : string) x y : a ++ Str.chr x = b ++ Str.chr y -> a = b /\ x = y.
Proof.
  revert b; induction a as [|a0 a IH]; intros [|b0 b] H; cbn [append Str.chr] in H.
  - injection H as ->. now split.
  - injection H as _ H. destruct b; discriminate.
  - injection H as _ H. destruct a; discriminate.
  - injection H as -> H. apply IH in H as [-> ->]. now split.
Qed.

Lemma append_split (a b c d : string) :
  a ++ b = c ++ d -> (length a <= length c)%nat -> exists m, c = a ++ m /\ b = m ++ d.
Proof.
  revert c; induction a as [|a0 a IH]; intros c H Hlen.
  - exists c. now split.
  - destruct c as [|c0 c]; [simpl in Hlen; lia|].
    cbn [append] in H. injection H as -> H. cbn [length] in Hlen.
    destruct (IH c H ltac:(lia)) as (m & -> & ->). now exists m.
Qed.

Lemma upper_digitChar_inj (d d' : Z) :
  0 <= d < 16 -> 0 <= d' < 16 ->
  Str.upper (Digits.digitChar d) = Str.upper (Digits.digitChar d') -> d = d'.
Proof.
  intros H H'. each_digit d H; each_digit d' H'; intros E; try reflexivity;
    vm_compute in E; discriminate E.
Qed.

Lemma upper_digitChar_nonzero (d : Z) :
  1 <= d < 16 -> Str.upper (Digits.digitChar d) <> "0"%char.
Proof.
  intros H. assert (H16 : 0 <= d < 16) by lia.
  each_digit d H16; try lia; intros E; vm_compute in E; discriminate E.
Qed.

Lemma digits_upper_inj (r : Z) (w : nat) :
  2 <= r <= 16 ->
  forall n n',
    Str.toUpperCase (Digits.digits r w n) = Str.toUpperCase (Digits.digits r w n') ->
    n mod r ^ Z.of_nat w = n' mod r ^ Z.of_nat w.
Proof.
  intros Hr. induction w as [|w IH]; intros n n' H.
  - simpl. now rewrite !Z.mod_1_r.
  - cbn [Digits.digits] in H. rewrite !toUpperCase_append in H.
    cbn [Str.chr Str.toUpperCase] in H.
    apply (snoc_inj _ _ (Str.upper _) (Str.upper _)) in H as [Hhigh Hlow].
    apply IH in Hhigh.
    apply upper_digitChar_inj in Hlow;
      [|pose proof (Z.mod_pos_bound n r ltac:(lia)); lia
       |pose proof (Z.mod_pos_bound n' r ltac:(lia)); lia].
    rewrite Nat2Z.inj_succ, Z.pow_succ_r by lia.
    rewrite !Z.rem_mul_r by (try apply Z.pow_pos_nonneg; lia).
    now rewrite Hhigh, Hlow.
Qed.

Lemma length_render (r n : Z) : length (Digits.render r n) = Digits.count r n.
Proof. apply length_digits. Qed.

(** What is printed of two integers differs, also in upper case. *)
Lemma render_upper_inj (r n n' : Z) :
  2 <= r <= 16 -> 0 <= n -> 0 <= n' ->
  Str.toUpperCase (Digits.render r n) = Str.toUpperCase (Digits.render r n') -> n = n'.
Proof.
  intros Hr Hn Hn' H.
  assert (Hcount : Digits.count r n = Digits.count r n').
  { apply (f_equal length) in H. now rewrite !length_toUpperCase, !length_render in H. }
  unfold Digits.render in H. rewrite <- Hcount in H.
  apply (digits_upper_inj r _ Hr) in H.
  pose proof (count_bound r n ltac:(lia) Hn). pose proof (count_bound r n' ltac:(lia) Hn') as Hb.
  rewrite <- Hcount in Hb. now rewrite !Z.mod_small in H by lia.
Qed.

Lemma digits_head (r : Z) (w : nat) :
  0 < r ->
  forall n,
    Digits.digits r (S w) n
    = String (Digits.digitChar ((n / r ^ Z.of_nat w) mod r)) (Digits.digits r w n).
Proof.
  intros Hr. induction w as [|w IH]; intros n.
  - cbn [Digits.digits append Str.chr]. simpl (r ^ Z.of_nat 0). now rewrite Z.div_1_r.
  - change (Digits.digits r (S (S w)) n)
      with (Digits.digits r (S w) (n / r) ++ Str.chr (Digits.digitChar (n mod r))).
    rewrite IH. cbn [append]. f_equal.
    rewrite Z.div_div by (try apply Z.pow_pos_nonneg; lia).
    now rewrite Nat2Z.inj_succ, Z.pow_succ_r by lia.
Qed.

Lemma count_lower (r n : Z) : 2 <= r -> 1 <= n -> r ^ (Z.of_nat (Digits.count r n) - 1) <= n.
Proof. intros Hr Hn. now apply countFuel_lower. Qed.

(** What is printed of an integer above zero begins with a digit that is
    not zero. *)
Lemma render_head (r n : Z) :
  2 <= r <= 16 -> 0 < n ->
  exists c s, Digits.render r n = String c s /\ Str.upper c <> "0"%char.
Proof.
  intros Hr Hn. unfold Digits.render.
  pose proof (count_lower r n ltac:(lia) ltac:(lia)) as Hlow.
  pose proof (count_bound r n ltac:(lia) ltac:(lia)) as Hhigh.
  destruct (Digits.count r n) as [|w]; [simpl in Hhigh; lia|].
  rewrite digits_head by lia. eexists; eexists; split; [reflexivity|].
  replace (Z.of_nat (S w) - 1) with (Z.of_nat w) in Hlow by lia.
  rewrite Nat2Z.inj_succ, Z.pow_succ_r in Hhigh by lia.
  pose proof (Z.pow_pos_nonneg r (Z.of_nat w) ltac:(lia) ltac:(lia)) as Hpow.
  assert (Hq : 1 <= n / r ^ Z.of_nat w < r).
  { split; [apply Z.div_le_lower_bound; lia | apply Z.div_lt_upper_bound; lia]. }
  rewrite Z.mod_small by lia. apply upper_digitChar_nonzero. lia.
Qed.

Lemma naturalValue_nonnegative (x : number) : 0 <= Spec.naturalValue x.
Proof.
  destruct x as [| |neg m e]; try (simpl; lia).
  unfold Spec.naturalValue. apply Z.div_pos.
  - unfold Number.numerator. destruct (Z.leb_spec 0 e); [|lia].
    apply Z.mul_nonneg_nonneg; [lia | apply Z.pow_nonneg; lia].
  - apply denominator_positive.
Qed.

(** The suffix test, for a value with no fewer digits than the literal's
    number has. *)
Lemma suffix_test_by_value (text digits : string) (radix V : Z) (j : nat)
    (x : number) :
  Spec.nonDecimal text = Some (radix, digits) ->
  isNatural x = true -> 0 <= V ->
  Spec.rawDigits digits = Str.repeat "0" j ++ Str.toUpperCase (Digits.render radix V) ->
  (Digits.count radix V <= Digits.count radix (Spec.naturalValue x))%nat ->
  losesPrecision ecma (lit text x) = Ok (negb (V =? Spec.naturalValue x)).
Proof.
  intros Hform Hnatural HV Hdigits Hcount.
  pose proof (nonDecimal_radix _ _ _ Hform) as Hradix.
  assert (Hr : 2 <= radix <= 16) by lia.
  pose proof (naturalValue_nonnegative x) as HV'.
  assert (Hprint : toString ecma (VNumber x) radix
                   = Ok (Digits.render radix (Spec.naturalValue x)))
    by (cbn [toString ecma]; now rewrite toString_natural).
  unfold lit.
  rewrite (nonDecimal_verdict ecma _ _ _ _ _ Hform Hprint)
    by (now apply render_radixDigits).
  rewrite Hdigits. do 2 f_equal.
  destruct (Z.eqb_spec V (Spec.naturalValue x)) as [<- | Hne].
  - apply endsWith_iff. now exists (Str.repeat "0" j).
  - destruct (Str.endsWith _ _) eqn:Hends; [exfalso | reflexivity].
    apply endsWith_iff in Hends as [before Hends].
    assert (Hlen : (length before <= length (Str.repeat "0" j))%nat).
    { apply (f_equal length) in Hends.
      rewrite !length_append, !length_toUpperCase, !length_render in Hends.
      rewrite length_repeat in *. lia. }
    symmetry in Hends. destruct (append_split _ _ _ _ Hends Hlen) as (m & Hzeros & Hvalue).
    assert (Hm : m = Str.repeat "0" (length m)).
    { apply zeros_of_all.
      pose proof (all_repeat Spec.isZeroChar "0" j eq_refl) as Hall.
      rewrite Hzeros, all_append in Hall. now apply andb_prop in Hall as [_ Hall]. }
    destruct (length m) as [|k] eqn:Hk.
    + rewrite Hm in Hvalue. cbn [Str.repeat append] in Hvalue.
      apply render_upper_inj in Hvalue; try assumption. now apply Hne.
    + assert (Hpositive : 0 < Spec.naturalValue x).
      { destruct (Z.eq_dec (Spec.naturalValue x) 0) as [Hzero | Hnz]; [|lia].
        apply (f_equal length) in Hvalue.
        rewrite length_append, !length_toUpperCase, !length_render, Hk, Hzero in Hvalue.
        pose proof (count_positive radix V).
        change (Digits.count radix 0) with 1%nat in Hvalue. lia. }
      destruct (render_head radix _ Hr Hpositive) as (c & s & Hrender & Hc).
      rewrite Hrender, Hm in Hvalue. cbn [Str.toUpperCase Str.repeat append] in Hvalue.
      injection Hvalue as Hhead _. contradiction.
Qed.

(** X20.  notBaseTenLosesPrecision (lines 69-82): the suffix test is a test of
    the value.  For a binary, octal or hex literal whose digits are, leading
    zeros, letter case and separators aside, the digits of [V], and a value
    that has no fewer digits than [V] has, losesPrecision returns true
    exactly when the value is not [V]. *)
Theorem non_decimal_verdict_by_value (text digits : string) (radix V : Z) (j : nat)
    (x : number) :
  Spec.nonDecimal text = Some (radix, digits) ->
  isNatural x = true -> 0 <= V ->
  Spec.rawDigits digits = Str.repeat "0" j ++ Str.toUpperCase (Digits.render radix V) ->
  (Digits.count radix V <= Digits.count radix (Spec.naturalValue x))%nat ->
  losesPrecision ecma (lit text x) = Ok (negb (V =? Spec.naturalValue x)).
Proof. apply suffix_test_by_value. Qed.

Lemma non_decimal_verdict_by_value_witness :
  losesPrecision ecma (lit "0x20000000000001" (Number.ofInteger 9007199254740993)) = Ok true
  /\ losesPrecision ecma (lit "0X001f" (integer 31)) = Ok false.
Proof.
  split.
  - apply (non_decimal_verdict_by_value "0x20000000000001" "20000000000001" 16
             9007199254740993 0); try reflexivity; try lia; vm_compute; lia.
  - apply (non_decimal_verdict_by_value "0X001f" "001f" 16 31 2);
      try reflexivity; try lia; vm_compute; lia.
Defined.

(** The decoded value of an integer is no less than the power of two the
    integer begins with. *)
Lemma ofInteger_value (n : N) :
  (0 < n)%N -> isFinite (Number.ofInteger n) = true ->
  isNatural (Number.ofInteger n) = true
  /\ 2 ^ Z.log2 (Z.of_N n) <= Spec.naturalValue (Number.ofInteger n).
Proof.
  intros Hn. unfold Number.ofInteger. cbv zeta.
  pose proof (Z.log2_spec (Z.of_N n) ltac:(lia)) as [Hlow _].
  destruct (Z.leb_spec (Z.log2 (Z.of_N n) - 52) 0) as [Hsmall | Hlarge].
  - intros _. split; [cbn [isNatural]; now rewrite orb_true_r|].
    unfold Spec.naturalValue, Number.numerator, Number.denominator. cbn [Z.leb Z.compare].
    rewrite Z.pow_0_r, Z.mul_1_r, Z.div_1_r. exact Hlow.
  - set (k := Z.log2 (Z.of_N n) - 52) in *.
    set (q := if (2 ^ (k - 1) <? Z.of_N n mod 2 ^ k)
                 || ((Z.of_N n mod 2 ^ k =? 2 ^ (k - 1)) && Z.odd (Z.of_N n / 2 ^ k))
              then Z.of_N n / 2 ^ k + 1 else Z.of_N n / 2 ^ k).
    pose proof (Z.pow_pos_nonneg 2 k ltac:(lia) ltac:(lia)) as Hk.
    pose proof (Z.pow_pos_nonneg 2 52 ltac:(lia) ltac:(lia)) as H52.
    assert (Hsplit : 2 ^ Z.log2 (Z.of_N n) = 2 ^ k * 2 ^ 52).
    { rewrite <- Z.pow_add_r by lia. f_equal. unfold k. lia. }
    assert (Hq : 2 ^ 52 <= q).
    { assert (2 ^ 52 <= Z.of_N n / 2 ^ k) by (apply Z.div_le_lower_bound; lia).
      unfold q. destruct (_ || _); lia. }
    destruct (2 ^ 1024 <=? q * 2 ^ k); [discriminate|]. intros _.
    assert (Hleb : (0 <=? k) = true) by (apply Z.leb_le; lia).
    split.
    + cbn [isNatural negb andb]. now rewrite Hleb, orb_true_r.
    + unfold Spec.naturalValue, Number.numerator, Number.denominator.
      rewrite Hleb, Z.div_1_r, Z2N.id by lia. nia.
Qed.

(** In a radix that is a power of two, an integer that is no less than
    the power of two another begins with has no fewer digits. *)
Lemma count_above_power (radix V V' : Z) :
  radix = 2 \/ radix = 8 \/ radix = 16 -> 0 < V -> 2 ^ Z.log2 V <= V' ->
  (Digits.count radix V <= Digits.count radix V')%nat.
Proof.
  intros Hradix HV Hpower.
  assert (Hb : exists b, 1 <= b /\ radix = 2 ^ b).
  { destruct Hradix as [-> | [-> | ->]]; [exists 1 | exists 3 | exists 4]; split; lia || reflexivity. }
  destruct Hb as (b & Hb & Hr).
  assert (Hr2 : 2 <= radix) by (destruct Hradix as [-> | [-> | ->]]; lia).
  pose proof (count_lower radix V Hr2 ltac:(lia)) as Hlow.
  pose proof (count_positive radix V) as Hone.
  assert (HV' : 0 <= V') by (pose proof (Z.pow_pos_nonneg 2 (Z.log2 V) ltac:(lia) (Z.log2_nonneg V)); lia).
  pose proof (count_bound radix V' Hr2 HV') as Hhigh.
  set (c := Z.of_nat (Digits.count radix V)) in *.
  assert (Hle : radix ^ (c - 1) <= 2 ^ Z.log2 V).
  { rewrite Hr, <- Z.pow_mul_r by lia.
    apply Z.pow_le_mono_r; [lia|]. apply Z.log2_le_pow2; [assumption|].
    rewrite Z.pow_mul_r, <- Hr by lia. exact Hlow. }
  assert (Hlt : radix ^ (c - 1) < radix ^ Z.of_nat (Digits.count radix V')) by lia.
  apply Z.pow_lt_mono_r_iff in Hlt; lia.
Qed.

(** X21.  notBaseTenLosesPrecision (lines 69-82) on the value a parser decodes:
    a binary, octal or hex literal is flagged exactly when the nearest
    Number to the integer its digits spell is another integer, that is when
    decoding rounded it. *)
Theorem non_decimal_flagged_when_rounded (text digits : string) (radix V : Z) (j : nat) :
  Spec.nonDecimal text = Some (radix, digits) ->
  0 <= V ->
  Spec.rawDigits digits = Str.repeat "0" j ++ Str.toUpperCase (Digits.render radix V) ->
  isFinite (Number.ofInteger (Z.to_N V)) = true ->
  losesPrecision ecma (lit text (Number.ofInteger (Z.to_N V)))
  = Ok (negb (V =? Spec.naturalValue (Number.ofInteger (Z.to_N V)))).
Proof.
  intros Hform HV Hdigits Hfinite.
  pose proof (nonDecimal_radix _ _ _ Hform) as Hradix.
  destruct (Z.eq_dec V 0) as [-> | Hnz].
  - change (Number.ofInteger (Z.to_N 0)) with zero in *.
    exact (suffix_test_by_value text digits radix 0 j zero Hform eq_refl HV Hdigits
             (Nat.le_refl _)).
  - destruct (ofInteger_value (Z.to_N V) ltac:(lia) Hfinite) as [Hnatural Hpower].
    rewrite Z2N.id in Hpower by lia.
    apply (suffix_test_by_value text digits radix V j); try assumption.
    apply count_above_power; [assumption | lia | assumption].
Qed.

Lemma non_decimal_flagged_when_rounded_witness :
  losesPrecision ecma (lit "0o1000000000000000001" (Number.ofInteger 18014398509481985))
  = Ok true
  /\ losesPrecision ecma (lit "0b0111" (Number.ofInteger 7)) = Ok false.
Proof.
  split.
  - apply (non_decimal_flagged_when_rounded "0o1000000000000000001" "1000000000000000001"
             8 18014398509481985 0); try reflexivity. lia.
  - apply (non_decimal_flagged_when_rounded "0b0111" "0111" 2 7 1); try reflexivity. lia.
Defined.

(** ** Forms of the same number *)

(** A number has one way of being [p] digits times a power of ten. *)
Lemma scientific_unique (n V1 V2 e1 e2 : Z) :
  0 <= n -> 0 <= e1 -> 0 <= e2 ->
  10 ^ n <= V1 < 10 ^ (n + 1) -> 10 ^ n <= V2 < 10 ^ (n + 1) ->
  V1 * 10 ^ e1 = V2 * 10 ^ e2 -> V1 = V2 /\ e1 = e2.
Proof.
  intros Hn He1 He2 H1 H2 H.
  pose proof (pow10_positive n Hn) as Hpn.
  assert (Hnext : 10 ^ (n + 1) = 10 * 10 ^ n)
    by (replace (n + 1) with (Z.succ n) by lia; apply Z.pow_succ_r; lia).
  assert (Hstep : forall a b x y,
             0 <= a -> a < b -> 10 ^ n <= x < 10 ^ (n + 1) -> 10 ^ n <= y < 10 ^ (n + 1) ->
             x * 10 ^ a = y * 10 ^ b -> False).
  { intros a b x y Ha Hab Hx Hy Heq.
    replace b with (a + (b - a)) in Heq by lia. rewrite pow10_split in Heq by lia.
    pose proof (pow10_positive a Ha) as Hpa.
    assert (Hx' : x = y * 10 ^ (b - a)) by nia.
    assert (Hten : 10 <= 10 ^ (b - a)).
    { replace (b - a) with (Z.succ (b - a - 1)) by lia. rewrite Z.pow_succ_r by lia.
      pose proof (pow10_positive (b - a - 1) ltac:(lia)). lia. }
    nia. }
  destruct (Z.lt_trichotomy e1 e2) as [Hlt | [Heq | Hgt]].
  - exfalso. exact (Hstep e1 e2 V1 V2 He1 Hlt H1 H2 H).
  - subst e2. split; [|reflexivity].
    pose proof (pow10_positive e1 He1). nia.
  - exfalso. exact (Hstep e2 e1 V2 V1 He2 Hgt H2 H1 (eq_sym H)).
Qed.

(** C2 (amended).  "123.45", "1.2345e2" and "12345e-2" normalize to the same
    string, "1.2345e2".  In general, two decimal literals of a number that
    is not zero (with no two leading zeros where there is no point)
    normalize to the same string exactly when they denote the same value
    and ask for the same number of digits; the exponents and the magnitudes
    are integers the runtime is exact on. *)
Theorem C2_same_number_same_form :
  (convertNumberToScientificNotation "123.45" = "1.2345e2"
   /\ convertNumberToScientificNotation "1.2345e2" = "1.2345e2"
   /\ convertNumberToScientificNotation "12345e-2" = "1.2345e2")
  /\ forall d1 d2 : Spec.Decimal,
       Spec.wf d1 = true -> Spec.wf d2 = true ->
       0 < Spec.digitsValue d1 -> 0 < Spec.digitsValue d2 ->
       (Spec.fraction d1 = None -> Str.startsWith (Spec.whole d1) "00" = false) ->
       (Spec.fraction d2 = None -> Str.startsWith (Spec.whole d2) "00" = false) ->
       Spec.safe (Spec.exponentValue d1) = true ->
       Spec.safe (Spec.exponentValue d2) = true ->
       Spec.safe (Spec.exponentValue d1 + magnitude (normalizedNumber (Spec.text d1))) = true ->
       Spec.safe (Spec.exponentValue d2 + magnitude (normalizedNumber (Spec.text d2))) = true ->
       (Spec.sameValue d1 d2
        /\ requestedPrecision (convertNumberToScientificNotation (Spec.text d1))
           = requestedPrecision (convertNumberToScientificNotation (Spec.text d2)))
       <-> convertNumberToScientificNotation (Spec.text d1)
           = convertNumberToScientificNotation (Spec.text d2).
Proof.
  split; [repeat split; vm_compute; reflexivity|].
  intros d1 d2 Hwf1 Hwf2 Hp1 Hp2 Hz1 Hz2 _ _ _ _.
  destruct (normalizedNumber_value d1 Hwf1 Hp1 Hz1)
    as (c1 & r1 & t1 & Hdc1 & Hc1 & Hdr1 & Hco1 & Hm1 & (j1 & Hs1) & _ & _).
  destruct (normalizedNumber_value d2 Hwf2 Hp2 Hz2)
    as (c2 & r2 & t2 & Hdc2 & Hc2 & Hdr2 & Hco2 & Hm2 & (j2 & Hs2) & _ & _).
  pose proof (normalizedNumber_digitsValue d1 j1 t1 c1 r1 Hs1) as Hv1.
  pose proof (normalizedNumber_digitsValue d2 j2 t2 c2 r2 Hs2) as Hv2.
  destruct (requestedPrecision_convert (Spec.text d1))
    as [[Hu _] | (a1 & b1 & Hco1' & Hpr1)]; [rewrite Hco1 in Hu; discriminate|].
  rewrite Hco1 in Hco1'. injection Hco1' as <- <-.
  destruct (requestedPrecision_convert (Spec.text d2))
    as [[Hu _] | (a2 & b2 & Hco2' & Hpr2)]; [rewrite Hco2 in Hu; discriminate|].
  rewrite Hco2 in Hco2'. injection Hco2' as <- <-.
  rewrite Hpr1, Hpr2, (convert_text d1 Hwf1), (convert_text d2 Hwf2), Hco1, Hco2.
  set (M1 := Spec.exponentValue d1 + magnitude (normalizedNumber (Spec.text d1))) in *.
  set (M2 := Spec.exponentValue d2 + magnitude (normalizedNumber (Spec.text d2))) in *.
  clearbody M1 M2.
  assert (HD1 : Str.all Digits.isDigit (String c1 r1) = true) by (simpl; now rewrite Hdc1, Hdr1).
  assert (HD2 : Str.all Digits.isDigit (String c2 r2) = true) by (simpl; now rewrite Hdc2, Hdr2).
  pose proof (valueFrom_lower c1 r1 Hdc1 Hc1 Hdr1) as Hl1.
  pose proof (valueFrom_lower c2 r2 Hdc2 Hc2 Hdr2) as Hl2.
  pose proof (valueFrom_bounds _ HD1) as [_ Hu1].
  pose proof (valueFrom_bounds _ HD2) as [_ Hu2].
  cbn [length] in Hu1, Hu2.
  unfold Spec.sameValue. cbv zeta. rewrite Hv1, Hv2.
  set (s1 := Spec.scale d1) in *. set (s2 := Spec.scale d2) in *. clearbody s1 s2.
  set (low := Z.min s1 s2).
  set (V1 := Digits.valueFrom 0 (String c1 r1)) in *.
  set (V2 := Digits.valueFrom 0 (String c2 r2)) in *.
  assert (Hjoin : forall V (t : nat) s,
             low <= s ->
             V * 10 ^ Z.of_nat t * 10 ^ (s - low) = V * 10 ^ (s + Z.of_nat t - low)).
  { intros V t s Hs. rewrite <- Z.mul_assoc, <- pow10_split by lia. do 2 f_equal. lia. }
  rewrite (Hjoin V1 t1 s1), (Hjoin V2 t2 s2) by (unfold low; lia).
  split.
  - intros [Hsame Hprecision].
    assert (Hlen : length r1 = length r2) by lia.
    rewrite Nat2Z.inj_succ in Hu1, Hu2. unfold Z.succ in Hu1, Hu2.
    rewrite Hlen in Hl1, Hu1.
    destruct (scientific_unique (Z.of_nat (length r2)) V1 V2
                (s1 + Z.of_nat t1 - low) (s2 + Z.of_nat t2 - low)
                ltac:(lia) ltac:(unfold low; lia) ltac:(unfold low; lia)
                (conj Hl1 Hu1) (conj Hl2 Hu2) Hsame) as [HV He].
    assert (Hdigits : String c1 r1 = String c2 r2)
      by (apply valueFrom_inj; cbn [length]; try assumption; lia).
    injection Hdigits as -> ->.
    apply same_form; [reflexivity | lia].
  - intros Heq.
    apply form_inj in Heq as [HC HM]; try now apply coefficient_excludes.
    injection HC as -> ->. subst M2.
    split; [|reflexivity].
    replace (s2 + Z.of_nat t2 - low) with (s1 + Z.of_nat t1 - low) by lia.
    reflexivity.
Qed.

Lemma C2_same_number_same_form_witness :
  convertNumberToScientificNotation "0.5" = convertNumberToScientificNotation "5E-1"
  /\ convertNumberToScientificNotation "1.50" = convertNumberToScientificNotation "15.0e-1"
  /\ convertNumberToScientificNotation "1200" = convertNumberToScientificNotation "12e2".
Proof.
  split; [|split].
  - apply (proj2 C2_same_number_same_form
             {| Spec.whole := "0"; Spec.fraction := Some "5"; Spec.exponent := None |}
             {| Spec.whole := "5"; Spec.fraction := None;
                Spec.exponent := Some ("E"%char, "-1") |});
      try reflexivity; try discriminate. split; reflexivity.
  - apply (proj2 C2_same_number_same_form
             {| Spec.whole := "1"; Spec.fraction := Some "50"; Spec.exponent := None |}
             {| Spec.whole := "15"; Spec.fraction := Some "0";
                Spec.exponent := Some ("e"%char, "-1") |});
      try reflexivity; try discriminate. split; reflexivity.
  - apply (proj2 C2_same_number_same_form
             {| Spec.whole := "1200"; Spec.fraction := None; Spec.exponent := None |}
             {| Spec.whole := "12"; Spec.fraction := None;
                Spec.exponent := Some ("e"%char, "2") |});
      try reflexivity. split; reflexivity.
Defined.
